(** * South Carolina bill scraper: a shallow embedding of [scrapers/sc/bills.py]

    The development follows the Python module top to bottom: the action
    classifier, the index page resolver, the HTTP version toggle, the vote
    history parser, the roll-call roster parser and the bill type test of
    the detail parser.

    A Python [str] is modelled as a [string] whose characters are the code
    points below 256, and the string functions of module [Py] are Python's
    on that range.  Python's unbounded [int] is [Z], a value that may be
    [None] is an [option], a dict is a [gmap] and a set a [gset]. *)

From Stdlib Require Import ZArith Ascii String.
From stdpp Require Import gmap strings list.

Local Open Scope string_scope.
Local Arguments String.append : simpl nomatch.

(** ** Python string primitives *)

Module Py.

(** [str.lower] on one character: A..Z and the accented capitals
    U+00C0..U+00DE (the sign U+00D7 apart) move up by 32, every other
    character is left alone. *)
Definition lower_ascii (c : ascii) : ascii :=
  let n := nat_of_ascii c in
  if ((65 <=? n) && (n <=? 90)
      || (192 <=? n) && (n <=? 222) && negb (n =? 215))%nat
  then ascii_of_nat (n + 32) else c.

Fixpoint lower (s : string) : string :=
  match s with
  | EmptyString => EmptyString
  | String c t => String (lower_ascii c) (lower t)
  end.

(** [s.startswith(p)] *)
Fixpoint startswith (s p : string) {struct p} : bool :=
  match p with
  | EmptyString => true
  | String a p' =>
      match s with
      | EmptyString => false
      | String b s' => Ascii.eqb b a && startswith s' p'
      end
  end.

(** [needle in hay] for two strings *)
Fixpoint contains (hay needle : string) : bool :=
  startswith hay needle ||
  match hay with
  | EmptyString => false
  | String _ t => contains t needle
  end.

(** The whitespace of [bytes.strip()]: space, tab, line feed, vertical tab,
    form feed and carriage return. *)
Definition is_bytes_space (c : ascii) : bool :=
  let n := nat_of_ascii c in
  ((n =? 32) || (9 <=? n) && (n <=? 13))%nat.

(** The whitespace of [str.strip()] and of the regular expression class
    [\s]: the six above, the separators U+001C..U+001F, U+0085 and U+00A0. *)
Definition is_space (c : ascii) : bool :=
  let n := nat_of_ascii c in
  (is_bytes_space c || (28 <=? n) && (n <=? 31) || (n =? 133) || (n =? 160))%nat.

Fixpoint lstrip (ws : ascii -> bool) (s : string) : string :=
  match s with
  | EmptyString => EmptyString
  | String c t => if ws c then lstrip ws t else s
  end.

Fixpoint rstrip (ws : ascii -> bool) (s : string) : string :=
  match s with
  | EmptyString => EmptyString
  | String c t =>
      match rstrip ws t with
      | EmptyString => if ws c then EmptyString else String c EmptyString
      | t' => String c t'
      end
  end.

(** [s.strip()], for the whitespace [ws] of the type of [s] *)
Definition strip (ws : ascii -> bool) (s : string) : string :=
  rstrip ws (lstrip ws s).

(** [s.replace(old, new)] for a one character [old] *)
Fixpoint replace_char (old : ascii) (new : string) (s : string) : string :=
  match s with
  | EmptyString => EmptyString
  | String c t =>
      if Ascii.eqb c old then new ++ replace_char old new t
      else String c (replace_char old new t)
  end.

(** [s.split(sep)] for a one character [sep]; [cur] is the piece read so
    far. *)
Fixpoint split_char (sep : ascii) (cur : string) (s : string) : list string :=
  match s with
  | EmptyString => [cur]
  | String c t =>
      if Ascii.eqb c sep then cur :: split_char sep EmptyString t
      else split_char sep (cur ++ String c EmptyString) t
  end.

(** [re.split(r"C{3,}", s)] for a class [C] of characters, here the
    predicate [ws]: the pieces of [s] between its maximal runs of three or
    more characters of the class.  [tok] is the piece read so far and
    [run] the characters of the class read after it. *)
Fixpoint re_split_runs3 (ws : ascii -> bool) (tok run : string) (s : string)
  : list string :=
  match s with
  | EmptyString =>
      if (3 <=? String.length run)%nat then [tok; EmptyString] else [tok ++ run]
  | String c t =>
      if ws c then re_split_runs3 ws tok (run ++ String c EmptyString) t
      else if (3 <=? String.length run)%nat
           then tok :: re_split_runs3 ws (String c EmptyString) EmptyString t
           else re_split_runs3 ws (tok ++ run ++ String c EmptyString) EmptyString t
  end.

(** [re.split(r"\s{3,}", s)] *)
Definition re_split_ws3 (s : string) : list string :=
  re_split_runs3 is_space "" "" s.

(** [str(x)] of a string or [None] *)
Definition str (x : option string) : string :=
  match x with
  | Some s => s
  | None => "None"
  end.

(** Truth of a string or [None] in a condition *)
Definition truthy (x : option string) : bool :=
  match x with
  | Some s => negb (String.eqb s "")
  | None => false
  end.

End Py.

(** ** Action classifier (bills.py, [action_type]) *)

(** A rule of the table carries either one tag or a list of tags. *)
Inductive atype : Type :=
| Tag (t : string)
| Tags (ts : list string).

Definition classifiers : list (string * atype) :=
  [ ("Adopted", Tag "passage");
    ("Amended and adopted", Tags ["passage"; "amendment-passage"]);
    ("Amended", Tag "amendment-passage");
    ("Certain items vetoed", Tag "executive-veto-line-item");
    ("Committed to", Tag "referral-committee");
    ("Committee Amendment Adopted", Tag "amendment-passage");
    ("Committee Amendment Amended and Adopted",
       Tags ["amendment-passage"; "amendment-amendment"]);
    ("Committee Amendment Amended", Tag "amendment-amendment");
    ("Committee Amendment Tabled", Tag "amendment-deferral");
    ("Committee report: Favorable", Tag "committee-passage-favorable");
    ("Committee report: Majority favorable", Tag "committee-passage");
    ("House amendment amended", Tag "amendment-amendment");
    ("Introduced and adopted", Tags ["introduction"; "passage"]);
    ("Introduced, adopted", Tags ["introduction"; "passage"]);
    ("Introduced and read first time", Tags ["introduction"; "reading-1"]);
    ("Introduced, read first time", Tags ["introduction"; "reading-1"]);
    ("Introduced", Tag "introduction");
    ("Prefiled", Tag "filing");
    ("Read second time", Tag "reading-2");
    ("Read third time", Tags ["passage"; "reading-3"]);
    ("Recommitted to Committee", Tag "referral-committee");
    ("Referred to Committee", Tag "referral-committee");
    ("Rejected", Tag "failure");
    ("Senate amendment amended", Tag "amendment-amendment");
    ("Signed by governor", Tag "executive-signature");
    ("Signed by Governor", Tag "executive-signature");
    ("Tabled", Tag "failure");
    ("Veto overridden", Tag "veto-override-passage");
    ("Veto sustained", Tag "veto-override-failure");
    ("Vetoed by Governor", Tag "executive-veto") ].

(** The [for prefix, atype in classifiers] loop with its early [return]. *)
Fixpoint action_type_loop (action : string) (cs : list (string * atype))
  : option atype :=
  match cs with
  | [] => None
  | (prefix, t) :: cs' =>
      if Py.startswith (Py.lower action) (Py.lower prefix) then Some t
      else action_type_loop action cs'
  end.

Definition action_type (action : string) : option atype :=
  action_type_loop action classifiers.

(** ** Index page resolver (bills.py, [get_index_url]) *)

(** Ids of the archived bill index pages of past sessions, keyed by
    ["{session}-{chamber}"]. *)
Definition web_archive_ids : gmap string string :=
  list_to_map
    [ ("2017-2018-lower", "20181101144929");
      ("2017-2018-upper", "20181101144422");
      ("2019-2020-lower", "20201101155143");
      ("2019-2020-upper", "20201101152857");
      ("2021-2022-lower", "20221110101038");
      ("2021-2022-upper", "20221110101352") ].

(** The URL of the live index page, the first assignment of [index_url]. *)
Definition direct_index_url (chamber_letter : string) : string :=
  "https://www.scstatehouse.gov/sessphp/" ++ chamber_letter ++ "intros.php".

Definition get_index_url (session chamber chamber_letter : string) : string :=
  let index_url := direct_index_url chamber_letter in
  let web_archive_id := web_archive_ids !! (session ++ "-" ++ chamber) in
  match web_archive_id with
  | Some id =>
      if Py.truthy web_archive_id then
        let web_arch_prepend := "https://web.archive.org/web/" ++ id in
        web_arch_prepend ++ "/" ++ index_url
      else index_url
  | None => index_url
  end.

(** ** Exceptions and results *)

Inductive exn : Type :=
| AssertionError
| ValueError (msg : string)
| TypeError (msg : string)
| AttributeError (msg : string)
| IndexError (msg : string)
| TransportError (msg : string).

(** A computation that returns or raises. *)
Inductive res (A : Type) : Type :=
| Return (a : A)
| Raise (e : exn).
Arguments Return {A} a.
Arguments Raise {A} e.

Definition rbind {A B} (r : res A) (k : A -> res B) : res B :=
  match r with
  | Return a => k a
  | Raise e => Raise e
  end.

Notation "'let!' x ':=' r 'in' k" := (rbind r (fun x => k))
  (at level 10, x name, r at level 100, k at level 200,
   format "'[v' 'let!'  x  :=  r  'in' '/' k ']'").

(** ** HTTP version toggle (bills.py, lines 19-41 and 145-151) *)

Module Http.

(** The two class attributes of [http.client.HTTPConnection]. *)
Record version := { http_vsn : Z; http_vsn_str : string }.

(** The process: the class attributes as they are now, and the module
    globals [_HTTP_VSN], [_HTTP_VSN_STR] that captured them when bills.py
    was imported. *)
Record process := {
  conn : version;
  saved : version
}.

(** Importing bills.py: lines 19-20. *)
Definition import_bills (v : version) : process :=
  {| conn := v; saved := v |}.

Definition downgrade_http_version (p : process) : process :=
  {| conn := {| http_vsn := 10; http_vsn_str := "HTTP/1.0" |};
     saved := saved p |}.

Definition undo_downgrade_http_version (p : process) : process :=
  {| conn := saved p; saved := saved p |}.

(** A method of the scraper: it runs in a process, returns or raises, and
    leaves a process behind. *)
Definition method (A : Type) : Type := process -> res A * process.

(** The decorator: downgrade, call, undo, return.  An exception of the
    call leaves the wrapper at once: there is no [try]/[finally]. *)
Definition toggle_http_version {A} (m : method A) : method A :=
  fun p =>
    let p1 := downgrade_http_version p in
    match m p1 with
    | (Return response, p2) =>
        let p3 := undo_downgrade_http_version p2 in
        (Return response, p3)
    | (Raise e, p2) => (Raise e, p2)
    end.

(** [downgraded_http_get] and [downgraded_http_post] wrap the scraper's
    own [get] and [post], here the parameters [get] and [post]. *)
Definition downgraded_http_get {A} (get : string -> method A) (url : string)
  : method A :=
  toggle_http_version (get url).

Definition downgraded_http_post {A} (post : string -> method A) (url : string)
  : method A :=
  toggle_http_version (post url).

(** A request leaves the version attributes alone. *)
Definition keeps_version {A} (m : method A) : Prop :=
  forall p, snd (m p) = p.

End Http.

(** ** Records of the scrape ([openstates.scrape]) *)

(** A bill as [scrape_details] creates it, as far as votes refer to it. *)
Record Bill := {
  bill_id : string;
  bill_session : string;
  bill_chamber : string;
  bill_title : string;
  bill_classification : string
}.

(** A vote event: the keyword arguments of its constructor, then the lists
    its methods fill. *)
Record VoteEvent := {
  chamber : string;
  start_date : string;
  motion_text : option string;
  result : string;
  classification : string;
  bill : Bill;
  counts : list (string * Z);
  votes : list (string * string);
  sources : list (option string);
  dedupe_key : option string
}.

Module Vote.

Definition new (chamber start_date : string) (motion_text : option string)
    (result classification : string) (bill : Bill) : VoteEvent :=
  {| chamber := chamber; start_date := start_date; motion_text := motion_text;
     result := result; classification := classification; bill := bill;
     counts := []; votes := []; sources := []; dedupe_key := None |}.

(** [set_count] overwrites the count of an option already present and
    appends a new one otherwise. *)
Fixpoint set_count_in (cs : list (string * Z)) (opt : string) (value : Z)
  : list (string * Z) :=
  match cs with
  | [] => [(opt, value)]
  | (o, x) :: cs' =>
      if String.eqb o opt then (o, value) :: cs'
      else (o, x) :: set_count_in cs' opt value
  end.

Definition set_count (v : VoteEvent) (opt : string) (value : Z) : VoteEvent :=
  {| chamber := chamber v; start_date := start_date v;
     motion_text := motion_text v; result := result v;
     classification := classification v; bill := bill v;
     counts := set_count_in (counts v) opt value;
     votes := votes v; sources := sources v; dedupe_key := dedupe_key v |}.

Definition add_source (v : VoteEvent) (url : option string) : VoteEvent :=
  {| chamber := chamber v; start_date := start_date v;
     motion_text := motion_text v; result := result v;
     classification := classification v; bill := bill v;
     counts := counts v; votes := votes v;
     sources := sources v ++ [url]; dedupe_key := dedupe_key v |}.

(** [vote(option, voter)] appends one voter with the option voted. *)
Definition vote (v : VoteEvent) (opt voter : string) : VoteEvent :=
  {| chamber := chamber v; start_date := start_date v;
     motion_text := motion_text v; result := result v;
     classification := classification v; bill := bill v;
     counts := counts v; votes := votes v ++ [(opt, voter)];
     sources := sources v; dedupe_key := dedupe_key v |}.

Definition yes (v : VoteEvent) (name : string) : VoteEvent := vote v "yes" name.
Definition no (v : VoteEvent) (name : string) : VoteEvent := vote v "no" name.

Definition set_dedupe_key (v : VoteEvent) (key : option string) : VoteEvent :=
  {| chamber := chamber v; start_date := start_date v;
     motion_text := motion_text v; result := result v;
     classification := classification v; bill := bill v;
     counts := counts v; votes := votes v;
     sources := sources v; dedupe_key := key |}.

(** The voters recorded with a given option, in order. *)
Definition voters (opt : string) (v : VoteEvent) : list string :=
  map snd (filter (fun ov => fst ov = opt) (votes v)).

(** The voters recorded with any option but yes and no. *)
Definition other_voters (v : VoteEvent) : list string :=
  map snd (filter (fun ov => fst ov ≠ "yes" ∧ fst ov ≠ "no") (votes v)).

Definition count (opt : string) (v : VoteEvent) : option Z :=
  (fun p => snd (snd p)) <$> list_find (fun ov => fst ov = opt) (counts v).

End Vote.

(** ** Roll-call roster parser (bills.py, [scrape_rollcall]) *)

(** The bound method held by [current_vfunc]. *)
Inductive vfunc : Type :=
| vote_yes    (* vote.yes *)
| vote_no     (* vote.no *)
| vote_vote.  (* vote.vote *)

(** The two locals of the loop. *)
Record roster := {
  current_vfunc : option vfunc;
  option_tag : option string    (* the local [option] *)
}.

(** A call of the loop body on the vote: [current_vfunc(name)] or
    [current_vfunc(option=option, voter=name)]. *)
Inductive vcall : Type :=
| Call (f : vfunc) (name : string)
| CallKw (f : vfunc) (opt voter : string).

(** [current_vfunc(name.strip())] when [not option], and the keyword call
    otherwise. *)
Definition record_call (f : vfunc) (opt : option string) (name : string)
  : vcall :=
  match opt with
  | Some o =>
      if Py.truthy opt then CallKw f o (Py.strip Py.is_space name)
      else Call f (Py.strip Py.is_space name)
  | None => Call f (Py.strip Py.is_space name)
  end.

(** The inner [for name in names] loop with its test [if name]. *)
Definition name_calls (f : vfunc) (opt : option string) (names : list string)
  : list vcall :=
  map (record_call f opt) (filter (fun name => Py.truthy (Some name) = true) names).

Definition switch (f : vfunc) (opt : option string) : roster :=
  {| current_vfunc := Some f; option_tag := opt |}.

(** [line.strip().decode()].  The bytes of a line are the UTF-8 of its
    text, in which the whitespace of [bytes.strip()] stands for itself, so
    the trimming of the bytes is that of the text. *)
Definition line_of (raw : string) : string := Py.strip Py.is_bytes_space raw.

(** One turn of [for line in pdflines.split(b"\n")]: the locals after the
    line and the calls made on the vote. *)
Definition rollcall_line (raw : string) (st : roster) : roster * list vcall :=
  let line := line_of raw in
  if Py.startswith line "YEAS" || Py.startswith line "AYES" then
    (switch vote_yes (option_tag st), [])
  else if Py.startswith line "NAYS" then
    (switch vote_no (option_tag st), [])
  else if Py.startswith line "EXCUSED" then
    (switch vote_vote (Some "excused"), [])
  else if Py.startswith line "NOT VOTING" then
    (switch vote_vote (Some "excused"), [])
  else if Py.startswith line "ABSTAIN" then
    (switch vote_vote (Some "excused"), [])
  else if Py.startswith line "PAIRED" then
    (switch vote_vote (Some "paired"), [])
  else if negb (Py.truthy (Some line)) || Py.startswith line "Page " then
    (st, [])
  else
    match current_vfunc st with
    | Some f =>
        let names := Py.re_split_ws3 line in
        (st, name_calls f (option_tag st) names)
    | None => (st, [])
    end.

(** The calls of the whole loop, line after line. *)
Fixpoint rollcall_calls (lines : list string) (st : roster) : list vcall :=
  match lines with
  | [] => []
  | raw :: rest =>
      let '(st', cs) := rollcall_line raw st in
      cs ++ rollcall_calls rest st'
  end.

(** What a call does to the vote.  [yes] and [no] take the name alone and
    have no parameter [option] or [voter]; [vote] needs both. *)
Definition apply_call (v : VoteEvent) (c : vcall) : res VoteEvent :=
  match c with
  | Call vote_yes name => Return (Vote.yes v name)
  | Call vote_no name => Return (Vote.no v name)
  | Call vote_vote _ =>
      Raise (TypeError "vote() missing 1 required positional argument: 'voter'")
  | CallKw vote_vote opt voter => Return (Vote.vote v opt voter)
  | CallKw vote_yes _ _ =>
      Raise (TypeError "yes() got an unexpected keyword argument 'option'")
  | CallKw vote_no _ _ =>
      Raise (TypeError "no() got an unexpected keyword argument 'option'")
  end.

Fixpoint apply_calls (v : VoteEvent) (cs : list vcall) : res VoteEvent :=
  match cs with
  | [] => Return v
  | c :: cs' => let! v' := apply_call v c in apply_calls v' cs'
  end.

(** The loop on the vote itself: it stops at the first call that raises. *)
Fixpoint rollcall_loop (lines : list string) (st : roster) (v : VoteEvent)
  : res VoteEvent :=
  match lines with
  | [] => Return v
  | raw :: rest =>
      let '(st', cs) := rollcall_line raw st in
      let! v' := apply_calls v cs in
      rollcall_loop rest st' v'
  end.

Definition roster_init : roster :=
  {| current_vfunc := None; option_tag := None |}.

(** The loop of [scrape_rollcall] on the text of the document. *)
Definition parse_rollcall (v : VoteEvent) (pdflines : string) : res VoteEvent :=
  rollcall_loop (Py.split_char "010"%char "" pdflines) roster_init v.

Section Scraper.

(** The world outside of bills.py. *)

(** [int(s)] of a string, [None] where Python raises [ValueError]. *)
Variable int : string -> option Z.

(** [datetime.datetime.strptime(s, format)] and [d.strftime(format)]. *)
Variable datetime : Type.
Variable strptime : string -> string -> option datetime.
Variable strftime : datetime -> string -> string.

(** The text of a roll-call document: [self.urlretrieve(vurl)], then
    [convert_pdf(path, "text")]. *)
Variable pdf_text : option string -> res string.

Definition scrape_rollcall (v : VoteEvent) (vurl : option string)
  : res VoteEvent :=
  let! pdflines := pdf_text vurl in
  parse_rollcall v pdflines.


(** ** Vote history parser (bills.py, [scrape_vote_history]) *)

(** A link [<a>] of a cell: its text and its [href], made absolute. *)
Record anchor := {
  a_text : option string;
  a_href : option string
}.

(** A cell of a table row: its [.text] and its links, [xpath("a")]. *)
Record element := {
  text : option string;
  anchors : list anchor
}.

(** The scraper object: the set of roll-call documents seen in this run and
    the warnings logged. *)
Record scraper := {
  _seen_vote_ids : gset (option string);
  warnings : list string
}.

Definition warning (self : scraper) (msg : string) : scraper :=
  {| _seen_vote_ids := _seen_vote_ids self; warnings := warnings self ++ [msg] |}.

Definition seen_add (self : scraper) (url : option string) : scraper :=
  {| _seen_vote_ids := {[url]} ∪ _seen_vote_ids self; warnings := warnings self |}.

(** [int(td.text)]: a [TypeError] on [None], a [ValueError] on text that is
    no integer. *)
Definition int_text (td : element) : res Z :=
  match text td with
  | None => Raise (TypeError "int() argument must be a string, not 'NoneType'")
  | Some s =>
      match int s with
      | Some z => Return z
      | None => Raise (ValueError "invalid literal for int()")
      end
  end.

(** The non-breaking space, [\xa0]. *)
Definition nbsp : ascii := "160"%char.

Definition timestamp_format : string := "%m/%d/%Y %H:%M %p".

(** Lines 247-248. *)
Definition parse_timestamp (timestamp : element) : res datetime :=
  match text timestamp with
  | None => Raise (AttributeError "'NoneType' object has no attribute 'replace'")
  | Some s =>
      match strptime (Py.replace_char nbsp " " s) timestamp_format with
      | Some d => Return d
      | None => Raise (ValueError "time data does not match format")
      end
  end.

Definition py_assert (b : bool) : res unit :=
  if b then Return tt else Raise AssertionError.

(** Lines 247-285 of the loop body, from the timestamp to the second
    source: the vote built from the eleven cells, and the URL of its
    roll-call document. *)
Definition build_vote (bill : Bill) (vurl : string)
    (timestamp motion vote yeas nays nv exc pres abst total result : element)
  : res (VoteEvent * option string) :=
  let! timestamp := parse_timestamp timestamp in
  let! yeas := int_text yeas in
  let! nays := int_text nays in
  let! nv := int_text nv in
  let! exc := int_text exc in
  let! abst := int_text abst in
  let! pres := int_text pres in
  let others := (nv + exc + abst + pres)%Z in
  let! total := int_text total in
  let! _ := py_assert (yeas + nays + others =? total)%Z in
  let passed :=
    match text result with
    | Some r => if String.eqb r "Passed" then "pass" else "fail"
    | None => "fail"
    end in
  match anchors vote with
  | [] => Raise (IndexError "list index out of range")
  | vote_link :: _ =>
      match a_text vote_link with
      | None => Raise (TypeError "argument of type 'NoneType' is not iterable")
      | Some link_text =>
          let chamber := if Py.contains link_text "[H]" then "lower" else "upper" in
          let vote :=
            Vote.new chamber (strftime timestamp "%Y-%m-%d") (text motion)
              passed "passage" bill in
          let vote := Vote.set_count vote "yes" yeas in
          let vote := Vote.set_count vote "no" nays in
          let vote := Vote.set_count vote "other" others in
          let vote := Vote.add_source vote (Some vurl) in
          let rollcall_pdf := a_href vote_link in
          let! vote := scrape_rollcall vote rollcall_pdf in
          let vote := Vote.add_source vote rollcall_pdf in
          Return (vote, rollcall_pdf)
      end
  end.

(** What one turn of the loop over the rows does: go on to the next row,
    yield a vote and go on, or leave with an exception. *)
Inductive step : Type :=
| Continue (self : scraper)
| Yield (v : VoteEvent) (self : scraper)
| Throw (e : exn) (self : scraper).

(** The body of [for row in doc.xpath("//table/tr")[2:]], on the cells
    [tds] of the row. *)
Definition vote_row (bill : Bill) (vurl : string) (tds : list element)
    (self : scraper) : step :=
  if negb (length tds =? 11)%nat then
    Continue (warning self ("irregular vote row: " ++ vurl))
  else
    match tds with
    | [timestamp; motion; vote; yeas; nays; nv; exc; pres; abst; total; result] =>
        match build_vote bill vurl timestamp motion vote yeas nays nv exc pres
                abst total result with
        | Raise e => Throw e self
        | Return (vote, rollcall_pdf) =>
            if decide (rollcall_pdf ∈ _seen_vote_ids self) then
              Continue
                (warning self
                   ("duplicate usage of " ++ Py.str rollcall_pdf ++ ", skipping"))
            else
              Yield (Vote.set_dedupe_key vote rollcall_pdf)
                (seen_add self rollcall_pdf)
        end
    | _ => Throw (ValueError "wrong number of values to unpack") self
    end.

(** A generator run to its end: the values yielded, the scraper left
    behind, and the exception that ended the run, if one did. *)
Record run := {
  yielded : list VoteEvent;
  final : scraper;
  raised : option exn
}.

Definition run_yield (v : VoteEvent) (r : run) : run :=
  {| yielded := v :: yielded r; final := final r; raised := raised r |}.

(** The loop over the data rows. *)
Fixpoint vote_rows (bill : Bill) (vurl : string) (rows : list (list element))
    (self : scraper) : run :=
  match rows with
  | [] => {| yielded := []; final := self; raised := None |}
  | tds :: rows' =>
      match vote_row bill vurl tds self with
      | Continue self' => vote_rows bill vurl rows' self'
      | Yield v self' => run_yield v (vote_rows bill vurl rows' self')
      | Throw e self' => {| yielded := []; final := self'; raised := Some e |}
      end
  end.

(** The rows of the page at a URL, each with its cells:
    [self.get(vurl).text], parsed, then [doc.xpath("//table/tr")] and
    [row.getchildren()]. *)
Variable table_rows : string -> res (list (list element)).

Definition scrape_vote_history (bill : Bill) (vurl : string) (self : scraper)
  : run :=
  match table_rows vurl with
  | Raise e => {| yielded := []; final := self; raised := Some e |}
  | Return rows => vote_rows bill vurl (drop 2 rows) self
  end.

(** ** The votes of a whole run (bills.py, [scrape]) *)

(** The vote history pages a run visits, in the order of discovery: for
    each bill with a "View Vote History" link, the bill and the link. *)
Fixpoint vote_histories (visits : list (Bill * string)) (self : scraper) : run :=
  match visits with
  | [] => {| yielded := []; final := self; raised := None |}
  | (bill, vurl) :: visits' =>
      let r := scrape_vote_history bill vurl self in
      match raised r with
      | Some e => r
      | None =>
          let r' := vote_histories visits' (final r) in
          {| yielded := yielded r ++ yielded r'; final := final r';
             raised := raised r' |}
      end
  end.

(** [scrape] starts with [self._seen_vote_ids = set()]; every vote event of
    the run comes from a [scrape_vote_history] of [scrape_details]. *)
Definition scrape_votes (visits : list (Bill * string)) (self : scraper) : run :=
  vote_histories visits
    {| _seen_vote_ids := ∅; warnings := warnings self |}.

End Scraper.

Arguments parse_timestamp {datetime} strptime timestamp.
Arguments build_vote int {datetime} strptime strftime pdf_text bill vurl
  timestamp motion vote yeas nays nv exc pres abst total result.
Arguments vote_row int {datetime} strptime strftime pdf_text bill vurl tds self.
Arguments vote_rows int {datetime} strptime strftime pdf_text bill vurl rows self.
Arguments scrape_vote_history int {datetime} strptime strftime pdf_text
  table_rows bill vurl self.
Arguments vote_histories int {datetime} strptime strftime pdf_text table_rows
  visits self.
Arguments scrape_votes int {datetime} strptime strftime pdf_text table_rows
  visits self.

(** ** Bill type of the detail page (bills.py, [scrape_details], lines 366-377) *)

Definition bill_type_of (bill_type : string) : res string :=
  if Py.contains bill_type "General Bill" then Return "bill"
  else if Py.contains bill_type "Concurrent Resolution" then
    Return "concurrent resolution"
  else if Py.contains bill_type "Joint Resolution" then
    Return "joint resolution"
  else if Py.contains bill_type "Resolution" then Return "resolution"
  else Raise (ValueError ("unknown bill type: " ++ bill_type)).

(** ** Sample inputs

    Instances of the outside world small enough to evaluate the scraper
    on: a decimal [int], a clock that reads ["MM/DD/YYYY HH:MM PM"], two
    roll-call documents and a vote history page. *)

Module Sample.

Fixpoint digits (acc : Z) (s : string) : option Z :=
  match s with
  | EmptyString => Some acc
  | String c t =>
      let n := Z.of_nat (nat_of_ascii c) in
      if ((48 <=? n) && (n <=? 57))%Z then digits (10 * acc + (n - 48))%Z t
      else None
  end.

Definition int (s : string) : option Z :=
  match s with
  | EmptyString => None
  | _ => digits 0 s
  end.

Definition strptime (s format : string) : option string :=
  if (String.length s =? 19)%nat then Some s else None.

Definition strftime (d format : string) : string :=
  substring 6 4 d ++ "-" ++ substring 0 2 d ++ "-" ++ substring 3 2 d.

Definition nl : string := String "010"%char "".

(** The text of the two documents. *)
Definition roster_text : string :=
  "YEAS" ++ nl ++ "Smith   Jones   Lee" ++ nl ++ "NAYS" ++ nl ++ "Doe".

Definition excused_first_text : string :=
  "EXCUSED" ++ nl ++ "Smith" ++ nl ++ "YEAS" ++ nl ++ "Jones".

(** A line with two names and three tabs between them. *)
Definition tab : string := String "009"%char "".

Definition tab_line : string := "Smith" ++ tab ++ tab ++ tab ++ "Jones".

Definition pdf_text (url : option string) : res string :=
  match url with
  | Some u =>
      if String.eqb u "https://www.scstatehouse.gov/votes/1.pdf" then
        Return roster_text
      else if String.eqb u "https://www.scstatehouse.gov/votes/2.pdf" then
        Return excused_first_text
      else Raise (TransportError "404")
  | None => Raise (TransportError "no URL")
  end.

Definition cell (s : string) : element := {| text := Some s; anchors := [] |}.

Definition link_cell (label href : string) : element :=
  {| text := None;
     anchors := [ {| a_text := Some label; a_href := Some href |} ] |}.

(** A data row of a vote history page. *)
Definition row (href yeas nays nv exc pres abst total : string) : list element :=
  [ cell "01/15/2020 11:30 AM"; cell "Passage of Bill"; link_cell "[S] 12" href;
    cell yeas; cell nays; cell nv; cell exc; cell pres; cell abst; cell total;
    cell "Passed" ].

Definition good_row : list element :=
  row "https://www.scstatehouse.gov/votes/1.pdf" "3" "1" "1" "0" "0" "0" "5".

Definition bad_sum_row : list element :=
  row "https://www.scstatehouse.gov/votes/1.pdf" "3" "1" "1" "0" "0" "0" "6".

Definition short_row : list element := [ cell "Votes"; cell "Motion" ].

Definition vurl : string := "https://www.scstatehouse.gov/votehistory.php?KEY=1".

Definition table_rows (url : string) : res (list (list element)) :=
  if String.eqb url vurl then
    Return [ short_row; short_row; good_row; short_row; good_row ]
  else Raise (TransportError "404").

Definition roads_bill : Bill :=
  {| bill_id := "S 12"; bill_session := "2019-2020"; bill_chamber := "upper";
     bill_title := "Roads"; bill_classification := "bill" |}.

Definition self : scraper := {| _seen_vote_ids := ∅; warnings := [] |}.

(** A request that returns and one that fails in transport; neither
    touches the version attributes. *)
Definition get_ok (url : string) : Http.method string :=
  fun p => (Return "<html></html>", p).

Definition get_reset (url : string) : Http.method string :=
  fun p => (Raise (TransportError "connection reset by peer"), p).

Definition http11 : Http.version :=
  {| Http.http_vsn := 11; Http.http_vsn_str := "HTTP/1.1" |}.

Definition http10 : Http.version :=
  {| Http.http_vsn := 10; Http.http_vsn_str := "HTTP/1.0" |}.

Definition vote : VoteEvent :=
  Vote.new "upper" "2020-01-15" (Some "Passage of Bill") "pass" "passage"
    roads_bill.

Definition rollcall_1 : option string :=
  Some "https://www.scstatehouse.gov/votes/1.pdf".

(** The vote of [good_row]. *)
Definition good_vote : VoteEvent :=
  {| chamber := "upper"; start_date := "2020-01-15";
     motion_text := Some "Passage of Bill"; result := "pass";
     classification := "passage"; bill := roads_bill;
     counts := [("yes", 3%Z); ("no", 1%Z); ("other", 1%Z)];
     votes := [("yes", "Smith"); ("yes", "Jones"); ("yes", "Lee"); ("no", "Doe")];
     sources := [Some vurl; rollcall_1];
     dedupe_key := rollcall_1 |}.

End Sample.

(** ** Properties stated about the scraper *)

(** The action starts with the prefix when case is ignored. *)
Definition starts_nocase (action prefix : string) : Prop :=
  ∃ rest, Py.lower action = Py.lower prefix ++ rest.

(** The rule at index [i] is the first one whose prefix the action starts
    with. *)
Definition first_rule (cs : list (string * atype)) (action : string) (i : nat)
    (t : atype) : Prop :=
  ∃ prefix, cs !! i = Some (prefix, t) ∧ starts_nocase action prefix
    ∧ ∀ j p t', (j < i)%nat → cs !! j = Some (p, t') → ¬ starts_nocase action p.


(** [x] occurs in [s]. *)
Definition occurs (x s : string) : Prop :=
  ∃ a b, s = a ++ x ++ b.

(** The fixed prefix of the archive and the URL of a snapshot of [url]. *)
Definition archive_prefix : string := "https://web.archive.org/web/".

Definition archived (id url : string) : string :=
  archive_prefix ++ id ++ "/" ++ url.

(** The key of a session and a chamber in the table of snapshots. *)
Definition snapshot_key (session chamber : string) : string :=
  session ++ "-" ++ chamber.

(** The section headers of a roll-call document. *)
Definition headers : list string :=
  [ "YEAS"; "AYES"; "NAYS"; "EXCUSED"; "NOT VOTING"; "ABSTAIN"; "PAIRED" ].

Definition is_header (line : string) : bool :=
  existsb (Py.startswith line) headers.

(** The name tokens of a line: the non-empty pieces between runs of three
    or more whitespace characters, each trimmed. *)
Definition name_tokens (line : string) : list string :=
  map (Py.strip Py.is_space)
    (filter (fun name => name ≠ "") (Py.re_split_ws3 line)).

(** The call that records [name] with the function [f], carrying the
    option tag when one is set. *)
Definition tagged_call (f : vfunc) (opt : option string) (name : string) : vcall :=
  match opt with
  | Some o => if String.eqb o "" then Call f name else CallKw f o name
  | None => Call f name
  end.

(** Two vote events that differ in their list of voters at most. *)
Definition same_but_votes (v v' : VoteEvent) : Prop :=
  chamber v' = chamber v ∧ start_date v' = start_date v
  ∧ motion_text v' = motion_text v ∧ result v' = result v
  ∧ classification v' = classification v ∧ bill v' = bill v
  ∧ counts v' = counts v ∧ sources v' = sources v
  ∧ dedupe_key v' = dedupe_key v.

(** The link of a data row to its roll-call document: the first link of
    the third cell. *)
Definition vote_link (tds : list element) : option anchor :=
  tds !! 2%nat ≫= fun vote => head (anchors vote).

(** The seven numbers of a data row. *)
Record tally := {
  t_yeas : Z; t_nays : Z; t_nv : Z; t_exc : Z; t_pres : Z; t_abst : Z;
  t_total : Z
}.

(** The sum the parser records as the count of "other". *)
Definition t_others (t : tally) : Z :=
  (t_nv t + t_exc t + t_abst t + t_pres t)%Z.

(** The numbers in the cells of a row of eleven cells, in the order of the
    page: yeas, nays, not voting, excused, present, abstain, total. *)
Definition read_tally (int : string -> option Z) (tds : list element)
  : option tally :=
  match tds with
  | [_; _; _; yeas; nays; nv; exc; pres; abst; total; _] =>
      match int_text int yeas, int_text int nays, int_text int nv,
            int_text int exc, int_text int pres, int_text int abst,
            int_text int total with
      | Return y, Return n, Return a, Return b, Return c, Return d, Return t =>
          Some {| t_yeas := y; t_nays := n; t_nv := a; t_exc := b;
                  t_pres := c; t_abst := d; t_total := t |}
      | _, _, _, _, _, _, _ => None
      end
  | _ => None
  end.

(** The timestamp cell of a row can be read. *)
Definition timestamp_ok {datetime : Type}
    (strptime : string -> string -> option datetime) (tds : list element)
  : Prop :=
  ∃ td d, tds !! 0%nat = Some td ∧ parse_timestamp strptime td = Return d.

(** The vote built from a row, when the row has eleven cells. *)
Definition build_row (int : string -> option Z) {datetime : Type}
    (strptime : string -> string -> option datetime)
    (strftime : datetime -> string -> string)
    (pdf_text : option string -> res string)
    (bill : Bill) (vurl : string) (tds : list element)
  : option (res (VoteEvent * option string)) :=
  match tds with
  | [timestamp; motion; vote; yeas; nays; nv; exc; pres; abst; total; result] =>
      Some (build_vote int strptime strftime pdf_text bill vurl timestamp
              motion vote yeas nays nv exc pres abst total result)
  | _ => None
  end.

(** The two warnings of the vote history parser. *)
Definition irregular_row (vurl : string) : string :=
  "irregular vote row: " ++ vurl.

Definition duplicate_usage (rollcall_pdf : option string) : string :=
  "duplicate usage of " ++ Py.str rollcall_pdf ++ ", skipping".

(** *** Splitting at runs of characters of a class, as a property *)

(** Every character of [s] is in the class [ws]. *)
Fixpoint all_in (ws : ascii -> bool) (s : string) : bool :=
  match s with
  | EmptyString => true
  | String c t => ws c && all_in ws t
  end.

(** The number of characters of the class at the end of [s], [k] of them
    standing before [s]. *)
Fixpoint trail (ws : ascii -> bool) (k : nat) (s : string) : nat :=
  match s with
  | EmptyString => k
  | String c t => trail ws (if ws c then S k else 0%nat) t
  end.

(** [s] has no run of three characters of the class, [k] of them standing
    before [s]. *)
Fixpoint no_run3_from (ws : ascii -> bool) (k : nat) (s : string) : bool :=
  match s with
  | EmptyString => true
  | String c t =>
      if ws c then (k <? 2)%nat && no_run3_from ws (S k) t
      else no_run3_from ws 0 t
  end.

Definition no_run3 (ws : ascii -> bool) (s : string) : bool :=
  no_run3_from ws 0 s.

Definition starts_in (ws : ascii -> bool) (s : string) : bool :=
  match s with
  | EmptyString => false
  | String c _ => ws c
  end.

Definition ends_in (ws : ascii -> bool) (s : string) : bool :=
  negb (trail ws 0 s =? 0)%nat.

(** The pieces [toks] put together again, with [seps] between them. *)
Fixpoint join (toks seps : list string) : string :=
  match toks, seps with
  | t :: toks', sep :: seps' => t ++ sep ++ join toks' seps'
  | t :: _, [] => t
  | [], _ => EmptyString
  end.

(** [toks] are the pieces of [line] between its runs of three or more
    characters of the class [ws]: with separators [seps] between them the
    pieces give [line]; each separator is made of the class and is three
    characters or more; no piece has three characters of the class in a
    row; and the separators are whole runs, so no piece ends in the class
    before a separator or starts in it after one. *)
Definition runs3_split (ws : ascii -> bool) (line : string)
    (toks : list string) : Prop :=
  ∃ seps,
    length toks = S (length seps)
    ∧ join toks seps = line
    ∧ Forall (fun sep => all_in ws sep = true ∧ (3 <= String.length sep)%nat) seps
    ∧ Forall (fun t => no_run3 ws t = true) toks
    ∧ Forall (fun t => ends_in ws t = false) (removelast toks)
    ∧ Forall (fun t => starts_in ws t = false) (tail toks).

(** The space character, U+0020. *)
Definition is_plain_space (c : ascii) : bool := Ascii.eqb c " ".

(** The only whitespace in [s] is the space character. *)
Definition plain_spaces_only (s : string) : bool :=
  all_in (fun c => implb (Py.is_space c) (is_plain_space c)) s.

(** The option under which a call of the loop records a name, if the vote
    takes the call. *)
Definition recorded_as (f : vfunc) (opt : option string) : option string :=
  match f with
  | vote_yes => if Py.truthy opt then None else Some "yes"
  | vote_no => if Py.truthy opt then None else Some "no"
  | vote_vote => if Py.truthy opt then opt else None
  end.

(** The name tokens of a line in the words of the specification: the line
    is split on its runs of three or more consecutive space characters,
    and each non-empty token is trimmed.  To be compared with
    [name_tokens], which splits as the source does. *)
Definition spec_name_tokens (line : string) : list string :=
  map (Py.strip Py.is_space)
    (filter (fun name => name ≠ "")
       (Py.re_split_runs3 is_plain_space "" "" line)).

(** * The rest of bills.py *)

(** ** Further string primitives *)

Module Str.

(** [s.split(m)[0]] for a non-empty [m]: the text before the first
    occurrence of [m], all of [s] when there is none. *)
Fixpoint before (m s : string) : string :=
  if Py.startswith s m then EmptyString
  else
    match s with
    | EmptyString => EmptyString
    | String c t => String c (before m t)
    end.

(** [l[-2:]] *)
Definition last_two {A} (l : list A) : list A := drop (length l - 2) l.

Definition is_digit (c : ascii) : bool :=
  let n := nat_of_ascii c in ((48 <=? n) && (n <=? 57))%nat.

(** The longest prefix of [s] whose characters satisfy [p], and the rest. *)
Fixpoint span (p : ascii -> bool) (s : string) : string * string :=
  match s with
  | EmptyString => (EmptyString, EmptyString)
  | String c t =>
      if p c then let '(a, b) := span p t in (String c a, b)
      else (EmptyString, s)
  end.

(** [s] without its prefix [p], when [s] starts with [p]. *)
Fixpoint after_prefix (p s : string) : option string :=
  match p with
  | EmptyString => Some s
  | String a p' =>
      match s with
      | EmptyString => None
      | String b s' => if Ascii.eqb b a then after_prefix p' s' else None
      end
  end.

End Str.

(** A failed lookup in a dict, beside the exceptions above. *)
Inductive exc : Type :=
| Builtin (e : exn)
| KeyError (key : string).

(** ** Actions of the detail page (bills.py, [scrape_details], lines 459-478) *)

(** Lines 468-469: the action text without its journal citation. *)
Definition journal_stripped (action : string) : string :=
  let action := Str.before "(House Journal" action in
  Py.strip Py.is_space (Str.before "(Senate Journal" action).

(** Lines 463-465: the dict indexed by the text of the chamber cell. *)
Definition action_chamber (label : option string) : exc + string :=
  match label with
  | None => inr "legislature"
  | Some l =>
      if String.eqb l "Senate" then inr "upper"
      else if String.eqb l "House" then inr "lower"
      else inl (KeyError l)
  end.

(** An action as [bill.add_action] receives it. *)
Record Action := {
  act_description : string;
  act_date : string;
  act_chamber : string;
  act_classification : option atype
}.

(** A cell of the action table: its [.text] and its [text_content()]. *)
Record action_td := {
  atd_text : option string;
  atd_text_content : string
}.

Section Actions.

Variable datetime : Type.
Variable strptime : string -> string -> option datetime.
Variable strftime : datetime -> string -> string.

(** The body of [for row in bill_div.xpath("table/tr")], on the cells
    [row.xpath("td")]. *)
Definition action_row (tds : list action_td) : exc + Action :=
  match tds with
  | [date_td; chamber_td; action_td] =>
      match atd_text date_td with
      | None =>
          inl (Builtin (TypeError "strptime() argument 1 must be str, not None"))
      | Some d =>
          match strptime d "%m/%d/%y" with
          | None => inl (Builtin (ValueError "time data does not match format"))
          | Some date =>
              match action_chamber (atd_text chamber_td) with
              | inl e => inl e
              | inr chamber =>
                  let action := journal_stripped (atd_text_content action_td) in
                  let atype := action_type action in
                  inr {| act_description := action;
                         act_date := strftime date "%Y-%m-%d";
                         act_chamber := chamber;
                         act_classification := atype |}
              end
          end
      end
  | _ => inl (Builtin (ValueError "wrong number of values to unpack"))
  end.

End Actions.

Arguments action_row {datetime} strptime strftime tds.

(** ** Title and abstract (bills.py, [scrape_details], lines 381-382) *)

(** The text fragments of the header block, trimmed; the last two that are
    not empty are the summary and the abstract. *)
Definition summary_abstract (texts : list string) : res (string * string) :=
  let summ_and_abst := map (Py.strip Py.is_space) texts in
  match Str.last_two (filter (fun x => x ≠ "") summ_and_abst) with
  | [summary; abstract] => Return (summary, abstract)
  | _ => Raise (ValueError "not enough values to unpack (expected 2)")
  end.

(** ** Links of an archived index page (bills.py, [scrape], lines 508, 527-530) *)

(** [web_archive_re.match(day_url)] and its [group(1)], for the pattern
    [https://web\.archive\.org/web/\d+/(.+)]: the archive prefix, one
    digit or more, a slash, and then the characters up to the end of the
    line, one at least. *)
Definition web_archive_match (day_url : string) : option string :=
  match Str.after_prefix archive_prefix day_url with
  | None => None
  | Some rest =>
      let '(id, rest) := Str.span Str.is_digit rest in
      match id, rest with
      | EmptyString, _ => None
      | _, String "/" target =>
          match Str.before (String "010" EmptyString) target with
          | EmptyString => None
          | group1 => Some group1
          end
      | _, _ => None
      end
  end.

(** The day URL fetched for a link of the index page. *)
Definition day_url_of (day_url : string) : string :=
  match web_archive_match day_url with
  | Some target => target
  | None => day_url
  end.

(** ** Bills of a day page (bills.py, [scrape], lines 511 and 540-545) *)

Definition chamber_letter (chamber : string) : string :=
  if String.eqb chamber "upper" then "s" else "h".

(** One turn of [for bill_a in doc.xpath("//p/a[1]")]: the bill id and the
    link handed to [scrape_details], or nothing for a bill of the other
    chamber. *)
Definition day_bill (letter : string) (bill_a : anchor)
  : res (option (string * option string)) :=
  match a_text bill_a with
  | None => Raise (AttributeError "'NoneType' object has no attribute 'replace'")
  | Some t =>
      let bill_id := Py.replace_char "." "" t in
      if Py.startswith (Py.lower bill_id) letter
      then Return (Some (bill_id, a_href bill_a))
      else Return None
  end.

(** The bills of a page, in order, up to the first link that raises. *)
Fixpoint day_bills (letter : string) (links : list anchor)
  : list (string * option string) * option exn :=
  match links with
  | [] => ([], None)
  | bill_a :: links' =>
      match day_bill letter bill_a with
      | Raise e => ([], Some e)
      | Return None => day_bills letter links'
      | Return (Some b) =>
          let '(bs, e) := day_bills letter links' in (b :: bs, e)
      end
  end.

(** ** Subject index (bills.py, [scrape_subjects]) *)

Definition session_code : gmap string string :=
  list_to_map
    [ ("2013-2014", "120"); ("2015-2016", "121");
      ("2017-2018", "122"); ("2019-2020", "123") ].

Definition subject_search_url : string :=
  "https://www.scstatehouse.gov/subjectsearch.php".

(** [re.match(r"(?:H|S) \d{4}", text)] and its [group()]: the letter H or
    S, a space and four digits at the start of [text]. *)
Definition bill_match (text : string) : option string :=
  match text with
  | String l (String sp (String d1 (String d2 (String d3 (String d4 _))))) =>
      if (Ascii.eqb l "H" || Ascii.eqb l "S") && Ascii.eqb sp " "
         && Str.is_digit d1 && Str.is_digit d2 && Str.is_digit d3
         && Str.is_digit d4
      then Some (String l (String sp (String d1 (String d2 (String d3
                   (String d4 EmptyString))))))
      else None
  | _ => None
  end.

(** [re.sub(" 0*", " ", s)]: every space, with the zeros that follow it,
    becomes a space.  [skipping] says that the characters before were a
    space and zeros. *)
Fixpoint sub_space_zeros (skipping : bool) (s : string) : string :=
  match s with
  | EmptyString => EmptyString
  | String c t =>
      if Ascii.eqb c " " then String " " (sub_space_zeros true t)
      else if skipping && Ascii.eqb c "0" then sub_space_zeros true t
      else String c (sub_space_zeros false t)
  end.

(** Lines 209-213: the bill id of a bold span, if its text starts with
    one. *)
Definition subject_bill_id (text : string) : option string :=
  match bill_match text with
  | Some group =>
      let bill_id := Py.replace_char "*" " " group in
      Some (sub_space_zeros false bill_id)
  | None => None
  end.

(** The index [_subjects], a [defaultdict(set)]: bill id to subjects. *)
Abbreviation subject_index := (gmap string (gset (option string))).

(** [self._subjects[bill_id].add(subject)] *)
Definition add_subject (bill_id : string) (subject : option string)
    (subjects : subject_index) : subject_index :=
  <[bill_id := {[subject]} ∪ default ∅ (subjects !! bill_id)]> subjects.

(** [list(self._subjects[bill_id])] of [scrape_details], line 395: the
    subjects of the bill and the index after the lookup, which has an
    empty set for a bill it did not know. *)
Definition lookup_subjects (bill_id : string) (subjects : subject_index)
  : gset (option string) * subject_index :=
  match subjects !! bill_id with
  | Some ss => (ss, subjects)
  | None => (∅, <[bill_id := ∅]> subjects)
  end.

(** The loop over the bold spans of a subject page, by their [.text]. *)
Fixpoint add_bills (subject : option string) (spans : list (option string))
    (subjects : subject_index) : subject_index * option exc :=
  match spans with
  | [] => (subjects, None)
  | None :: _ =>
      (subjects, Some (Builtin (TypeError "expected string or bytes-like object")))
  | Some text :: spans' =>
      match subject_bill_id text with
      | Some bill_id => add_bills subject spans' (add_subject bill_id subject subjects)
      | None => add_bills subject spans' subjects
      end
  end.

Section Subjects.

(** The options of the search form for a session code, by [.text] and
    [value]: [self.post(...)], parsed, then [doc.xpath("//option")]. *)
Variable post_options : string -> exc + list (option string * option string).

(** The texts of the bold spans of a subject page: [urlopen(url).read()],
    or what was read of it, parsed, then the spans. *)
Variable urlopen_spans : string -> exc + list (option string).

Definition subject_url (code : string) (value : option string) : string :=
  subject_search_url ++ "?AORB=B&session=" ++ code ++ "&indexcode="
  ++ Py.str value.

(** The loop over the options. *)
Fixpoint subject_options (code : string)
    (options : list (option string * option string))
    (subjects : subject_index) : subject_index * option exc :=
  match options with
  | [] => (subjects, None)
  | (subject, value) :: options' =>
      match urlopen_spans (subject_url code value) with
      | inl e => (subjects, Some e)
      | inr spans =>
          match add_bills subject spans subjects with
          | (subjects', Some e) => (subjects', Some e)
          | (subjects', None) => subject_options code options' subjects'
          end
      end
  end.

(** The index after the call, and the exception that ended it, if one
    did. *)
Definition scrape_subjects (session : string) (subjects : subject_index)
  : subject_index * option exc :=
  if decide (subjects = ∅) then
    match session_code !! session with
    | None => (subjects, Some (KeyError session))
    | Some code =>
        match post_options code with
        | inl e => (subjects, Some e)
        | inr options => subject_options code (drop 2 options) subjects
        end
    end
  else (subjects, None).

End Subjects.

(** ** Sample inputs for the detail page *)

Module Sample2.

(** A clock that reads ["MM/DD/YY"] of this century. *)
Definition strptime (s format : string) : option string :=
  if (String.length s =? 8)%nat then Some s else None.

Definition strftime (d format : string) : string :=
  "20" ++ substring 6 2 d ++ "-" ++ substring 0 2 d ++ "-" ++ substring 3 2 d.

Definition td (s : string) : action_td :=
  {| atd_text := Some s; atd_text_content := s |}.

Definition intro_row : list action_td :=
  [ td "01/15/20"; td "Senate";
    td "Introduced and read first time (Senate Journal p.12)" ].

Definition joint_row : list action_td :=
  [ td "01/15/20"; td "Joint"; td "Ratified" ].

(** A row whose date is not in the format of the page, and whose chamber
    cell is no chamber either. *)
Definition undated_row : list action_td :=
  [ td "Jan 15"; td "Joint"; td "Ratified" ].

(** A search form with two filler options and two subjects, and the bold
    spans of the two subject pages. *)
Definition post_options (code : string)
  : exc + list (option string * option string) :=
  if String.eqb code "123" then
    inr [ (Some "Select a subject", Some "0"); (Some "All", Some "0");
          (Some "Roads", Some "17"); (Some "Taxes", Some "23") ]
  else inl (Builtin (TransportError "500")).

Definition urlopen_spans (url : string) : exc + list (option string) :=
  if String.eqb url
       "https://www.scstatehouse.gov/subjectsearch.php?AORB=B&session=123&indexcode=17"
  then inr [ Some "S 0012"; Some "Bills"; Some "H 3001*" ]
  else if String.eqb url
       "https://www.scstatehouse.gov/subjectsearch.php?AORB=B&session=123&indexcode=23"
  then inr [ Some "S 0012" ]
  else inl (Builtin (TransportError "404")).

End Sample2.

(** * The legacy scraper (scripts/pyutils/legislation.py) *)

(** A [str] of Python 2 is a string of bytes: [lower] moves A..Z only, and
    [strip] takes off the six whitespace bytes. *)
Module Py2.

Definition lower_byte (c : ascii) : ascii :=
  let n := nat_of_ascii c in
  if ((65 <=? n) && (n <=? 90))%nat then ascii_of_nat (n + 32) else c.

Fixpoint lower (s : string) : string :=
  match s with
  | EmptyString => EmptyString
  | String c t => String (lower_byte c) (lower t)
  end.

Definition strip (s : string) : string := Py.strip Py.is_bytes_space s.

(** [s[0]] *)
Definition first_char (s : string) : res string :=
  match s with
  | EmptyString => Raise (IndexError "string index out of range")
  | String c _ => Return (String c EmptyString)
  end.

(** [os.path.join(a, b)] on a POSIX system *)
Definition path_join (a b : string) : string :=
  if Py.startswith b "/" then b
  else if String.eqb a "" then b
  else if Py.startswith (String.rev a) "/" then a ++ b
  else a ++ "/" ++ b.

End Py2.

(** ** [NameMatcher] *)

(** The key of [__setitem__]: a dict with the four parts of a name. *)
Record person_name := {
  full_name : string;
  first_name : string;
  last_name : string;
  middle_name : string
}.

(** The forms of a name, in the order [__setitem__] adds them to its set.
    An empty first name raises at its first letter. *)
Definition name_forms (name : person_name) : res (list string) :=
  let f := first_name name in
  let l := last_name name in
  let m := middle_name name in
  let! f0 := Py2.first_char f in
  let forms :=
    [ full_name name; l; l ++ ", " ++ f; f ++ " " ++ l; f0 ++ " " ++ l;
      l ++ ", " ++ f0; l ++ " (" ++ f ++ ")" ] in
  if (0 <? String.length m)%nat then
    let! m0 := Py2.first_char m in
    let middle_forms :=
      [ l ++ ", " ++ f ++ " " ++ m; l ++ ", " ++ f0 ++ " " ++ m;
        f ++ " " ++ m ++ " " ++ l; l ++ ", " ++ f0 ++ " " ++ m0;
        f ++ " " ++ m0 ++ " " ++ l; l ++ ", " ++ f ++ " " ++ m0 ] in
    Return (app forms middle_forms)
  else Return forms.

(** [form.replace('.', '').lower()] *)
Definition normal_form (form : string) : string :=
  Py2.lower (Py.replace_char "." "" form).

Section Matcher.

(** The objects the names stand for. *)
Variable A : Type.

(** [self.names]: a form maps to an object, or to [None] once two names
    share it. *)
Definition add_form (obj : A) (names : gmap string (option A)) (form : string)
  : gmap string (option A) :=
  let form := normal_form form in
  match names !! form with
  | Some _ => <[form := None]> names
  | None => <[form := Some obj]> names
  end.

(** The loop [for form in forms] over the forms in some order. *)
Definition setitem_forms (forms : list string) (obj : A)
    (names : gmap string (option A)) : gmap string (option A) :=
  foldl (add_form obj) names forms.

(** [nm[name] = obj].  The forms are a set: each one is taken once. *)
Definition setitem (name : person_name) (obj : A)
    (names : gmap string (option A)) : res (gmap string (option A)) :=
  let! forms := name_forms name in
  Return (setitem_forms (remove_dups forms) obj names).

(** [nm[name]]: the object, or [None] for a form unknown or shared. *)
Definition getitem (name : string) (names : gmap string (option A)) : option A :=
  let name := normal_form (Py2.strip name) in
  match names !! name with
  | Some v => v
  | None => None
  end.

End Matcher.

Arguments add_form {A} obj names form.
Arguments setitem_forms {A} forms obj names.
Arguments setitem {A} name obj names.
Arguments getitem {A} name names.

(** ** Files written by [add_bill] and [add_legislator] (lines 131 and 150) *)

(** ["%s:%s:%s.json" % (a, b, c)] *)
Definition record_filename (a b c : string) : string :=
  a ++ ":" ++ b ++ ":" ++ c ++ ".json".

(** ** The page cache ([LegislationScraper.urlopen], lines 54-64) *)

Section Cache.

(** [md5(url).hexdigest()] and [urllib2.urlopen(url).read()]. *)
Variable md5_hex : string -> string.
Variable fetch : string -> res string.

(** The files of the cache directory, by path. *)
Definition url_cache (cache_dir state url : string) : string :=
  Py2.path_join (Py2.path_join cache_dir state) (md5_hex url ++ ".html").

(** The data returned and the files after the call; the directory of the
    cache is there, [init_dirs] has made it. *)
Definition urlopen (cache_dir state url : string) (files : gmap string string)
  : res string * gmap string string :=
  let url_cache := url_cache cache_dir state url in
  match files !! url_cache with
  | Some data => (Return data, files)
  | None =>
      match fetch url with
      | Raise e => (Raise e, files)
      | Return data => (Return data, <[url_cache := data]> files)
      end
  end.

End Cache.

(** ** Properties stated about the rest of bills.py *)

(** [s] has no line feed in it. *)
Definition one_line (s : string) : bool :=
  all_in (fun c => negb (Ascii.eqb c "010")) s.

(** [s] is made of decimal digits. *)
Definition all_digits (s : string) : bool := all_in Str.is_digit s.

(** The name a call passes to the vote. *)
Definition call_name (c : vcall) : string :=
  match c with
  | Call _ name => name
  | CallKw _ _ voter => voter
  end.

(** The options under which the roster parser can record a voter. *)
Definition roster_options : list string := ["yes"; "no"; "excused"; "paired"].

(** The values the local [option] of the roster loop takes. *)
Definition tag_ok (st : roster) : Prop :=
  option_tag st ∈ [None; Some "excused"; Some "paired"].

(** A bill id of the index: H or S, a space, and at most four digits of
    which the first is no zero. *)
Definition is_zero (c : ascii) : bool := Ascii.eqb c "0".

Definition indexed_id (bill_id : string) : Prop :=
  ∃ l ds, bill_id = String l (String " " (Py.lstrip is_zero ds))
    ∧ (l = "H"%char ∨ l = "S"%char)
    ∧ String.length ds = 4%nat ∧ all_digits ds = true.

(** The entries of an index are bills with their subjects: every key is a
    bill id, every set of subjects has a subject, and every subject is one
    of [allowed]. *)
Definition index_ok (allowed : list (option string)) (subjects : subject_index)
  : Prop :=
  ∀ bill_id ss, subjects !! bill_id = Some ss →
    indexed_id bill_id ∧ ss ≠ ∅ ∧ ∀ s, s ∈ ss → s ∈ allowed.

(** The number of forms among [forms] with the key [k]. *)
Definition count_form (k : string) (forms : list string) : nat :=
  length (filter (fun form => normal_form form = k) forms).

(** The name of the class documentation, and a second one. *)
Module Sample3.

Definition michael : person_name :=
  {| full_name := "Michael J. Stephens"; first_name := "Michael";
     last_name := "Stephens"; middle_name := "J" |}.

Definition mike : person_name :=
  {| full_name := "Mike J. Stephens"; first_name := "Mike";
     last_name := "Stephens"; middle_name := "Joseph" |}.

(** The matcher after [nm[michael] = 1]. *)
Definition nm1 : gmap string (option nat) :=
  setitem_forms
    (remove_dups
       [ "Michael J. Stephens"; "Stephens"; "Stephens, Michael";
         "Michael Stephens"; "M Stephens"; "Stephens, M";
         "Stephens (Michael)"; "Stephens, Michael J"; "Stephens, M J";
         "Michael J Stephens"; "Stephens, M J"; "Michael J Stephens";
         "Stephens, Michael J" ])
    1%nat ∅.

Definition md5_hex (url : string) : string :=
  if String.eqb url "http://www.scstatehouse.gov/" then "0a1b" else "ffff".

Definition fetch_ok (url : string) : res string := Return "<html>1</html>".

Definition fetch_down (url : string) : res string :=
  Raise (TransportError "timed out").

End Sample3.

(** [s] has no colon in it. *)
Definition no_colon (s : string) : bool :=
  all_in (fun c => negb (Ascii.eqb c ":")) s.
(** * Lemmas on the string primitives *)

Module PyFacts.

Lemma startswith_spec (s p : string) :
  Py.startswith s p = true ↔ ∃ r, s = p ++ r.
Proof.
  revert s. induction p as [|a p IH]; intros s; simpl.
  - split; [intros _; by exists s | done].
  - destruct s as [|b s].
    + split; [done | intros [r Hr]; discriminate].
    + rewrite andb_true_iff, Ascii.eqb_eq, IH. split.
      * intros [-> [r ->]]. by exists r.
      * intros [r Hr]. injection Hr as -> ->. eauto.
Qed.

Lemma startswith_false (s p : string) :
  Py.startswith s p = false ↔ ¬ ∃ r, s = p ++ r.
Proof.
  rewrite <- startswith_spec. destruct (Py.startswith s p); intuition congruence.
Qed.

Lemma lower_app (s t : string) : Py.lower (s ++ t) = Py.lower s ++ Py.lower t.
Proof. induction s as [|c s IH]; simpl; by rewrite ?IH. Qed.

Lemma str_app_assoc (s t u : string) : (s ++ t) ++ u = s ++ (t ++ u).
Proof. induction s as [|c s IH]; simpl; by rewrite ?IH. Qed.

Lemma contains_spec (hay needle : string) :
  Py.contains hay needle = true ↔ ∃ a b, hay = a ++ needle ++ b.
Proof.
  induction hay as [|c hay IH]; simpl.
  - rewrite orb_false_r, startswith_spec. split.
    + intros [r Hr]. by exists "", r.
    + intros [a [b Hab]]. destruct a; [by exists b | discriminate].
  - rewrite orb_true_iff, startswith_spec, IH. split.
    + intros [[r Hr] | [a [b Hab]]].
      * by exists "", r.
      * exists (String c a), b. simpl. by rewrite Hab.
    + intros [a [b Hab]]. destruct a as [|c' a]; simpl in Hab.
      * left. by exists b.
      * right. injection Hab as -> ->. eauto.
Qed.

End PyFacts.

(** * The action classifier *)

Lemma starts_nocase_test (action prefix : string) :
  Py.startswith (Py.lower action) (Py.lower prefix) = true
  ↔ starts_nocase action prefix.
Proof. apply PyFacts.startswith_spec. Qed.

Lemma action_type_loop_some (action : string) (cs : list (string * atype))
    (t : atype) :
  action_type_loop action cs = Some t ↔ ∃ i, first_rule cs action i t.
Proof.
  induction cs as [|[p0 t0] cs IH]; simpl.
  - split; [done | intros [i [p [H _]]]; by destruct i].
  - destruct (Py.startswith _ _) eqn:E.
    + apply starts_nocase_test in E. split.
      * intros [= <-]. exists 0%nat, p0. split_and!; [done | done |].
        intros j ? ? Hj. lia.
      * intros [[|i] [p [H0 [H1 H2]]]]; simpl in H0.
        -- by injection H0 as _ ->.
        -- destruct (H2 0%nat p0 t0); [lia | done | done].
    + assert (¬ starts_nocase action p0) as E'.
      { rewrite <- starts_nocase_test, E. done. }
      rewrite IH. split.
      * intros [i [p [H0 [H1 H2]]]]. exists (S i), p. split_and!; [done | done |].
        intros [|j] q t' Hj Hq; simpl in Hq.
        -- by injection Hq as -> _.
        -- eapply H2; [|done]. lia.
      * intros [[|i] [p [H0 [H1 H2]]]]; simpl in H0.
        -- injection H0 as -> _. done.
        -- exists i, p. split_and!; [done | done |].
           intros j q t' Hj Hq. apply (H2 (S j) q t'); [lia | done].
Qed.

Lemma action_type_loop_none (action : string) (cs : list (string * atype)) :
  action_type_loop action cs = None
  ↔ ∀ p t, (p, t) ∈ cs → ¬ starts_nocase action p.
Proof.
  induction cs as [|[p0 t0] cs IH]; simpl.
  - split; [intros _ p t H; by apply elem_of_nil in H | done].
  - destruct (Py.startswith _ _) eqn:E.
    + apply starts_nocase_test in E. split; [done |].
      intros H. destruct (H p0 t0); [left | done].
    + assert (¬ starts_nocase action p0) as E'.
      { rewrite <- starts_nocase_test, E. done. }
      rewrite IH. split.
      * intros H p t [[= -> ->] | Hin]%elem_of_cons; [done | by eapply H].
      * intros H p t Hin. eapply H. by right.
Qed.

(** C1.  The classifier returns the tag or tags of the first rule of the
    table, in list order, whose prefix the action starts with when case is
    ignored, and [None] exactly when the action starts with no prefix of
    the table.  An action that starts with "Amended and adopted" gets
    [passage, amendment-passage], the tags of the second rule, not
    [amendment-passage] alone. *)
Theorem action_type_first_prefix (action : string) :
  (∀ t, action_type action = Some t ↔ ∃ i, first_rule classifiers action i t)
  ∧ (action_type action = None
     ↔ ∀ p t, (p, t) ∈ classifiers → ¬ starts_nocase action p)
  ∧ (starts_nocase action "Amended and adopted" →
     action_type action = Some (Tags ["passage"; "amendment-passage"])).
Proof.
  split_and!.
  - intros t. apply action_type_loop_some.
  - apply action_type_loop_none.
  - intros [rest H]. unfold action_type, classifiers. simpl action_type_loop.
    rewrite H. reflexivity.
Qed.

Lemma action_type_first_prefix_witness :
  action_type "Amended and adopted, as amended"
  = Some (Tags ["passage"; "amendment-passage"]).
Proof.
  apply (action_type_first_prefix "Amended and adopted, as amended").
  exists ", as amended". reflexivity.
Defined.

(** * The index page resolver *)

Lemma web_archive_ids_truthy (key id : string) :
  web_archive_ids !! key = Some id → Py.truthy (Some id) = true.
Proof.
  intros H. apply elem_of_list_to_map_2 in H.
  repeat (apply elem_of_cons in H as [[= -> ->] | H]; [reflexivity |]).
  by apply elem_of_nil in H.
Qed.

Lemma direct_index_url_not_archived (chamber_letter : string) :
  Py.startswith (direct_index_url chamber_letter) archive_prefix = false.
Proof. reflexivity. Qed.

Lemma archived_startswith (id url : string) :
  Py.startswith (archived id url) archive_prefix = true.
Proof. reflexivity. Qed.

Lemma get_index_url_cases (session chamber chamber_letter : string) :
  get_index_url session chamber chamber_letter
  = match web_archive_ids !! snapshot_key session chamber with
    | Some id => archived id (direct_index_url chamber_letter)
    | None => direct_index_url chamber_letter
    end.
Proof.
  unfold get_index_url, snapshot_key.
  destruct (web_archive_ids !! _) as [id|] eqn:E; [|done].
  by rewrite (web_archive_ids_truthy _ _ E).
Qed.

(** C7.  For every session and chamber, the resolver returns the direct
    URL behind the archive prefix and the snapshot id of the table when
    the table has an entry for the pair, and the direct URL unchanged when
    it has none; the result starts with the archive prefix exactly when
    there is an entry.  Session 2019-2020, chamber upper gives the archived
    URL of snapshot 20201101152857, and session 2023-2024, chamber upper
    gives the direct URL. *)
Theorem get_index_url_archived_iff_entry (session chamber chamber_letter : string) :
  (∀ id, web_archive_ids !! snapshot_key session chamber = Some id →
     get_index_url session chamber chamber_letter
     = archived id (direct_index_url chamber_letter))
  ∧ (web_archive_ids !! snapshot_key session chamber = None →
     get_index_url session chamber chamber_letter
     = direct_index_url chamber_letter)
  ∧ (Py.startswith (get_index_url session chamber chamber_letter) archive_prefix
     = true ↔ is_Some (web_archive_ids !! snapshot_key session chamber))
  ∧ get_index_url "2019-2020" "upper" chamber_letter
    = "https://web.archive.org/web/20201101152857/"
      ++ direct_index_url chamber_letter
  ∧ occurs "20201101152857" (get_index_url "2019-2020" "upper" chamber_letter)
  ∧ get_index_url "2023-2024" "upper" chamber_letter
    = direct_index_url chamber_letter.
Proof.
  split_and!.
  - intros id H. by rewrite get_index_url_cases, H.
  - intros H. by rewrite get_index_url_cases, H.
  - rewrite get_index_url_cases.
    destruct (web_archive_ids !! _) as [id|].
    + rewrite archived_startswith. split; eauto.
    + rewrite direct_index_url_not_archived. split; [done | by intros [? ?]].
  - rewrite get_index_url_cases.
    by assert (web_archive_ids !! snapshot_key "2019-2020" "upper"
               = Some "20201101152857") as -> by by vm_compute.
  - rewrite get_index_url_cases.
    assert (web_archive_ids !! snapshot_key "2019-2020" "upper"
            = Some "20201101152857") as -> by by vm_compute.
    exists archive_prefix, ("/" ++ direct_index_url chamber_letter).
    reflexivity.
  - rewrite get_index_url_cases.
    by assert (web_archive_ids !! snapshot_key "2023-2024" "upper" = None)
      as -> by by vm_compute.
Qed.

Lemma get_index_url_archived_iff_entry_witness :
  get_index_url "2021-2022" "lower" "h"
  = "https://web.archive.org/web/20221110101038/https://www.scstatehouse.gov/sessphp/hintros.php"
  ∧ get_index_url "2023-2024" "lower" "h"
    = "https://www.scstatehouse.gov/sessphp/hintros.php".
Proof.
  destruct (get_index_url_archived_iff_entry "2021-2022" "lower" "h")
    as (Harch & _).
  destruct (get_index_url_archived_iff_entry "2023-2024" "lower" "h")
    as (_ & Hdirect & _).
  split.
  - rewrite (Harch "20221110101038"); [reflexivity | by vm_compute].
  - rewrite Hdirect; [reflexivity | by vm_compute].
Defined.

(** * The bill type of the detail page *)

Lemma contains_occurs (label x : string) :
  Py.contains label x = true ↔ occurs x label.
Proof. apply PyFacts.contains_spec. Qed.

Lemma contains_not_occurs (label x : string) :
  Py.contains label x = false ↔ ¬ occurs x label.
Proof.
  rewrite <- contains_occurs. destruct (Py.contains label x); intuition congruence.
Qed.

Lemma occurs_trans (x y s : string) : occurs x y → occurs y s → occurs x s.
Proof.
  intros [a [b ->]] [c [d ->]]. exists (c ++ a), (b ++ d).
  by rewrite !PyFacts.str_app_assoc.
Qed.

Lemma resolution_in_concurrent : occurs "Resolution" "Concurrent Resolution".
Proof. by exists "Concurrent ", "". Qed.

Lemma resolution_in_joint : occurs "Resolution" "Joint Resolution".
Proof. by exists "Joint ", "". Qed.

(** C4 as it stands fails: a label with "Joint Resolution" in it that
    also has "Concurrent Resolution" in it is a concurrent resolution. *)
Lemma joint_resolution_label_not_always_joint :
  ¬ (∀ label, occurs "Joint Resolution" label →
       bill_type_of label = Return "joint resolution").
Proof.
  intros H.
  specialize (H "Concurrent Resolution to ratify a Joint Resolution").
  assert (occurs "Joint Resolution"
            "Concurrent Resolution to ratify a Joint Resolution") as Hocc
    by by exists "Concurrent Resolution to ratify a ", "".
  specialize (H Hocc). vm_compute in H. discriminate.
Qed.

(** C4, amended.  The label is classified by the first of the tests
    "General Bill", "Concurrent Resolution", "Joint Resolution",
    "Resolution" whose text occurs in it, as bill, concurrent resolution,
    joint resolution or resolution; a label in which none of the four
    occurs raises [ValueError].  So a label with "Joint Resolution" in it,
    and neither "General Bill" nor "Concurrent Resolution", is a joint
    resolution although "Resolution" occurs in it too, and no label with
    "Joint Resolution" in it is classified resolution. *)
Theorem bill_type_of_first_test (label : string) :
  (bill_type_of label = Return "bill" ↔ occurs "General Bill" label)
  ∧ (bill_type_of label = Return "concurrent resolution"
     ↔ ¬ occurs "General Bill" label ∧ occurs "Concurrent Resolution" label)
  ∧ (bill_type_of label = Return "joint resolution"
     ↔ ¬ occurs "General Bill" label ∧ ¬ occurs "Concurrent Resolution" label
       ∧ occurs "Joint Resolution" label)
  ∧ (bill_type_of label = Return "resolution"
     ↔ ¬ occurs "General Bill" label ∧ ¬ occurs "Concurrent Resolution" label
       ∧ ¬ occurs "Joint Resolution" label ∧ occurs "Resolution" label)
  ∧ (bill_type_of label = Raise (ValueError ("unknown bill type: " ++ label))
     ↔ ¬ occurs "General Bill" label ∧ ¬ occurs "Concurrent Resolution" label
       ∧ ¬ occurs "Joint Resolution" label ∧ ¬ occurs "Resolution" label)
  ∧ (bill_type_of label ∈
       [ Return "bill"; Return "concurrent resolution";
         Return "joint resolution"; Return "resolution";
         Raise (ValueError ("unknown bill type: " ++ label)) ])
  ∧ (occurs "Joint Resolution" label →
     occurs "Resolution" label
     ∧ bill_type_of label ≠ Return "resolution"
     ∧ (¬ occurs "General Bill" label → ¬ occurs "Concurrent Resolution" label →
        bill_type_of label = Return "joint resolution")).
Proof.
  unfold bill_type_of.
  destruct (Py.contains label "General Bill") eqn:GB;
    [apply contains_occurs in GB | apply contains_not_occurs in GB];
  (destruct (Py.contains label "Concurrent Resolution") eqn:CR;
    [apply contains_occurs in CR | apply contains_not_occurs in CR]);
  (destruct (Py.contains label "Joint Resolution") eqn:JR;
    [apply contains_occurs in JR | apply contains_not_occurs in JR]);
  (destruct (Py.contains label "Resolution") eqn:R;
    [apply contains_occurs in R | apply contains_not_occurs in R]);
  try (exfalso; apply R; eauto using occurs_trans, resolution_in_concurrent,
         resolution_in_joint; fail);
  (split_and!;
   [ intuition congruence | intuition congruence | intuition congruence
   | intuition congruence | intuition congruence
   | rewrite !elem_of_cons; tauto | intuition congruence ]).
Qed.

Lemma bill_type_of_first_test_witness :
  bill_type_of "Senate Joint Resolution" = Return "joint resolution".
Proof.
  apply (bill_type_of_first_test "Senate Joint Resolution").
  - by exists "Senate ", "".
  - by intros ?%contains_occurs.
  - by intros ?%contains_occurs.
Defined.

(** * The HTTP version toggle *)

Lemma toggle_http_version_return {A} (m : Http.method A) (p : Http.process)
    (response : A) :
  Http.keeps_version m →
  fst (m (Http.downgrade_http_version p)) = Return response →
  Http.toggle_http_version m p
  = (Return response, {| Http.conn := Http.saved p; Http.saved := Http.saved p |}).
Proof.
  intros Hm Hr. unfold Http.toggle_http_version.
  specialize (Hm (Http.downgrade_http_version p)).
  destruct (m _) as [[r|e] p2]; simpl in *; [|discriminate].
  injection Hr as ->. by subst p2.
Qed.

Lemma toggle_http_version_raise {A} (m : Http.method A) (p : Http.process)
    (e : exn) :
  Http.keeps_version m →
  fst (m (Http.downgrade_http_version p)) = Raise e →
  Http.toggle_http_version m p = (Raise e, Http.downgrade_http_version p).
Proof.
  intros Hm Hr. unfold Http.toggle_http_version.
  specialize (Hm (Http.downgrade_http_version p)).
  destruct (m _) as [[r|e'] p2]; simpl in *; [discriminate|].
  injection Hr as ->. by subst p2.
Qed.

(** C9, at a request that raises.  In a process where the version is
    HTTP/1.1, a [downgraded_http_get] whose request fails in transport
    raises that error and leaves the version at HTTP/1.0: the settings
    after the call are not those from before it.  (A request that returns
    puts back the version saved at import.) *)
Theorem downgraded_http_get_raise_leaves_http10 :
  let before := Http.import_bills Sample.http11 in
  let url := "https://www.scstatehouse.gov/sessphp/sintros.php" in
  Http.downgraded_http_get Sample.get_reset url before
  = (Raise (TransportError "connection reset by peer"),
     {| Http.conn := Sample.http10; Http.saved := Sample.http11 |})
  ∧ Http.conn (snd (Http.downgraded_http_get Sample.get_reset url before))
    ≠ Http.conn before
  ∧ Http.downgraded_http_get Sample.get_ok url before
    = (Return "<html></html>", before).
Proof. split_and!; [reflexivity | discriminate | reflexivity]. Qed.

(** * Splitting at runs of characters of a class *)

Module SplitFacts.

Section Class.

Variable ws : ascii -> bool.

Lemma str_app_nil_r (s : string) : s ++ "" = s.
Proof. induction s as [|c s IH]; simpl; by rewrite ?IH. Qed.

Lemma all_in_app (s t : string) :
  all_in ws (s ++ t) = all_in ws s && all_in ws t.
Proof.
  induction s as [|c s IH]; simpl; [done|]. by rewrite IH, andb_assoc.
Qed.

Lemma trail_app (k : nat) (s t : string) :
  trail ws k (s ++ t) = trail ws (trail ws k s) t.
Proof. revert k. induction s as [|c s IH]; intros k; simpl; by rewrite ?IH. Qed.

Lemma no_run3_from_app (k : nat) (s t : string) :
  no_run3_from ws k (s ++ t)
  = no_run3_from ws k s && no_run3_from ws (trail ws k s) t.
Proof.
  revert k. induction s as [|c s IH]; intros k; simpl; [done|].
  destruct (ws c); by rewrite IH, ?andb_assoc.
Qed.

Lemma all_in_no_run3 (k : nat) (s : string) :
  all_in ws s = true → (k + String.length s < 3)%nat →
  no_run3_from ws k s = true.
Proof.
  revert k. induction s as [|c s IH]; intros k; simpl; [done|].
  intros [-> Hs]%andb_true_iff Hk. rewrite IH by (done || lia).
  rewrite andb_true_r. apply Nat.ltb_lt. lia.
Qed.

(** A piece that ends in a character outside the class, with the short
    run [run] before that character, has no run of three. *)
Lemma no_run3_extend (tok run : string) (c : ascii) :
  no_run3 ws tok = true → trail ws 0 tok = 0%nat → all_in ws run = true →
  (String.length run < 3)%nat → ws c = false →
  no_run3 ws (tok ++ run ++ String c "") = true
  ∧ trail ws 0 (tok ++ run ++ String c "") = 0%nat.
Proof.
  intros Htok Htr Hrun Hlen Hc. unfold no_run3 in *.
  rewrite !no_run3_from_app, !trail_app, Htok, Htr. simpl. rewrite Hc.
  rewrite all_in_no_run3 by (done || lia). done.
Qed.

Lemma re_split_runs3_nil (tok run : string) :
  Py.re_split_runs3 ws tok run ""
  = if (3 <=? String.length run)%nat then [tok; ""] else [tok ++ run].
Proof. reflexivity. Qed.

Lemma re_split_runs3_cons (tok run : string) (c : ascii) (t : string) :
  Py.re_split_runs3 ws tok run (String c t)
  = if ws c then Py.re_split_runs3 ws tok (run ++ String c "") t
    else if (3 <=? String.length run)%nat
         then tok :: Py.re_split_runs3 ws (String c "") "" t
         else Py.re_split_runs3 ws (tok ++ run ++ String c "") "" t.
Proof. reflexivity. Qed.

(** The loop of the split, from any piece and run read so far. *)
Lemma split_inv (s tok run : string) :
  no_run3 ws tok = true → trail ws 0 tok = 0%nat → all_in ws run = true →
  ∃ seps,
    length (Py.re_split_runs3 ws tok run s) = S (length seps)
    ∧ join (Py.re_split_runs3 ws tok run s) seps = tok ++ run ++ s
    ∧ Forall (fun sep => all_in ws sep = true ∧ (3 <= String.length sep)%nat) seps
    ∧ Forall (fun t => no_run3 ws t = true) (Py.re_split_runs3 ws tok run s)
    ∧ Forall (fun t => ends_in ws t = false)
        (removelast (Py.re_split_runs3 ws tok run s))
    ∧ Forall (fun t => starts_in ws t = false)
        (tail (Py.re_split_runs3 ws tok run s))
    ∧ (starts_in ws tok = false → tok ≠ "" →
       Forall (fun t => starts_in ws t = false) (Py.re_split_runs3 ws tok run s)).
Proof.
  revert tok run. induction s as [|c s IH]; intros tok run Htok Htr Hrun.
  - rewrite re_split_runs3_nil. destruct (3 <=? String.length run)%nat eqn:E.
    + apply Nat.leb_le in E. exists [run]. simpl. rewrite str_app_nil_r.
      split_and!; [repeat constructor; try done .. |].
      * unfold ends_in. by rewrite Htr.
      * intros Hsp Hne. by repeat constructor.
    + apply Nat.leb_gt in E. exists []. simpl. rewrite str_app_nil_r.
      assert (no_run3 ws (tok ++ run) = true) as Hn.
      { unfold no_run3 in *. rewrite no_run3_from_app, Htok, Htr.
        by apply all_in_no_run3. }
      split_and!; [repeat constructor; try done .. |].
      intros Hsp Hne. constructor; [|done]. by destruct tok.
  - rewrite re_split_runs3_cons. destruct (ws c) eqn:Ec.
    + destruct (IH tok (run ++ String c "")) as (seps & H); [done | done | |].
      { rewrite all_in_app, Hrun. simpl. by rewrite Ec. }
      exists seps. by rewrite !PyFacts.str_app_assoc in H.
    + destruct (3 <=? String.length run)%nat eqn:E.
      * apply Nat.leb_le in E.
        destruct (IH (String c "") "") as (seps & Hl & Hj & Hs & Ht & He & Hb & Hh).
        { unfold no_run3. simpl. by rewrite Ec. }
        { simpl. by rewrite Ec. }
        { done. }
        specialize (Hh Ec ltac:(done)).
        exists (run :: seps). simpl in *. rewrite Hj.
        destruct (Py.re_split_runs3 ws (String c "") "" s) as [|t ts] eqn:Et;
          [done|].
        split_and!; try done.
        -- by rewrite Hl.
        -- by constructor.
        -- by constructor.
        -- constructor; [|done]. unfold ends_in. by rewrite Htr.
        -- intros Hsp Hne. by constructor.
      * apply Nat.leb_gt in E.
        destruct (no_run3_extend tok run c) as [Hn Hz]; try done.
        destruct (IH (tok ++ run ++ String c "") "") as (seps & H);
          [done | done | done |].
        exists seps. rewrite !PyFacts.str_app_assoc in H. simpl in H.
        destruct H as (Hl & Hj & Hs & Ht & He & Hb & Hh).
        split_and!; try done.
        intros Hsp Hne. apply Hh.
        -- by destruct tok.
        -- by destruct tok.
Qed.

Lemma re_split_runs3_spec (line : string) :
  runs3_split ws line (Py.re_split_runs3 ws "" "" line).
Proof.
  destruct (split_inv line "" "") as (seps & Hl & Hj & Hs & Ht & He & Hb & _);
    [done..|].
  by exists seps.
Qed.

End Class.

(** Two classes that agree on the characters of [s] split it alike. *)
Lemma re_split_runs3_ext (ws ws' : ascii -> bool) (s tok run : string) :
  all_in (fun c => Bool.eqb (ws c) (ws' c)) s = true →
  Py.re_split_runs3 ws tok run s = Py.re_split_runs3 ws' tok run s.
Proof.
  revert tok run. induction s as [|c s IH]; intros tok run; simpl; [done|].
  intros [Hc Hs]%andb_true_iff. apply Bool.eqb_prop in Hc. rewrite <- Hc.
  by rewrite !IH.
Qed.

Lemma plain_spaces_only_agree (s : string) :
  plain_spaces_only s = true →
  all_in (fun c => Bool.eqb (Py.is_space c) (is_plain_space c)) s = true.
Proof.
  unfold plain_spaces_only. induction s as [|c s IH]; simpl; [done|].
  intros [Hc Hs]%andb_true_iff. rewrite IH by done. rewrite andb_true_r.
  unfold is_plain_space in *. destruct (Ascii.eqb_spec c " ") as [->|]; [done|].
  by destruct (Py.is_space c).
Qed.

(** The pieces of [re.split(r"\s{3,}", line)] are those between the runs
    of three or more whitespace characters, and those between the runs of
    three or more spaces when the line has no other whitespace. *)
Lemma re_split_ws3_spec (line : string) :
  runs3_split Py.is_space line (Py.re_split_ws3 line)
  ∧ (plain_spaces_only line = true →
     runs3_split is_plain_space line (Py.re_split_ws3 line)).
Proof.
  unfold Py.re_split_ws3. split; [apply re_split_runs3_spec|].
  intros H%plain_spaces_only_agree.
  rewrite (re_split_runs3_ext _ _ _ _ _ H). apply re_split_runs3_spec.
Qed.

End SplitFacts.

(** * The roll-call roster parser *)

Lemma record_call_tagged (f : vfunc) (opt : option string) (name : string) :
  record_call f opt name = tagged_call f opt (Py.strip Py.is_space name).
Proof.
  unfold record_call, tagged_call. destruct opt as [o|]; [|done]. simpl.
  by destruct (String.eqb o "").
Qed.

Lemma truthy_nonempty (s : string) : Py.truthy (Some s) = true ↔ s ≠ "".
Proof.
  simpl. destruct (String.eqb_spec s ""); simpl; intuition congruence.
Qed.

Lemma name_calls_tokens (f : vfunc) (opt : option string) (line : string) :
  name_calls f opt (Py.re_split_ws3 line)
  = map (tagged_call f opt) (name_tokens line).
Proof.
  unfold name_calls, name_tokens. rewrite map_map.
  induction (Py.re_split_ws3 line) as [|name names IH]; [done|].
  rewrite !filter_cons.
  destruct (decide (Py.truthy (Some name) = true)) as [H|H];
    destruct (decide (name ≠ "")) as [H'|H'];
    rewrite truthy_nonempty in H; try done.
  rewrite !map_cons. by rewrite IH, record_call_tagged.
Qed.

Lemma rollcall_line_names (raw : string) (st : roster) (f : vfunc) :
  is_header (line_of raw) = false → line_of raw ≠ "" →
  Py.startswith (line_of raw) "Page " = false →
  current_vfunc st = Some f →
  rollcall_line raw st
  = (st, map (tagged_call f (option_tag st)) (name_tokens (line_of raw))).
Proof.
  intros Hh Hne Hp Hf. unfold rollcall_line. set (line := line_of raw) in *.
  unfold is_header, headers in Hh. cbn [existsb] in Hh.
  repeat (apply orb_false_iff in Hh as [? Hh]).
  repeat match goal with
         | H : Py.startswith line _ = false |- _ => rewrite H; clear H
         end.
  apply truthy_nonempty in Hne. rewrite Hne, Hf. cbn [orb negb].
  by rewrite name_calls_tokens.
Qed.

Lemma rollcall_line_skip (raw : string) (st : roster) :
  line_of raw = "" ∨ Py.startswith (line_of raw) "Page " = true →
  rollcall_line raw st = (st, []).
Proof.
  intros H. unfold rollcall_line. set (line := line_of raw) in *.
  destruct H as [-> | [r ->]%PyFacts.startswith_spec]; reflexivity.
Qed.

Lemma rollcall_line_yeas (raw : string) (st : roster) :
  Py.startswith (line_of raw) "YEAS" = true
  ∨ Py.startswith (line_of raw) "AYES" = true →
  rollcall_line raw st = (switch vote_yes (option_tag st), []).
Proof.
  intros H. unfold rollcall_line. set (line := line_of raw) in *.
  by destruct H as [-> | ->]; rewrite ?orb_true_r.
Qed.

(** C5, at a document whose first header is EXCUSED.  For the lines
    EXCUSED, Smith, YEAS, Jones the YEAS header switches to [vote.yes] but
    keeps the option "excused": the name Jones is passed as
    [vote.yes(option="excused", voter="Jones")], which [yes] refuses with
    a [TypeError], so Jones is not recorded as a yes vote without option
    tag.  The same happens to a name under NAYS after PAIRED. *)
Theorem rollcall_yeas_after_excused_keeps_option :
  rollcall_line "YEAS" (switch vote_vote (Some "excused"))
  = (switch vote_yes (Some "excused"), [])
  ∧ rollcall_calls ["EXCUSED"; "Smith"; "YEAS"; "Jones"] roster_init
    = [ CallKw vote_vote "excused" "Smith"; CallKw vote_yes "excused" "Jones" ]
  ∧ parse_rollcall Sample.vote Sample.excused_first_text
    = Raise (TypeError "yes() got an unexpected keyword argument 'option'")
  ∧ rollcall_calls ["PAIRED"; "Smith"; "NAYS"; "Jones"] roster_init
    = [ CallKw vote_vote "paired" "Smith"; CallKw vote_no "paired" "Jones" ]
  ∧ apply_calls Sample.vote
      (rollcall_calls ["PAIRED"; "Smith"; "NAYS"; "Jones"] roster_init)
    = Raise (TypeError "no() got an unexpected keyword argument 'option'").
Proof. split_and!; reflexivity. Qed.

Lemma roster_text_votes (v : VoteEvent) :
  votes v = [] →
  ∃ v', parse_rollcall v Sample.roster_text = Return v'
    ∧ Vote.voters "yes" v' = ["Smith"; "Jones"; "Lee"]
    ∧ Vote.voters "no" v' = ["Doe"]
    ∧ Vote.other_voters v' = [].
Proof.
  destruct v as [c d m r cl b cs vs ss k]. simpl. intros ->.
  eexists. split; [reflexivity|]. split_and!; reflexivity.
Qed.

Lemma apply_call_tagged (f : vfunc) (opt : option string) (o name : string)
    (v : VoteEvent) :
  recorded_as f opt = Some o →
  apply_call v (tagged_call f opt name) = Return (Vote.vote v o name).
Proof.
  unfold recorded_as, tagged_call.
  destruct f, opt as [o'|]; simpl; try done;
    try (destruct (String.eqb o' ""); simpl; try done); by intros [= <-].
Qed.

(** The calls of a line, taken by the vote, append the names under the
    option of the active function. *)
Lemma apply_calls_tagged (f : vfunc) (opt : option string) (o : string)
    (names : list string) (v : VoteEvent) :
  recorded_as f opt = Some o →
  ∃ v', apply_calls v (map (tagged_call f opt) names) = Return v'
    ∧ votes v' = (votes v ++ map (pair o) names)%list.
Proof.
  intros Ho. revert v. induction names as [|name names IH]; intros v.
  - exists v. simpl. by rewrite app_nil_r.
  - simpl. rewrite (apply_call_tagged f opt o name v Ho). cbn [rbind].
    destruct (IH (Vote.vote v o name)) as (v' & Hv' & Hvotes).
    exists v'. split; [done|]. rewrite Hvotes. simpl. by rewrite <- app_assoc.
Qed.

(** On a line whose only whitespace is the space character the parser
    splits as the specification says. *)
Lemma name_tokens_plain_spaces (line : string) :
  plain_spaces_only line = true → name_tokens line = spec_name_tokens line.
Proof.
  intros H%SplitFacts.plain_spaces_only_agree.
  unfold name_tokens, spec_name_tokens, Py.re_split_ws3.
  by rewrite (SplitFacts.re_split_runs3_ext _ _ _ _ _ H).
Qed.

(** C6 as it stands fails.  It is not so that every line read while a
    function is active is recorded as its tokens between runs of three or
    more spaces.  The pattern [\s{3,}] takes any whitespace: the line
    "Smith", three tabs, "Jones" has no space in it, so that it is a
    single token for the specification, and the parser records the two
    voters Smith and Jones.  And under the option left by an earlier
    EXCUSED header the function of YEAS refuses the call of the line
    "Jones", which records nobody. *)
Lemma rollcall_line_splits_at_tabs :
  ¬ (∀ raw st f v,
       current_vfunc st = Some f → is_header (line_of raw) = false →
       line_of raw ≠ "" → Py.startswith (line_of raw) "Page " = false →
       ∃ v', apply_calls v (snd (rollcall_line raw st)) = Return v'
         ∧ map snd (votes v')
           = (map snd (votes v) ++ spec_name_tokens (line_of raw))%list)
  ∧ spec_name_tokens (line_of Sample.tab_line) = [Sample.tab_line]
  ∧ rollcall_line Sample.tab_line (switch vote_yes None)
    = (switch vote_yes None, [Call vote_yes "Smith"; Call vote_yes "Jones"])
  ∧ (∃ v', apply_calls Sample.vote
             (snd (rollcall_line Sample.tab_line (switch vote_yes None)))
           = Return v'
       ∧ votes v' = [("yes", "Smith"); ("yes", "Jones")])
  ∧ rollcall_line "Jones" (switch vote_yes (Some "excused"))
    = (switch vote_yes (Some "excused"), [CallKw vote_yes "excused" "Jones"])
  ∧ apply_calls Sample.vote
      (snd (rollcall_line "Jones" (switch vote_yes (Some "excused"))))
    = Raise (TypeError "yes() got an unexpected keyword argument 'option'").
Proof.
  split_and!; try reflexivity.
  - intros H.
    destruct (H Sample.tab_line (switch vote_yes None) vote_yes Sample.vote)
      as (v' & Hv' & Hvotes); [reflexivity | reflexivity | discriminate
                               | reflexivity |].
    vm_compute in Hv'. injection Hv' as <-. vm_compute in Hvotes. discriminate.
  - eexists. split; reflexivity.
Qed.

(** C6, amended.  A line that is blank once trimmed, or that starts with
    "Page ", changes neither the function nor the option and makes no
    call.  Any other line that is no header, while a function is active,
    is split at its runs of three or more whitespace characters, and each
    non-empty piece, trimmed, is passed to the active function, with the
    option when one is set; function and option stay as they are.  When
    the option is the one of the function (none for yes and no, the one
    its header set for the others) the vote takes the names in this order
    under the option of the function.  The runs are those of the class
    [\s] of the regular expression, which the source calls spaces: the
    pieces are those of [runs3_split] for whitespace, and on a line with
    no other whitespace than the space character they are those between
    the runs of three or more spaces, the tokens being the ones of the
    specification.  The document YEAS, "Smith   Jones   Lee", NAYS, Doe
    gives yes Smith, Jones, Lee, no Doe and nobody else. *)
Theorem rollcall_line_skips_and_splits (raw : string) (st : roster) :
  (line_of raw = "" ∨ Py.startswith (line_of raw) "Page " = true →
   rollcall_line raw st = (st, []))
  ∧ (∀ f, current_vfunc st = Some f →
       is_header (line_of raw) = false → line_of raw ≠ "" →
       Py.startswith (line_of raw) "Page " = false →
       rollcall_line raw st
       = (st, map (tagged_call f (option_tag st)) (name_tokens (line_of raw)))
       ∧ ∀ o v, recorded_as f (option_tag st) = Some o →
           ∃ v', apply_calls v
                   (map (tagged_call f (option_tag st)) (name_tokens (line_of raw)))
                 = Return v'
             ∧ votes v' = (votes v ++ map (pair o) (name_tokens (line_of raw)))%list)
  ∧ runs3_split Py.is_space (line_of raw) (Py.re_split_ws3 (line_of raw))
  ∧ (plain_spaces_only (line_of raw) = true →
     runs3_split is_plain_space (line_of raw) (Py.re_split_ws3 (line_of raw))
     ∧ name_tokens (line_of raw) = spec_name_tokens (line_of raw))
  ∧ (∀ v, votes v = [] →
       ∃ v', parse_rollcall v Sample.roster_text = Return v'
         ∧ Vote.voters "yes" v' = ["Smith"; "Jones"; "Lee"]
         ∧ Vote.voters "no" v' = ["Doe"]
         ∧ Vote.other_voters v' = []).
Proof.
  split_and!.
  - apply rollcall_line_skip.
  - intros f Hf Hh Hne Hp. split; [by apply rollcall_line_names|].
    intros o v Ho. by apply apply_calls_tagged.
  - apply SplitFacts.re_split_ws3_spec.
  - intros H. split; [by apply SplitFacts.re_split_ws3_spec|].
    by apply name_tokens_plain_spaces.
  - apply roster_text_votes.
Qed.

Lemma rollcall_line_skips_and_splits_witness :
  rollcall_line "  Page 2 of 3 " (switch vote_no None) = (switch vote_no None, [])
  ∧ rollcall_line " Smith   Jones   Lee " (switch vote_yes None)
    = (switch vote_yes None,
       [Call vote_yes "Smith"; Call vote_yes "Jones"; Call vote_yes "Lee"])
  ∧ (∃ v', apply_calls Sample.vote
             [Call vote_yes "Smith"; Call vote_yes "Jones"; Call vote_yes "Lee"]
           = Return v'
       ∧ votes v' = [("yes", "Smith"); ("yes", "Jones"); ("yes", "Lee")])
  ∧ name_tokens "Smith   Jones   Lee" = spec_name_tokens "Smith   Jones   Lee"
  ∧ ∃ v', parse_rollcall Sample.vote Sample.roster_text = Return v'
      ∧ Vote.voters "yes" v' = ["Smith"; "Jones"; "Lee"]
      ∧ Vote.voters "no" v' = ["Doe"]
      ∧ Vote.other_voters v' = [].
Proof.
  destruct (rollcall_line_skips_and_splits "  Page 2 of 3 " (switch vote_no None))
    as (Hskip & _).
  destruct (rollcall_line_skips_and_splits " Smith   Jones   Lee "
              (switch vote_yes None)) as (_ & Hsplit & _ & Hplain & Hdoc).
  destruct (Hsplit vote_yes) as [Hcalls Hvotes];
    [reflexivity | reflexivity | discriminate | reflexivity |].
  destruct Hplain as [_ Hspec]; [reflexivity|].
  split_and!.
  - apply Hskip. right. reflexivity.
  - rewrite Hcalls. reflexivity.
  - apply (Hvotes "yes" Sample.vote). reflexivity.
  - apply Hspec.
  - apply (Hdoc Sample.vote). reflexivity.
Defined.

(** * The vote history parser *)

Lemma apply_call_frame (v v' : VoteEvent) (c : vcall) :
  apply_call v c = Return v' → same_but_votes v v'.
Proof.
  destruct c as [[] name | [] opt voter]; simpl; intros [= <-];
    by repeat split.
Qed.

Lemma same_but_votes_refl (v : VoteEvent) : same_but_votes v v.
Proof. by repeat split. Qed.

Lemma same_but_votes_trans (v1 v2 v3 : VoteEvent) :
  same_but_votes v1 v2 → same_but_votes v2 v3 → same_but_votes v1 v3.
Proof.
  unfold same_but_votes. intros H1 H2.
  destruct H1 as (?&?&?&?&?&?&?&?&?), H2 as (?&?&?&?&?&?&?&?&?).
  split_and!; congruence.
Qed.

Lemma apply_calls_frame (cs : list vcall) (v v' : VoteEvent) :
  apply_calls v cs = Return v' → same_but_votes v v'.
Proof.
  revert v. induction cs as [|c cs IH]; simpl; intros v.
  - intros [= <-]. apply same_but_votes_refl.
  - destruct (apply_call v c) as [v1|e] eqn:E; simpl; [|done].
    intros H. eapply same_but_votes_trans; eauto using apply_call_frame.
Qed.

Lemma rollcall_loop_frame (lines : list string) (st : roster) (v v' : VoteEvent) :
  rollcall_loop lines st v = Return v' → same_but_votes v v'.
Proof.
  revert st v. induction lines as [|raw lines IH]; simpl; intros st v.
  - intros [= <-]. apply same_but_votes_refl.
  - destruct (rollcall_line raw st) as [st' cs].
    destruct (apply_calls v cs) as [v1|e] eqn:E; simpl; [|done].
    intros H. eapply same_but_votes_trans; eauto using apply_calls_frame.
Qed.

Section VoteHistoryFacts.

Context (int : string -> option Z) {datetime : Type}
  (strptime : string -> string -> option datetime)
  (strftime : datetime -> string -> string)
  (pdf_text : option string -> res string)
  (table_rows : string -> res (list (list element))).

Local Abbreviation vote_row' := (vote_row int strptime strftime pdf_text).
Local Abbreviation vote_rows' := (vote_rows int strptime strftime pdf_text).
Local Abbreviation build_vote' := (build_vote int strptime strftime pdf_text).
Local Abbreviation scrape_vote_history' :=
  (scrape_vote_history int strptime strftime pdf_text table_rows).
Local Abbreviation vote_histories' :=
  (vote_histories int strptime strftime pdf_text table_rows).
Local Abbreviation scrape_votes' :=
  (scrape_votes int strptime strftime pdf_text table_rows).

Lemma scrape_rollcall_frame (v v' : VoteEvent) (url : option string) :
  scrape_rollcall pdf_text v url = Return v' → same_but_votes v v'.
Proof.
  unfold scrape_rollcall, parse_rollcall.
  destruct (pdf_text url) as [text|e]; simpl; [|done].
  apply rollcall_loop_frame.
Qed.

(** What a vote built from a row is made of. *)
Lemma build_vote_return (b : Bill) (vurl : string)
    (timestamp motion vote yeas nays nv exc pres abst total result : element)
    (v : VoteEvent) (rollcall_pdf : option string) :
  build_vote' b vurl timestamp motion vote yeas nays nv exc pres abst
    total result = Return (v, rollcall_pdf) →
  ∃ t link,
    read_tally int
      [timestamp; motion; vote; yeas; nays; nv; exc; pres; abst; total; result]
    = Some t
    ∧ (t_yeas t + t_nays t + t_others t = t_total t)%Z
    ∧ counts v = [("yes", t_yeas t); ("no", t_nays t); ("other", t_others t)]
    ∧ head (anchors vote) = Some link
    ∧ rollcall_pdf = a_href link
    ∧ sources v = [Some vurl; rollcall_pdf]
    ∧ classification v = "passage"
    ∧ bill v = b
    ∧ dedupe_key v = None.
Proof.
  unfold build_vote.
  destruct (parse_timestamp strptime timestamp) as [ts|]; cbn [rbind]; [|done].
  destruct (int_text int yeas) as [y|] eqn:Ey; cbn [rbind]; [|done].
  destruct (int_text int nays) as [n|] eqn:En; cbn [rbind]; [|done].
  destruct (int_text int nv) as [a|] eqn:Ea; cbn [rbind]; [|done].
  destruct (int_text int exc) as [e|] eqn:Ee; cbn [rbind]; [|done].
  destruct (int_text int abst) as [d|] eqn:Ed; cbn [rbind]; [|done].
  destruct (int_text int pres) as [c|] eqn:Ec; cbn [rbind]; [|done].
  destruct (int_text int total) as [t|] eqn:Et; cbn [rbind]; [|done].
  destruct (y + n + (a + e + d + c) =? t)%Z eqn:Esum; cbn [rbind py_assert];
    [|done].
  apply Z.eqb_eq in Esum.
  destruct (anchors vote) as [|link links]; [done|].
  destruct (a_text link) as [link_text|]; [|done].
  destruct (scrape_rollcall _ _ _) as [v1|] eqn:Er; cbn [rbind]; [|done].
  intros [= <- <-].
  apply scrape_rollcall_frame in Er as (_&_&_&_&Hcl&Hb&Hc&Hs&Hk).
  exists {| t_yeas := y; t_nays := n; t_nv := a; t_exc := e; t_pres := c;
            t_abst := d; t_total := t |}, link.
  unfold read_tally. rewrite Ey, En, Ea, Ee, Ed, Ec, Et.
  simpl in Hcl, Hb, Hc, Hs, Hk.
  unfold t_others.
  split_and!; simpl; rewrite ?Hc, ?Hs; simpl; congruence.
Qed.

Local Abbreviation build_row' := (build_row int strptime strftime pdf_text).

Lemma build_row_length (b : Bill) (vurl : string) (tds : list element) :
  is_Some (build_row' b vurl tds) ↔ length tds = 11%nat.
Proof.
  unfold build_row.
  do 12 (destruct tds as [|? tds];
         [split; [by intros [? ?] | done] |]); simpl.
  split; [by intros [? ?] | intros; lia].
Qed.

(** The loop body in terms of the vote built from the row. *)
Lemma vote_row_build (b : Bill) (vurl : string) (tds : list element)
    (self : scraper) :
  vote_row' b vurl tds self
  = match build_row' b vurl tds with
    | None => Continue (warning self (irregular_row vurl))
    | Some (Raise e) => Throw e self
    | Some (Return (v, rollcall_pdf)) =>
        if decide (rollcall_pdf ∈ _seen_vote_ids self) then
          Continue (warning self (duplicate_usage rollcall_pdf))
        else Yield (Vote.set_dedupe_key v rollcall_pdf) (seen_add self rollcall_pdf)
    end.
Proof.
  unfold vote_row, build_row.
  do 12 (destruct tds as [|? tds]; [reflexivity |]). reflexivity.
Qed.

Lemma vote_row_irregular (b : Bill) (vurl : string) (tds : list element)
    (self : scraper) :
  length tds ≠ 11%nat →
  vote_row' b vurl tds self = Continue (warning self (irregular_row vurl)).
Proof.
  intros H. rewrite vote_row_build.
  destruct (build_row' b vurl tds) as [r|] eqn:E; [|done].
  destruct H. apply (build_row_length b vurl). by rewrite E.
Qed.

Lemma build_row_return (b : Bill) (vurl : string) (tds : list element)
    (v : VoteEvent) (rollcall_pdf : option string) :
  build_row' b vurl tds = Some (Return (v, rollcall_pdf)) →
  ∃ t link,
    read_tally int tds = Some t
    ∧ (t_yeas t + t_nays t + t_others t = t_total t)%Z
    ∧ counts v = [("yes", t_yeas t); ("no", t_nays t); ("other", t_others t)]
    ∧ vote_link tds = Some link
    ∧ rollcall_pdf = a_href link
    ∧ sources v = [Some vurl; rollcall_pdf]
    ∧ classification v = "passage"
    ∧ bill v = b
    ∧ dedupe_key v = None.
Proof.
  unfold build_row.
  do 11 (destruct tds as [|? tds]; [done |]). destruct tds; [|done].
  intros [= H]. apply build_vote_return in H as (t & link & H).
  exists t, link. apply H.
Qed.

(** A row that yields a vote. *)
Lemma vote_row_yield (b : Bill) (vurl : string) (tds : list element)
    (self self' : scraper) (v : VoteEvent) :
  vote_row' b vurl tds self = Yield v self' →
  ∃ t link,
    read_tally int tds = Some t
    ∧ (t_yeas t + t_nays t + t_others t = t_total t)%Z
    ∧ counts v = [("yes", t_yeas t); ("no", t_nays t); ("other", t_others t)]
    ∧ vote_link tds = Some link
    ∧ dedupe_key v = a_href link
    ∧ sources v = [Some vurl; a_href link]
    ∧ classification v = "passage"
    ∧ bill v = b
    ∧ (a_href link ∉ _seen_vote_ids self)
    ∧ self' = seen_add self (a_href link).
Proof.
  rewrite vote_row_build.
  destruct (build_row' b vurl tds) as [[[v0 pdf]|e]|] eqn:E; [|done..].
  destruct (decide _) as [|Hnew]; [done|]. intros [= <- <-].
  apply build_row_return in E as (t & link & ? & ? & ? & ? & -> & ? & ? & ? & ?).
  exists t, link. by split_and!.
Qed.

(** What a turn of the loop does to the set of documents seen. *)
Lemma vote_row_seen (b : Bill) (vurl : string) (tds : list element)
    (self : scraper) :
  match vote_row' b vurl tds self with
  | Continue self' => _seen_vote_ids self' = _seen_vote_ids self
  | Yield v self' =>
      (dedupe_key v ∉ _seen_vote_ids self)
      ∧ _seen_vote_ids self' = {[dedupe_key v]} ∪ _seen_vote_ids self
  | Throw e self' => self' = self
  end.
Proof.
  rewrite vote_row_build.
  destruct (build_row' b vurl tds) as [[[v0 pdf]|e]|]; [|done..].
  by destruct (decide _).
Qed.

Lemma vote_rows_cons (b : Bill) (vurl : string) (tds : list element)
    (rows : list (list element)) (self : scraper) :
  vote_rows' b vurl (tds :: rows) self
  = match vote_row' b vurl tds self with
    | Continue self' => vote_rows' b vurl rows self'
    | Yield v self' => run_yield v (vote_rows' b vurl rows self')
    | Throw e self' => {| yielded := []; final := self'; raised := Some e |}
    end.
Proof. reflexivity. Qed.

(** Every vote of the loop was yielded by a turn on one of the rows. *)
Lemma vote_rows_yielded (b : Bill) (vurl : string) (rows : list (list element))
    (self : scraper) (v : VoteEvent) :
  v ∈ yielded (vote_rows' b vurl rows self) →
  ∃ tds s s', tds ∈ rows ∧ vote_row' b vurl tds s = Yield v s'.
Proof.
  revert self. induction rows as [|tds rows IH]; intros self.
  - by intros ?%elem_of_nil.
  - rewrite vote_rows_cons.
    destruct (vote_row' b vurl tds self) as [s'|v0 s'|e s'] eqn:E; simpl.
    + intros (t & s & s0 & ? & ?)%IH. exists t, s, s0. split; [by right | done].
    + intros [-> | (t & s & s0 & ? & ?)%IH]%elem_of_cons.
      * exists tds, self, s'. split; [by left | done].
      * exists t, s, s0. split; [by right | done].
    + by intros ?%elem_of_nil.
Qed.

(** The keys of the votes of the loop are new, distinct, and seen after it. *)
Lemma vote_rows_keys (b : Bill) (vurl : string) (rows : list (list element))
    (self : scraper) :
  NoDup (map dedupe_key (yielded (vote_rows' b vurl rows self)))
  ∧ (∀ k, k ∈ map dedupe_key (yielded (vote_rows' b vurl rows self)) →
       k ∉ _seen_vote_ids self)
  ∧ _seen_vote_ids (final (vote_rows' b vurl rows self))
    = list_to_set (map dedupe_key (yielded (vote_rows' b vurl rows self)))
      ∪ _seen_vote_ids self.
Proof.
  revert self. induction rows as [|tds rows IH]; intros self.
  - simpl. split_and!; [constructor | set_solver | set_solver].
  - rewrite vote_rows_cons. pose proof (vote_row_seen b vurl tds self) as Hs.
    destruct (vote_row' b vurl tds self) as [s'|v0 s'|e s']; simpl.
    + destruct (IH s') as (Hnd & Hnew & Hfin). rewrite Hs in Hnew, Hfin.
      by split_and!.
    + destruct (IH s') as (Hnd & Hnew & Hfin). destruct Hs as [Hk Hs].
      rewrite Hs in Hnew, Hfin. split_and!.
      * constructor; [|done]. intros Hin%Hnew. set_solver.
      * intros k [-> | Hin%Hnew]%elem_of_cons; set_solver.
      * rewrite Hfin. set_solver.
    + subst s'. split_and!; [constructor | set_solver | set_solver].
Qed.

Lemma scrape_vote_history_yielded (b : Bill) (vurl : string) (self : scraper)
    (v : VoteEvent) :
  v ∈ yielded (scrape_vote_history' b vurl self) →
  ∃ tds s s', vote_row' b vurl tds s = Yield v s'.
Proof.
  unfold scrape_vote_history. destruct (table_rows vurl) as [rows|e]; simpl.
  - intros (tds & s & s' & _ & H)%vote_rows_yielded. eauto.
  - by intros ?%elem_of_nil.
Qed.

Lemma scrape_vote_history_keys (b : Bill) (vurl : string) (self : scraper) :
  NoDup (map dedupe_key (yielded (scrape_vote_history' b vurl self)))
  ∧ (∀ k, k ∈ map dedupe_key (yielded (scrape_vote_history' b vurl self)) →
       k ∉ _seen_vote_ids self)
  ∧ _seen_vote_ids (final (scrape_vote_history' b vurl self))
    = list_to_set (map dedupe_key (yielded (scrape_vote_history' b vurl self)))
      ∪ _seen_vote_ids self.
Proof.
  unfold scrape_vote_history. destruct (table_rows vurl) as [rows|e]; simpl.
  - apply vote_rows_keys.
  - split_and!; [constructor | set_solver | set_solver].
Qed.

Lemma vote_histories_yielded (visits : list (Bill * string)) (self : scraper)
    (v : VoteEvent) :
  v ∈ yielded (vote_histories' visits self) →
  ∃ b vurl tds s s', (b, vurl) ∈ visits ∧ vote_row' b vurl tds s = Yield v s'.
Proof.
  revert self. induction visits as [|[b vurl] visits IH]; intros self; simpl.
  - by intros ?%elem_of_nil.
  - destruct (raised (scrape_vote_history' b vurl self)); simpl.
    + intros (tds & s & s' & H)%scrape_vote_history_yielded.
      exists b, vurl, tds, s, s'. split; [by left | done].
    + intros [(tds & s & s' & H)%scrape_vote_history_yielded
             | (b' & vurl' & tds & s & s' & Hin & H)%IH]%elem_of_app.
      * exists b, vurl, tds, s, s'. split; [by left | done].
      * exists b', vurl', tds, s, s'. split; [by right | done].
Qed.

Lemma vote_histories_keys (visits : list (Bill * string)) (self : scraper) :
  NoDup (map dedupe_key (yielded (vote_histories' visits self)))
  ∧ (∀ k, k ∈ map dedupe_key (yielded (vote_histories' visits self)) →
       k ∉ _seen_vote_ids self)
  ∧ _seen_vote_ids (final (vote_histories' visits self))
    = list_to_set (map dedupe_key (yielded (vote_histories' visits self)))
      ∪ _seen_vote_ids self.
Proof.
  revert self. induction visits as [|[b vurl] visits IH]; intros self; simpl.
  - split_and!; [constructor | set_solver | set_solver].
  - pose proof (scrape_vote_history_keys b vurl self) as (Hnd & Hnew & Hfin).
    destruct (raised (scrape_vote_history' b vurl self)); simpl; [done|].
    destruct (IH (final (scrape_vote_history' b vurl self)))
      as (Hnd' & Hnew' & Hfin').
    rewrite Hfin in Hnew', Hfin'. rewrite map_app. split_and!.
    + apply NoDup_app. split_and!; [done | | done].
      intros k Hk Hk'%Hnew'. set_solver.
    + intros k [Hk%Hnew | Hk%Hnew']%elem_of_app; set_solver.
    + rewrite Hfin', list_to_set_app_L. set_solver.
Qed.

Lemma read_tally_cells (tds : list element) (t : tally) :
  read_tally int tds = Some t →
  ∃ timestamp motion vote yeas nays nv exc pres abst total result,
    tds = [timestamp; motion; vote; yeas; nays; nv; exc; pres; abst; total; result]
    ∧ int_text int yeas = Return (t_yeas t)
    ∧ int_text int nays = Return (t_nays t)
    ∧ int_text int nv = Return (t_nv t)
    ∧ int_text int exc = Return (t_exc t)
    ∧ int_text int pres = Return (t_pres t)
    ∧ int_text int abst = Return (t_abst t)
    ∧ int_text int total = Return (t_total t).
Proof.
  unfold read_tally.
  do 11 (destruct tds as [|? tds]; [done |]). destruct tds; [|done].
  repeat match goal with
         | |- context [int_text int ?td] =>
             destruct (int_text int td) eqn:?; [|by repeat case_match]
         end.
  intros [= <-]. by repeat eexists.
Qed.

(** A row of eleven cells whose numbers do not add up raises. *)
Lemma vote_row_bad_sum (b : Bill) (vurl : string) (tds : list element)
    (self : scraper) (t : tally) :
  read_tally int tds = Some t →
  (t_yeas t + t_nays t + t_others t)%Z ≠ t_total t →
  ∃ e, vote_row' b vurl tds self = Throw e self
    ∧ (timestamp_ok strptime tds → e = AssertionError).
Proof.
  intros Ht Hsum. rewrite vote_row_build.
  apply read_tally_cells in Ht
    as (ts & mo & vo & y & n & a & e & c & d & tot & re & -> & Hy & Hn & Ha
        & He & Hc & Hd & Htot).
  unfold build_row, build_vote, timestamp_ok. simpl.
  destruct (parse_timestamp strptime ts) as [stamp|err] eqn:Ets; cbn [rbind].
  - rewrite Hy, Hn, Ha, He, Hd, Hc, Htot. cbn [rbind].
    unfold t_others in Hsum. apply Z.eqb_neq in Hsum. rewrite Hsum. simpl.
    by exists AssertionError.
  - exists err. split; [done|]. intros (td & stamp & [= <-] & Hts). congruence.
Qed.

(** C2.  A row that yields a vote has eleven cells that read as numbers;
    the vote counts its yes and no cells, counts as other the sum of the
    not-voting, excused, abstain and present cells, and yes, no and other
    add up to the total cell.  A row of eleven cells whose numbers do not
    add up yields nothing and is not passed over: the turn raises, an
    [AssertionError] when the timestamp can be read, and the loop ends
    there with that exception. *)
Theorem vote_row_counts_add_up (b : Bill) (vurl : string) (tds : list element)
    (self : scraper) :
  (∀ v self', vote_row' b vurl tds self = Yield v self' →
     ∃ t, read_tally int tds = Some t
       ∧ Vote.count "yes" v = Some (t_yeas t)
       ∧ Vote.count "no" v = Some (t_nays t)
       ∧ Vote.count "other" v = Some (t_nv t + t_exc t + t_abst t + t_pres t)%Z
       ∧ (t_yeas t + t_nays t + (t_nv t + t_exc t + t_abst t + t_pres t)
          = t_total t)%Z)
  ∧ (∀ t, read_tally int tds = Some t →
       (t_yeas t + t_nays t + (t_nv t + t_exc t + t_abst t + t_pres t))%Z
       ≠ t_total t →
       ∃ e, vote_row' b vurl tds self = Throw e self
         ∧ (timestamp_ok strptime tds → e = AssertionError)
         ∧ ∀ rows, vote_rows' b vurl (tds :: rows) self
                   = {| yielded := []; final := self; raised := Some e |}).
Proof.
  split.
  - intros v self' (t & link & Ht & Hsum & Hc & _)%vote_row_yield.
    exists t. unfold Vote.count. rewrite Hc. by split_and!.
  - intros t Ht Hsum.
    destruct (vote_row_bad_sum b vurl tds self t Ht Hsum) as (e & He & Hts).
    exists e. split_and!; [done | done |].
    intros rows. by rewrite vote_rows_cons, He.
Qed.

(** C8.  The loop runs over the rows of the page after the first two,
    whatever those two are.  A row whose number of cells is not eleven
    logs the warning "irregular vote row", yields no vote, raises nothing
    and changes nothing else, and the loop goes on with the next row. *)
Theorem scrape_vote_history_skips_irregular_rows (b : Bill) (vurl : string)
    (self : scraper) :
  (∀ rows, table_rows vurl = Return rows →
     scrape_vote_history' b vurl self = vote_rows' b vurl (drop 2 rows) self)
  ∧ (∀ h1 h2 rows, table_rows vurl = Return (h1 :: h2 :: rows) →
       scrape_vote_history' b vurl self = vote_rows' b vurl rows self)
  ∧ (∀ tds rows s, length tds ≠ 11%nat →
       vote_row' b vurl tds s = Continue (warning s (irregular_row vurl))
       ∧ _seen_vote_ids (warning s (irregular_row vurl)) = _seen_vote_ids s
       ∧ vote_rows' b vurl (tds :: rows) s
         = vote_rows' b vurl rows (warning s (irregular_row vurl))).
Proof.
  split_and!.
  - intros rows H. unfold scrape_vote_history. by rewrite H.
  - intros h1 h2 rows H. unfold scrape_vote_history. by rewrite H.
  - intros tds rows s H. split_and!; [by apply vote_row_irregular | done |].
    by rewrite vote_rows_cons, vote_row_irregular.
Qed.

(** C10.  Every vote yielded by the vote history parser, and so every
    vote of a run, has the classification "passage". *)
Theorem yielded_votes_are_passage (b : Bill) (vurl : string)
    (visits : list (Bill * string)) (self : scraper) (v : VoteEvent) :
  (v ∈ yielded (scrape_vote_history' b vurl self) →
   classification v = "passage")
  ∧ (v ∈ yielded (scrape_votes' visits self) → classification v = "passage").
Proof.
  split.
  - intros (tds & s & s' & H)%scrape_vote_history_yielded.
    by apply vote_row_yield in H as (t & link & _ & _ & _ & _ & _ & _ & Hc & _).
  - intros (b' & vurl' & tds & s & s' & _ & H)%vote_histories_yielded.
    by apply vote_row_yield in H as (t & link & _ & _ & _ & _ & _ & _ & Hc & _).
Qed.

(** C3.  In a whole run, no two votes yielded have the same deduplication
    key.  Each vote yielded comes from a row of a page visited, its key is
    the target of the row's link to the roll-call document, and that
    document is its second source.  A row whose document was seen before
    yields no vote: where the row would yield a vote otherwise, the turn
    logs "duplicate usage" and goes on to the next row without raising. *)
Theorem scrape_votes_one_vote_per_document (visits : list (Bill * string))
    (self : scraper) :
  NoDup (map dedupe_key (yielded (scrape_votes' visits self)))
  ∧ (∀ v, v ∈ yielded (scrape_votes' visits self) →
       ∃ b vurl tds link s s',
         (b, vurl) ∈ visits ∧ vote_row' b vurl tds s = Yield v s'
         ∧ vote_link tds = Some link ∧ dedupe_key v = a_href link
         ∧ sources v = [Some vurl; a_href link])
  ∧ (∀ b vurl tds link s,
       vote_link tds = Some link → a_href link ∈ _seen_vote_ids s →
       (∀ v s', vote_row' b vurl tds s ≠ Yield v s')
       ∧ (∀ s0 v s0', vote_row' b vurl tds s0 = Yield v s0' →
            vote_row' b vurl tds s
            = Continue (warning s (duplicate_usage (a_href link))))).
Proof.
  split_and!.
  - apply vote_histories_keys.
  - intros v (b & vurl & tds & s & s' & Hin & H)%vote_histories_yielded.
    pose proof H as (t & link & _ & _ & _ & Hl & Hk & Hs & _)%vote_row_yield.
    by exists b, vurl, tds, link, s, s'.
  - intros b vurl tds link s Hl Hseen. split.
    + intros v s' (t & link' & _ & _ & _ & Hl' & _ & _ & _ & _ & Hnew & _)%vote_row_yield.
      rewrite Hl in Hl'. by injection Hl' as <-.
    + intros s0 v s0'. rewrite !vote_row_build.
      destruct (build_row' b vurl tds) as [[[v0 pdf]|e]|] eqn:E; [|done..].
      apply build_row_return in E as (t & link' & _ & _ & _ & Hl' & -> & _).
      rewrite Hl in Hl'. injection Hl' as <-. intros _.
      by destruct (decide _).
Qed.

End VoteHistoryFacts.

(** * The vote history parser on the sample page *)

Lemma good_row_yields :
  vote_row Sample.int Sample.strptime Sample.strftime Sample.pdf_text
    Sample.roads_bill Sample.vurl Sample.good_row Sample.self
  = Yield Sample.good_vote (seen_add Sample.self Sample.rollcall_1).
Proof. reflexivity. Qed.

Lemma vote_row_counts_add_up_witness :
  (∃ t, read_tally Sample.int Sample.good_row = Some t
     ∧ Vote.count "other" Sample.good_vote
       = Some (t_nv t + t_exc t + t_abst t + t_pres t)%Z
     ∧ (t_yeas t + t_nays t + (t_nv t + t_exc t + t_abst t + t_pres t)
        = t_total t)%Z)
  ∧ vote_row Sample.int Sample.strptime Sample.strftime Sample.pdf_text
      Sample.roads_bill Sample.vurl Sample.bad_sum_row Sample.self
    = Throw AssertionError Sample.self.
Proof.
  split.
  - destruct (vote_row_counts_add_up Sample.int Sample.strptime Sample.strftime
                Sample.pdf_text Sample.roads_bill Sample.vurl Sample.good_row
                Sample.self) as [Hyield _].
    destruct (Hyield Sample.good_vote (seen_add Sample.self Sample.rollcall_1))
      as (t & Ht & _ & _ & Ho & Hsum); [reflexivity|].
    by exists t.
  - destruct (vote_row_counts_add_up Sample.int Sample.strptime Sample.strftime
                Sample.pdf_text Sample.roads_bill Sample.vurl Sample.bad_sum_row
                Sample.self) as [_ Hbad].
    destruct (Hbad {| t_yeas := 3; t_nays := 1; t_nv := 1; t_exc := 0;
                      t_pres := 0; t_abst := 0; t_total := 6 |})
      as (e & He & Hts & _); [reflexivity | discriminate |].
    rewrite He. f_equal. apply Hts.
    exists (Sample.cell "01/15/2020 11:30 AM"), "01/15/2020 11:30 AM".
    split; reflexivity.
Defined.

Lemma scrape_vote_history_skips_irregular_rows_witness :
  scrape_vote_history Sample.int Sample.strptime Sample.strftime
    Sample.pdf_text Sample.table_rows Sample.roads_bill Sample.vurl Sample.self
  = vote_rows Sample.int Sample.strptime Sample.strftime Sample.pdf_text
      Sample.roads_bill Sample.vurl
      [Sample.good_row; Sample.short_row; Sample.good_row] Sample.self
  ∧ vote_row Sample.int Sample.strptime Sample.strftime Sample.pdf_text
      Sample.roads_bill Sample.vurl Sample.short_row Sample.self
    = Continue (warning Sample.self (irregular_row Sample.vurl)).
Proof.
  destruct (scrape_vote_history_skips_irregular_rows Sample.int Sample.strptime
              Sample.strftime Sample.pdf_text Sample.table_rows Sample.roads_bill
              Sample.vurl Sample.self) as (_ & Hhead & Hrow).
  split.
  - apply (Hhead Sample.short_row Sample.short_row). reflexivity.
  - apply (Hrow Sample.short_row [] Sample.self). simpl. lia.
Defined.

Lemma yielded_votes_are_passage_witness :
  classification Sample.good_vote = "passage".
Proof.
  destruct (yielded_votes_are_passage Sample.int Sample.strptime
              Sample.strftime Sample.pdf_text Sample.table_rows
              Sample.roads_bill Sample.vurl
              [(Sample.roads_bill, Sample.vurl)] Sample.self Sample.good_vote)
    as [Hpage _].
  apply Hpage.
  assert (yielded
            (scrape_vote_history Sample.int Sample.strptime Sample.strftime
               Sample.pdf_text Sample.table_rows Sample.roads_bill Sample.vurl
               Sample.self) = [Sample.good_vote]) as -> by by vm_compute.
  left.
Defined.

Lemma scrape_votes_one_vote_per_document_witness :
  yielded
    (scrape_votes Sample.int Sample.strptime Sample.strftime Sample.pdf_text
       Sample.table_rows [(Sample.roads_bill, Sample.vurl); (Sample.roads_bill, Sample.vurl)]
       Sample.self) = [Sample.good_vote]
  ∧ vote_row Sample.int Sample.strptime Sample.strftime Sample.pdf_text
      Sample.roads_bill Sample.vurl Sample.good_row
      (seen_add Sample.self Sample.rollcall_1)
    = Continue
        (warning (seen_add Sample.self Sample.rollcall_1)
           (duplicate_usage Sample.rollcall_1)).
Proof.
  destruct (scrape_votes_one_vote_per_document Sample.int Sample.strptime
              Sample.strftime Sample.pdf_text Sample.table_rows
              [(Sample.roads_bill, Sample.vurl); (Sample.roads_bill, Sample.vurl)]
              Sample.self) as (_ & _ & Hdup).
  split; [by vm_compute|].
  destruct (Hdup Sample.roads_bill Sample.vurl Sample.good_row
              {| a_text := Some "[S] 12"; a_href := Sample.rollcall_1 |}
              (seen_add Sample.self Sample.rollcall_1)) as [_ Hskip].
  - reflexivity.
  - simpl. set_solver.
  - apply (Hskip Sample.self Sample.good_vote
             (seen_add Sample.self Sample.rollcall_1)).
    apply good_row_yields.
Defined.

(** * The rest of bills.py: facts *)

Module StrFacts.

Lemma contains_false (hay x : string) :
  Py.contains hay x = false ↔ ¬ occurs x hay.
Proof.
  unfold occurs. rewrite <- PyFacts.contains_spec.
  destruct (Py.contains hay x); intuition congruence.
Qed.

Lemma startswith_nil (m : string) : Py.startswith "" m = true → m = "".
Proof. by destruct m. Qed.

Lemma contains_nil (m : string) : m ≠ "" → Py.contains "" m = false.
Proof. by destruct m. Qed.

Lemma contains_cons (c : ascii) (s m : string) :
  Py.contains (String c s) m = Py.startswith (String c s) m || Py.contains s m.
Proof. reflexivity. Qed.

(** The text before a marker is a prefix of the text. *)
Lemma before_prefix (m s : string) : ∃ r, s = Str.before m s ++ r.
Proof.
  induction s as [|c s [r IH]]; simpl.
  - exists "". by destruct (Py.startswith "" m).
  - destruct (Py.startswith (String c s) m).
    + by exists (String c s).
    + exists r. simpl. by rewrite <- IH.
Qed.

Lemma before_startswith (m s : string) :
  m ≠ "" → Py.startswith (Str.before m s) m = false.
Proof.
  intros Hm. destruct (Py.startswith (Str.before m s) m) eqn:E; [|done].
  apply PyFacts.startswith_spec in E as [r E].
  destruct (before_prefix m s) as [r' Hs].
  assert (Py.startswith s m = true) as Hsm.
  { apply PyFacts.startswith_spec. exists (r ++ r').
    by rewrite Hs at 1; rewrite E, PyFacts.str_app_assoc. }
  destruct s as [|c s]; simpl in E; rewrite Hsm in E; by destruct m.
Qed.

(** The marker does not occur in the text before it. *)
Lemma before_not_occurs (m s : string) :
  m ≠ "" → ¬ occurs m (Str.before m s).
Proof.
  intros Hm. apply contains_false. induction s as [|c s IH].
  - simpl. destruct (Py.startswith "" m); by apply contains_nil.
  - pose proof (before_startswith m (String c s) Hm) as Hst. simpl in *.
    destruct (Py.startswith (String c s) m); [by apply contains_nil|].
    by rewrite contains_cons, Hst, IH.
Qed.

(** Without the marker the text is left as it is. *)
Lemma before_id (m s : string) : ¬ occurs m s → Str.before m s = s.
Proof.
  intros H%contains_false. induction s as [|c s IH]; simpl.
  - by destruct (Py.startswith "" m).
  - rewrite contains_cons in H. apply orb_false_iff in H as [-> H].
    by rewrite IH.
Qed.

Lemma occurs_app_l (x s r : string) : occurs x s → occurs x (s ++ r).
Proof.
  intros (a & b & ->). exists a, (b ++ r). by rewrite !PyFacts.str_app_assoc.
Qed.

Lemma occurs_app_r (x s r : string) : occurs x s → occurs x (r ++ s).
Proof.
  intros (a & b & ->). exists (r ++ a), b. by rewrite !PyFacts.str_app_assoc.
Qed.

Lemma occurs_before (x m s : string) : occurs x (Str.before m s) → occurs x s.
Proof.
  intros H. destruct (before_prefix m s) as [r Hs]. rewrite Hs.
  by apply occurs_app_l.
Qed.

Lemma lstrip_suffix (ws : ascii -> bool) (s : string) :
  ∃ a, s = a ++ Py.lstrip ws s.
Proof.
  induction s as [|c s [a IH]]; simpl.
  - by exists "".
  - destruct (ws c); [|by exists ""]. exists (String c a). simpl. by rewrite <- IH.
Qed.

Lemma rstrip_prefix (ws : ascii -> bool) (s : string) :
  ∃ b, s = Py.rstrip ws s ++ b.
Proof.
  induction s as [|c s [b IH]]; simpl.
  - by exists "".
  - destruct (Py.rstrip ws s) as [|c' s'] eqn:E.
    + destruct (ws c).
      * by exists (String c s).
      * exists b. simpl. by rewrite IH.
    + exists b. simpl in *. by rewrite <- IH.
Qed.

Lemma occurs_strip (ws : ascii -> bool) (x s : string) :
  occurs x (Py.strip ws s) → occurs x s.
Proof.
  unfold Py.strip. intros H.
  destruct (rstrip_prefix ws (Py.lstrip ws s)) as [b Hb].
  destruct (lstrip_suffix ws s) as [a Ha].
  rewrite Ha, Hb. by apply occurs_app_r, occurs_app_l.
Qed.

End StrFacts.

Module StripFacts.

Lemma rstrip_idem (ws : ascii -> bool) (s : string) :
  Py.rstrip ws (Py.rstrip ws s) = Py.rstrip ws s.
Proof.
  induction s as [|c s IH]; simpl; [done|].
  destruct (Py.rstrip ws s) as [|c' s'] eqn:E.
  - destruct (ws c) eqn:Ec; simpl; [done|]. by rewrite Ec.
  - simpl in *. by rewrite IH.
Qed.

Lemma lstrip_starts (ws : ascii -> bool) (s : string) :
  starts_in ws (Py.lstrip ws s) = false.
Proof.
  induction s as [|c s IH]; simpl; [done|].
  destruct (ws c) eqn:Ec; [done|]. simpl. by rewrite Ec.
Qed.

Lemma rstrip_starts (ws : ascii -> bool) (s : string) :
  starts_in ws s = false → starts_in ws (Py.rstrip ws s) = false.
Proof.
  destruct s as [|c s]; simpl; [done|]. intros Hc.
  destruct (Py.rstrip ws s); [by rewrite Hc | done].
Qed.

Lemma lstrip_id (ws : ascii -> bool) (s : string) :
  starts_in ws s = false → Py.lstrip ws s = s.
Proof. destruct s as [|c s]; simpl; [done|]. by intros ->. Qed.

Lemma strip_starts (ws : ascii -> bool) (s : string) :
  starts_in ws (Py.strip ws s) = false.
Proof. apply rstrip_starts, lstrip_starts. Qed.

Lemma strip_idem (ws : ascii -> bool) (s : string) :
  Py.strip ws (Py.strip ws s) = Py.strip ws s.
Proof.
  unfold Py.strip at 1. rewrite lstrip_id by apply strip_starts.
  apply rstrip_idem.
Qed.

End StripFacts.

(** ** The journal citation of an action *)

Lemma journal_stripped_clean (action : string) :
  ¬ occurs "(House Journal" (journal_stripped action)
  ∧ ¬ occurs "(Senate Journal" (journal_stripped action).
Proof.
  unfold journal_stripped. split.
  - intros H%StrFacts.occurs_strip%StrFacts.occurs_before.
    by apply StrFacts.before_not_occurs in H.
  - intros H%StrFacts.occurs_strip.
    by apply StrFacts.before_not_occurs in H.
Qed.

(** X1.  The description of an action has no journal citation left:
    neither "(House Journal" nor "(Senate Journal" occurs in it.  A text
    with neither marker is only trimmed, and stripping twice is stripping
    once. *)
Theorem journal_stripped_no_citation (action : string) :
  ¬ occurs "(House Journal" (journal_stripped action)
  ∧ ¬ occurs "(Senate Journal" (journal_stripped action)
  ∧ (¬ occurs "(House Journal" action → ¬ occurs "(Senate Journal" action →
     journal_stripped action = Py.strip Py.is_space action)
  ∧ journal_stripped (journal_stripped action) = journal_stripped action.
Proof.
  destruct (journal_stripped_clean action) as [HH HS].
  assert (∀ a, ¬ occurs "(House Journal" a → ¬ occurs "(Senate Journal" a →
               journal_stripped a = Py.strip Py.is_space a) as Hid.
  { intros a Hh Hs. unfold journal_stripped.
    by rewrite (StrFacts.before_id _ a Hh), (StrFacts.before_id _ a Hs). }
  split_and!; [done | done | apply Hid |].
  rewrite (Hid _ HH HS). unfold journal_stripped.
  apply StripFacts.strip_idem.
Qed.

Lemma journal_stripped_no_citation_witness :
  journal_stripped "  Referred to Committee on Judiciary "
  = "Referred to Committee on Judiciary".
Proof.
  destruct (journal_stripped_no_citation "  Referred to Committee on Judiciary ")
    as (_ & _ & Hid & _).
  rewrite Hid; [reflexivity | |]; by apply StrFacts.contains_false.
Defined.

(** ** The rows of the action table *)

Section ActionFacts.

Context {datetime : Type} (strptime : string -> string -> option datetime)
  (strftime : datetime -> string -> string).

(** X2.  A row of the action table gives an action exactly when it has
    three cells, its date cell has a text that can be read as a date, and
    its chamber cell reads "Senate", "House" or nothing.  Any other number
    of cells raises [ValueError].  With three cells, a date cell without
    text raises [TypeError] and a date that cannot be read raises
    [ValueError], both before the chamber is looked at; with a date that
    can be read, any other chamber text, for instance "Joint" or "senate",
    raises [KeyError].  The action of a good row is described by the text
    of the third cell without its journal citation, it is classified by
    that description, and its chamber is upper, lower or legislature. *)
Theorem action_row_outcomes (tds : list action_td) :
  (length tds ≠ 3%nat →
   action_row strptime strftime tds
   = inl (Builtin (ValueError "wrong number of values to unpack")))
  ∧ (∀ date_td chamber_td action_td d date,
       tds = [date_td; chamber_td; action_td] →
       atd_text date_td = Some d → strptime d "%m/%d/%y" = Some date →
       (∀ l, atd_text chamber_td = Some l → l ≠ "Senate" → l ≠ "House" →
          action_row strptime strftime tds = inl (KeyError l))
       ∧ (atd_text chamber_td ∈ [None; Some "Senate"; Some "House"] →
          ∃ a, action_row strptime strftime tds = inr a
            ∧ act_description a = journal_stripped (atd_text_content action_td)
            ∧ act_classification a = action_type (act_description a)
            ∧ act_date a = strftime date "%Y-%m-%d"
            ∧ act_chamber a
              = match atd_text chamber_td with
                | None => "legislature"
                | Some l => if String.eqb l "Senate" then "upper" else "lower"
                end
            ∧ ¬ occurs "(House Journal" (act_description a)
            ∧ ¬ occurs "(Senate Journal" (act_description a)))
  ∧ (∀ date_td chamber_td action_td,
       tds = [date_td; chamber_td; action_td] →
       (atd_text date_td = None →
        action_row strptime strftime tds
        = inl (Builtin (TypeError "strptime() argument 1 must be str, not None")))
       ∧ (∀ d, atd_text date_td = Some d → strptime d "%m/%d/%y" = None →
            action_row strptime strftime tds
            = inl (Builtin (ValueError "time data does not match format"))))
  ∧ ((∃ a, action_row strptime strftime tds = inr a)
     ↔ ∃ date_td chamber_td action_td d date,
         tds = [date_td; chamber_td; action_td]
         ∧ atd_text date_td = Some d ∧ strptime d "%m/%d/%y" = Some date
         ∧ atd_text chamber_td ∈ [None; Some "Senate"; Some "House"]).
Proof.
  split_and!.
  - intros H. unfold action_row.
    do 4 (destruct tds as [|? tds]; try done).
  - intros date_td chamber_td action_td d date -> Hd Hdate. simpl.
    rewrite Hd, Hdate. split.
    + intros l -> H1 H2. simpl.
      apply String.eqb_neq in H1, H2. by rewrite H1, H2.
    + intros Hl.
      repeat (apply elem_of_cons in Hl as [-> | Hl];
              [eexists; split; [reflexivity|]; simpl; split_and!; try done;
               apply journal_stripped_clean |]).
      by apply elem_of_nil in Hl.
  - intros date_td chamber_td action_td ->. simpl. split.
    + by intros ->.
    + intros d -> Hd. by rewrite Hd.
  - split.
    + intros [a Ha]. unfold action_row in Ha.
      destruct tds as [|date_td [|chamber_td [|action_td [|? ?]]]]; try done.
      destruct (atd_text date_td) as [d|] eqn:Hd; [|done].
      destruct (strptime d "%m/%d/%y") as [date|] eqn:Hdate; [|done].
      exists date_td, chamber_td, action_td, d, date.
      split_and!; try done.
      unfold action_chamber in Ha.
      destruct (atd_text chamber_td) as [l|]; [|set_solver].
      destruct (String.eqb l "Senate") eqn:E1;
        [apply String.eqb_eq in E1 as ->; set_solver|].
      destruct (String.eqb l "House") eqn:E2;
        [apply String.eqb_eq in E2 as ->; set_solver|done].
    + intros (date_td & chamber_td & action_td & d & date & -> & Hd & Hdate & Hl).
      simpl. rewrite Hd, Hdate.
      repeat (apply elem_of_cons in Hl as [-> | Hl]; [by eexists|]).
      by apply elem_of_nil in Hl.
Qed.

End ActionFacts.

Lemma action_row_outcomes_witness :
  action_row Sample2.strptime Sample2.strftime Sample2.intro_row
  = inr {| act_description := "Introduced and read first time";
           act_date := "2020-01-15"; act_chamber := "upper";
           act_classification := Some (Tags ["introduction"; "reading-1"]) |}
  ∧ action_row Sample2.strptime Sample2.strftime Sample2.joint_row
    = inl (KeyError "Joint")
  ∧ action_row Sample2.strptime Sample2.strftime [Sample2.td "01/15/20"]
    = inl (Builtin (ValueError "wrong number of values to unpack"))
  ∧ action_row Sample2.strptime Sample2.strftime Sample2.undated_row
    = inl (Builtin (ValueError "time data does not match format"))
  ∧ ∃ a, action_row Sample2.strptime Sample2.strftime Sample2.intro_row = inr a.
Proof.
  destruct (action_row_outcomes Sample2.strptime Sample2.strftime
              Sample2.intro_row) as (_ & Hgood & _ & Hiff).
  destruct (action_row_outcomes Sample2.strptime Sample2.strftime
              Sample2.joint_row) as (_ & Hjoint & _).
  destruct (action_row_outcomes Sample2.strptime Sample2.strftime
              [Sample2.td "01/15/20"]) as (Hshort & _).
  destruct (action_row_outcomes Sample2.strptime Sample2.strftime
              Sample2.undated_row) as (_ & _ & Hdate & _).
  split_and!.
  - destruct (Hgood _ _ _ "01/15/20" "01/15/20" eq_refl eq_refl eq_refl)
      as [_ Hok].
    destruct Hok as (a & Ha & _); [right; left|]. rewrite Ha. by vm_compute in Ha.
  - destruct (Hjoint _ _ _ "01/15/20" "01/15/20" eq_refl eq_refl eq_refl)
      as [Hkey _].
    by apply Hkey.
  - apply Hshort. simpl. lia.
  - destruct (Hdate _ _ _ eq_refl) as [_ Hbad].
    by apply (Hbad "Jan 15").
  - apply Hiff.
    exists (Sample2.td "01/15/20"), (Sample2.td "Senate"),
      (Sample2.td "Introduced and read first time (Senate Journal p.12)"),
      "01/15/20", "01/15/20".
    split_and!; [reflexivity | reflexivity | reflexivity | right; left].
Defined.

(** ** Title and abstract *)

Lemma last_two_app {A} (front : list A) (x y : A) :
  Str.last_two (front ++ [x; y])%list = [x; y].
Proof.
  unfold Str.last_two. rewrite length_app. simpl.
  replace (length front + 2 - 2)%nat with (length front) by lia.
  by rewrite drop_app_length.
Qed.

Lemma last_two_split {A} (l : list A) :
  (2 <= length l)%nat → ∃ front x y, l = (front ++ [x; y])%list.
Proof.
  intros H. destruct (rev l) as [|y [|x r]] eqn:E.
  - apply (f_equal length) in E. rewrite length_rev in E. simpl in E. lia.
  - apply (f_equal length) in E. rewrite length_rev in E. simpl in E. lia.
  - exists (rev r), x, y. rewrite <- (rev_involutive l), E. simpl.
    by rewrite <- app_assoc.
Qed.

(** X3.  Of the text fragments of the header block, trimmed, the last two
    that are not empty are the title and the abstract, in this order; a
    block with fewer than two such fragments raises [ValueError]. *)
Theorem summary_abstract_last_two (texts : list string) :
  (∀ front summary abstract,
     filter (fun x => x ≠ "") (map (Py.strip Py.is_space) texts)
     = (front ++ [summary; abstract])%list →
     summary_abstract texts = Return (summary, abstract)
     ∧ summary ≠ "" ∧ abstract ≠ ""
     ∧ Py.strip Py.is_space summary = summary
     ∧ Py.strip Py.is_space abstract = abstract)
  ∧ ((length (filter (fun x => x ≠ "") (map (Py.strip Py.is_space) texts)) < 2)%nat →
     summary_abstract texts
     = Raise (ValueError "not enough values to unpack (expected 2)"))
  ∧ ((2 <= length (filter (fun x => x ≠ "") (map (Py.strip Py.is_space) texts)))%nat →
     ∃ summary abstract, summary_abstract texts = Return (summary, abstract)).
Proof.
  unfold summary_abstract.
  set (ne := filter (fun x => x ≠ "") (map (Py.strip Py.is_space) texts)).
  assert (∀ x, x ∈ ne → x ≠ "" ∧ Py.strip Py.is_space x = x) as Hne.
  { intros x [Hx Hin]%list_elem_of_filter. split; [done|].
    apply list_elem_of_In, in_map_iff in Hin as (y & <- & _).
    apply StripFacts.strip_idem. }
  split_and!.
  - intros front s a E. rewrite E, last_two_app.
    destruct (Hne s) as [? ?]; [rewrite E; set_solver|].
    destruct (Hne a) as [? ?]; [rewrite E; set_solver|]. done.
  - intros H. destruct ne as [|x [|y ne']]; simpl in *; [done | done | lia].
  - intros (front & s & a & E)%last_two_split. exists s, a.
    by rewrite E, last_two_app.
Qed.

Lemma summary_abstract_last_two_witness :
  summary_abstract [ " "; "S 12 "; ""; " Roads"; "A bill to mend roads. "; "" ]
  = Return ("Roads", "A bill to mend roads.")
  ∧ summary_abstract [ " "; "Roads"; "" ]
    = Raise (ValueError "not enough values to unpack (expected 2)").
Proof.
  destruct (summary_abstract_last_two
              [ " "; "S 12 "; ""; " Roads"; "A bill to mend roads. "; "" ])
    as (Hgood & _).
  destruct (summary_abstract_last_two [ " "; "Roads"; "" ]) as (_ & Hbad & _).
  split.
  - apply (Hgood ["S 12"]). by vm_compute.
  - apply Hbad. vm_compute. lia.
Defined.

(** ** Links of an archived index page *)

Lemma after_prefix_app (p r : string) : Str.after_prefix p (p ++ r) = Some r.
Proof. induction p as [|a p IH]; simpl; [done|]. by rewrite Ascii.eqb_refl. Qed.

Lemma after_prefix_startswith (p s : string) :
  Py.startswith s p = false → Str.after_prefix p s = None.
Proof.
  revert s. induction p as [|a p IH]; intros s; simpl; [done|].
  destruct s as [|b s]; [done|]. destruct (Ascii.eqb b a); simpl; [apply IH | done].
Qed.

Lemma span_digits (id t : string) :
  all_digits id = true →
  Str.span Str.is_digit (id ++ String "/" t) = (id, String "/" t).
Proof.
  unfold all_digits. induction id as [|c id IH]; simpl; [done|].
  intros [-> H]%andb_true_iff. by rewrite IH.
Qed.

Lemma before_one_line (s : string) :
  one_line s = true → Str.before (String "010" "") s = s.
Proof.
  unfold one_line. induction s as [|c s IH]; simpl; [done|].
  intros [Hc H]%andb_true_iff. apply negb_true_iff in Hc. rewrite Hc. simpl.
  by rewrite IH.
Qed.

Lemma web_archive_match_archived (id target : string) :
  id ≠ "" → all_digits id = true → target ≠ "" → one_line target = true →
  web_archive_match (archived id target) = Some target.
Proof.
  intros Hid Hd Ht Hl. unfold web_archive_match, archived.
  rewrite after_prefix_app.
  change ("/" ++ target) with (String "/" target).
  rewrite span_digits by done.
  rewrite before_one_line by done. destruct id; [done|]. by destruct target.
Qed.

Lemma web_archive_ids_digits (key id : string) :
  web_archive_ids !! key = Some id → id ≠ "" ∧ all_digits id = true.
Proof.
  intros H. apply elem_of_list_to_map_2 in H.
  repeat (apply elem_of_cons in H as [[= -> ->] | H]; [by split |]).
  by apply elem_of_nil in H.
Qed.

(** X4.  The pattern that unwraps links of an archived index page undoes
    the wrapping of [get_index_url]: an archive URL made of a snapshot id
    of digits and a target on one line is resolved to the target, and
    whatever [get_index_url] returns, archived or not, resolves to the
    direct index URL.  A URL that does not start with the archive prefix
    is fetched as it is. *)
Theorem day_url_of_unwraps (session chamber letter : string) :
  (∀ id target, id ≠ "" → all_digits id = true → target ≠ "" →
     one_line target = true →
     web_archive_match (archived id target) = Some target
     ∧ day_url_of (archived id target) = target)
  ∧ (∀ url, Py.startswith url archive_prefix = false →
       web_archive_match url = None ∧ day_url_of url = url)
  ∧ (one_line letter = true →
     day_url_of (get_index_url session chamber letter) = direct_index_url letter).
Proof.
  assert (∀ url, Py.startswith url archive_prefix = false →
                 web_archive_match url = None ∧ day_url_of url = url) as Hplain.
  { intros url H. unfold day_url_of, web_archive_match.
    by rewrite (after_prefix_startswith _ _ H). }
  split_and!.
  - intros id target ? ? ? ?. unfold day_url_of.
    by rewrite web_archive_match_archived.
  - done.
  - intros Hl. rewrite get_index_url_cases.
    destruct (web_archive_ids !! _) as [id|] eqn:E.
    + apply web_archive_ids_digits in E as [? ?]. unfold day_url_of.
      rewrite web_archive_match_archived; try done.
      unfold direct_index_url, one_line in *.
      by rewrite !SplitFacts.all_in_app, Hl.
    + by apply Hplain.
Qed.

Lemma day_url_of_unwraps_witness :
  day_url_of
    "https://web.archive.org/web/20201101152857/https://www.scstatehouse.gov/sessphp/sintros.php?d=0114"
  = "https://www.scstatehouse.gov/sessphp/sintros.php?d=0114"
  ∧ day_url_of (get_index_url "2019-2020" "upper" "s")
    = "https://www.scstatehouse.gov/sessphp/sintros.php"
  ∧ day_url_of "https://www.scstatehouse.gov/sessphp/sintros.php?d=0114"
    = "https://www.scstatehouse.gov/sessphp/sintros.php?d=0114".
Proof.
  destruct (day_url_of_unwraps "2019-2020" "upper" "s") as (Hwrap & Hplain & Hidx).
  split_and!.
  - apply (Hwrap "20201101152857"
             "https://www.scstatehouse.gov/sessphp/sintros.php?d=0114");
      done.
  - by apply Hidx.
  - by apply Hplain.
Defined.

(** ** Bills of a day page *)

Lemma replace_char_removes (c : ascii) (s : string) :
  ¬ occurs (String c "") (Py.replace_char c "" s).
Proof.
  apply StrFacts.contains_false. induction s as [|x s IH]; simpl; [done|].
  destruct (Ascii.eqb x c) eqn:E; [done|].
  rewrite StrFacts.contains_cons, IH. simpl. by rewrite E.
Qed.

Lemma day_bill_some (letter : string) (bill_a : anchor) (bill_id : string)
    (href : option string) :
  day_bill letter bill_a = Return (Some (bill_id, href)) →
  ∃ t, a_text bill_a = Some t ∧ bill_id = Py.replace_char "." "" t
    ∧ Py.startswith (Py.lower bill_id) letter = true ∧ href = a_href bill_a.
Proof.
  unfold day_bill. destruct (a_text bill_a) as [t|]; [|done].
  destruct (Py.startswith _ letter) eqn:Es; [|done].
  intros [= <- <-]. by exists t.
Qed.

(** X5.  Every bill a day page hands to [scrape_details] comes from a link
    of the page: its id is the text of the link without periods, it
    starts with the letter of the chamber when case is ignored, and its
    URL is the target of the link.  Bills of the other chamber are passed
    over. *)
Theorem day_bills_of_chamber (letter : string) (links : list anchor)
    (bill_id : string) (href : option string) :
  (bill_id, href) ∈ fst (day_bills letter links) →
  ¬ occurs "." bill_id
  ∧ Py.startswith (Py.lower bill_id) letter = true
  ∧ ∃ bill_a t, bill_a ∈ links ∧ a_text bill_a = Some t
      ∧ bill_id = Py.replace_char "." "" t ∧ href = a_href bill_a.
Proof.
  induction links as [|bill_a links IH]; simpl.
  - by intros ?%elem_of_nil.
  - assert ((bill_id, href) ∈ fst (day_bills letter links) →
            ¬ occurs "." bill_id
            ∧ Py.startswith (Py.lower bill_id) letter = true
            ∧ ∃ a t, a ∈ bill_a :: links ∧ a_text a = Some t
                ∧ bill_id = Py.replace_char "." "" t ∧ href = a_href a) as IH'.
    { intros Hin. destruct (IH Hin) as (? & ? & a & t' & ? & ?).
      split_and!; [done..|]. exists a, t'. split; [by right | done]. }
    destruct (day_bill letter bill_a) as [[[id h]|]|e] eqn:Ed.
    + destruct (day_bills letter links) as [bs e]. simpl in *.
      intros [[= -> ->] | Hin]%elem_of_cons; [|by apply IH'].
      apply day_bill_some in Ed as (t & Ht & -> & Hs & ->).
      split_and!; [apply replace_char_removes | done |].
      exists bill_a, t. split_and!; [left | done..].
    + done.
    + by intros ?%elem_of_nil.
Qed.

Lemma day_bills_of_chamber_witness :
  day_bills (chamber_letter "upper")
    [ {| a_text := Some "S. 12"; a_href := Some "https://www.scstatehouse.gov/billsearch.php?billnumbers=12" |};
      {| a_text := Some "H. 3001"; a_href := None |} ]
  = ([("S 12", Some "https://www.scstatehouse.gov/billsearch.php?billnumbers=12")],
     None)
  ∧ ¬ occurs "." "S 12".
Proof.
  split; [reflexivity|].
  apply (day_bills_of_chamber (chamber_letter "upper")
           [ {| a_text := Some "S. 12"; a_href := Some "https://www.scstatehouse.gov/billsearch.php?billnumbers=12" |};
             {| a_text := Some "H. 3001"; a_href := None |} ]
           "S 12"
           (Some "https://www.scstatehouse.gov/billsearch.php?billnumbers=12")).
  vm_compute. left.
Defined.

(** * More on the action classifier *)

Lemma lower_ascii_idem (c : ascii) :
  Py.lower_ascii (Py.lower_ascii c) = Py.lower_ascii c.
Proof. by destruct c as [[] [] [] [] [] [] [] []]. Qed.

Lemma lower_idem (s : string) : Py.lower (Py.lower s) = Py.lower s.
Proof.
  induction s as [|c s IH]; simpl; [done|]. by rewrite lower_ascii_idem, IH.
Qed.

Lemma action_type_loop_lower (a b : string) (cs : list (string * atype)) :
  Py.lower a = Py.lower b → action_type_loop a cs = action_type_loop b cs.
Proof.
  intros H. induction cs as [|[p t] cs IH]; simpl; [done|]. by rewrite H, IH.
Qed.

(** X6.  The classifier ignores case: two actions that are equal once
    lowered get the same classification, and so do an action and its
    lowered text. *)
Theorem action_type_ignores_case (a b : string) :
  (Py.lower a = Py.lower b → action_type a = action_type b)
  ∧ action_type (Py.lower a) = action_type a.
Proof.
  split.
  - apply action_type_loop_lower.
  - apply action_type_loop_lower, lower_idem.
Qed.

Lemma action_type_ignores_case_witness :
  action_type "READ THIRD TIME and enrolled" = action_type "Read third time and enrolled".
Proof.
  by apply (action_type_ignores_case "READ THIRD TIME and enrolled"
              "Read third time and enrolled").
Defined.

(** X7.  No rule of the table is hidden by an earlier one with other
    tags: an action that is, case apart, the prefix of a rule gets the
    tags of that rule. *)
Theorem classifiers_own_prefix (prefix action : string) (t : atype) :
  (prefix, t) ∈ classifiers → Py.lower action = Py.lower prefix →
  action_type action = Some t.
Proof.
  intros Hin Hl. unfold action_type.
  rewrite (action_type_loop_lower action prefix _ Hl).
  fold (action_type prefix).
  unfold classifiers in Hin.
  repeat (apply elem_of_cons in Hin as [[= -> ->] | Hin]; [by vm_compute |]).
  by apply elem_of_nil in Hin.
Qed.

Lemma classifiers_own_prefix_witness :
  action_type "committee amendment amended and adopted"
  = Some (Tags ["amendment-passage"; "amendment-amendment"]).
Proof.
  apply (classifiers_own_prefix "Committee Amendment Amended and Adopted").
  - unfold classifiers. do 6 right. left.
  - reflexivity.
Defined.

(** * More on the HTTP version toggle *)

(** X8.  When the request returns and leaves the version attributes alone,
    the wrapper returns its response and leaves the process with the
    version saved at import, whatever the version was before the call; in
    a process that still has the version of the import, the call changes
    nothing. *)
Theorem toggle_http_version_restores {A} (m : Http.method A) (p : Http.process)
    (response : A) :
  Http.keeps_version m →
  fst (m (Http.downgrade_http_version p)) = Return response →
  fst (Http.toggle_http_version m p) = Return response
  ∧ Http.conn (snd (Http.toggle_http_version m p)) = Http.saved p
  ∧ Http.saved (snd (Http.toggle_http_version m p)) = Http.saved p
  ∧ (Http.conn p = Http.saved p → snd (Http.toggle_http_version m p) = p).
Proof.
  intros Hm Hr. rewrite (toggle_http_version_return m p response Hm Hr). simpl.
  split_and!; try done. destruct p as [c s]. simpl. by intros ->.
Qed.

Lemma toggle_http_version_restores_witness :
  Http.downgraded_http_get Sample.get_ok "https://www.scstatehouse.gov/"
    {| Http.conn := Sample.http10; Http.saved := Sample.http11 |}
  = (Return "<html></html>", Http.import_bills Sample.http11).
Proof.
  pose proof (toggle_http_version_restores
                (Sample.get_ok "https://www.scstatehouse.gov/")
                {| Http.conn := Sample.http10; Http.saved := Sample.http11 |}
                "<html></html>") as H.
  destruct H as (Hr & Hc & Hs & _); [done | done |].
  unfold Http.downgraded_http_get.
  destruct (Http.toggle_http_version _ _) as [r [c s]]. simpl in *.
  by rewrite Hr, Hc, Hs.
Defined.

(** * More on the vote history parser *)

Section VoteFieldFacts.

Context (int : string -> option Z) {datetime : Type}
  (strptime : string -> string -> option datetime)
  (strftime : datetime -> string -> string)
  (pdf_text : option string -> res string)
  (table_rows : string -> res (list (list element))).

Local Abbreviation vote_row' := (vote_row int strptime strftime pdf_text).
Local Abbreviation vote_rows' := (vote_rows int strptime strftime pdf_text).
Local Abbreviation build_row' := (build_row int strptime strftime pdf_text).
Local Abbreviation scrape_vote_history' :=
  (scrape_vote_history int strptime strftime pdf_text table_rows).
Local Abbreviation vote_histories' :=
  (vote_histories int strptime strftime pdf_text table_rows).
Local Abbreviation scrape_votes' :=
  (scrape_votes int strptime strftime pdf_text table_rows).

Lemma build_vote_fields (b : Bill) (vurl : string)
    (timestamp motion vote yeas nays nv exc pres abst total result_td : element)
    (v : VoteEvent) (rollcall_pdf : option string) :
  build_vote int strptime strftime pdf_text b vurl timestamp motion vote yeas
    nays nv exc pres abst total result_td = Return (v, rollcall_pdf) →
  ∃ ts link link_text,
    parse_timestamp strptime timestamp = Return ts
    ∧ head (anchors vote) = Some link ∧ a_text link = Some link_text
    ∧ start_date v = strftime ts "%Y-%m-%d"
    ∧ motion_text v = text motion
    ∧ result v = (if decide (text result_td = Some "Passed") then "pass" else "fail")
    ∧ chamber v = (if Py.contains link_text "[H]" then "lower" else "upper").
Proof.
  unfold build_vote.
  destruct (parse_timestamp strptime timestamp) as [ts|]; cbn [rbind]; [|done].
  repeat match goal with
         | |- context [rbind (int_text int ?td)] =>
             destruct (int_text int td); cbn [rbind]; [|done]
         end.
  destruct (py_assert _); cbn [rbind]; [|done].
  destruct (anchors vote) as [|link links]; [done|].
  destruct (a_text link) as [link_text|] eqn:Elt; [|done].
  destruct (scrape_rollcall _ _ _) as [v1|] eqn:Er; cbn [rbind]; [|done].
  intros [= <- <-].
  apply scrape_rollcall_frame in Er as (Hch & Hsd & Hm & Hr & _).
  simpl in Hch, Hsd, Hm, Hr.
  exists ts, link, link_text. simpl. rewrite Hch, Hsd, Hm, Hr.
  split_and!; try done.
  destruct (text result_td) as [r|]; [|by case_decide].
  destruct (String.eqb r "Passed") eqn:E;
    [apply String.eqb_eq in E | apply String.eqb_neq in E];
    case_decide; congruence.
Qed.

(** X9.  A vote yielded from a row takes its date from the first cell, its
    motion from the second cell, and belongs to the bill of the page.  It
    passes exactly when the last cell reads "Passed", letter for letter,
    and fails otherwise; its chamber is lower exactly when the text of the
    link to the roll-call document has "[H]" in it, and upper
    otherwise. *)
Theorem yielded_vote_fields (b : Bill) (vurl : string) (tds : list element)
    (self self' : scraper) (v : VoteEvent) :
  vote_row' b vurl tds self = Yield v self' →
  ∃ timestamp motion result_td link link_text ts,
    tds !! 0%nat = Some timestamp ∧ tds !! 1%nat = Some motion
    ∧ tds !! 10%nat = Some result_td
    ∧ vote_link tds = Some link ∧ a_text link = Some link_text
    ∧ parse_timestamp strptime timestamp = Return ts
    ∧ start_date v = strftime ts "%Y-%m-%d"
    ∧ motion_text v = text motion
    ∧ bill v = b
    ∧ (result v = "pass" ↔ text result_td = Some "Passed")
    ∧ (result v = "pass" ∨ result v = "fail")
    ∧ (chamber v = "lower" ↔ occurs "[H]" link_text)
    ∧ (chamber v = "lower" ∨ chamber v = "upper").
Proof.
  rewrite vote_row_build. unfold build_row.
  do 11 (destruct tds as [|? tds]; [done |]). destruct tds; [|done].
  destruct (build_vote _ _ _ _ _ _ _ _ _ _ _ _ _ _ _ _ _) as [[v0 pdf]|] eqn:E;
    [|done].
  destruct (decide _); [done|]. intros [= <- <-].
  pose proof E as (t & link' & _ & _ & _ & _ & _ & _ & _ & Hb & _)%build_vote_return.
  apply build_vote_fields in E
    as (ts & link & link_text & Hts & Hl & Hlt & Hsd & Hm & Hr & Hch).
  exists e, e0, e9, link, link_text, ts. simpl.
  rewrite Hsd, Hm, Hr, Hch. unfold vote_link. simpl. rewrite Hl.
  split_and!; try done.
  - case_decide; split; congruence.
  - case_decide; auto.
  - destruct (Py.contains link_text "[H]") eqn:Ec.
    + apply contains_occurs in Ec. done.
    + apply contains_not_occurs in Ec. split; [done | by intros ?].
  - destruct (Py.contains link_text "[H]"); auto.
Qed.

Lemma vote_row_warnings (b : Bill) (vurl : string) (tds : list element)
    (self : scraper) :
  match vote_row' b vurl tds self with
  | Continue self' => ∃ w, warnings self' = (warnings self ++ [w])%list
  | Yield v self' => warnings self' = warnings self
  | Throw e self' => self' = self
  end.
Proof.
  rewrite vote_row_build.
  destruct (build_row' b vurl tds) as [[[v0 pdf]|e]|]; simpl; eauto.
  destruct (decide _); simpl; eauto.
Qed.

Lemma vote_rows_warnings (b : Bill) (vurl : string) (rows : list (list element))
    (self : scraper) :
  ∃ ws, warnings (final (vote_rows' b vurl rows self))
        = (warnings self ++ ws)%list.
Proof.
  revert self. induction rows as [|tds rows IH]; intros self.
  - exists []. simpl. by rewrite app_nil_r.
  - rewrite vote_rows_cons. pose proof (vote_row_warnings b vurl tds self) as H.
    destruct (vote_row' b vurl tds self) as [s'|v0 s'|e s']; simpl.
    + destruct H as [w Hw]. destruct (IH s') as [ws Hws].
      exists (w :: ws). rewrite Hws, Hw. by rewrite <- app_assoc.
    + destruct (IH s') as [ws Hws]. exists ws. by rewrite Hws, H.
    + subst s'. exists []. by rewrite app_nil_r.
Qed.

Lemma vote_histories_warnings (visits : list (Bill * string)) (self : scraper) :
  ∃ ws, warnings (final (vote_histories' visits self))
        = (warnings self ++ ws)%list.
Proof.
  revert self. induction visits as [|[b vurl] visits IH]; intros self; simpl.
  - exists []. by rewrite app_nil_r.
  - assert (∃ ws, warnings (final (scrape_vote_history' b vurl self))
                  = (warnings self ++ ws)%list) as [ws Hws].
    { unfold scrape_vote_history. destruct (table_rows vurl); simpl.
      - apply vote_rows_warnings.
      - exists []. by rewrite app_nil_r. }
    destruct (raised (scrape_vote_history' b vurl self)); simpl; [eauto|].
    destruct (IH (final (scrape_vote_history' b vurl self))) as [ws' Hws'].
    exists (ws ++ ws')%list. by rewrite Hws', Hws, <- app_assoc.
Qed.

(** X10.  After a run, ended by an exception or not, the documents seen
    are exactly the keys of the votes yielded, and the warnings logged
    before the run are still there, in front of those of the run.  A single
    vote history page adds the keys of its votes to the documents seen
    before and takes none away. *)
Theorem scrape_votes_seen_accounting (visits : list (Bill * string))
    (b : Bill) (vurl : string) (self : scraper) :
  _seen_vote_ids (final (scrape_votes' visits self))
  = list_to_set (map dedupe_key (yielded (scrape_votes' visits self)))
  ∧ (∃ ws, warnings (final (scrape_votes' visits self))
           = (warnings self ++ ws)%list)
  ∧ _seen_vote_ids (final (scrape_vote_history' b vurl self))
    = list_to_set (map dedupe_key (yielded (scrape_vote_history' b vurl self)))
      ∪ _seen_vote_ids self.
Proof.
  split_and!.
  - unfold scrape_votes.
    destruct (vote_histories_keys int strptime strftime pdf_text table_rows
                visits {| _seen_vote_ids := ∅; warnings := warnings self |})
      as (_ & _ & ->).
    simpl. set_solver.
  - unfold scrape_votes.
    apply (vote_histories_warnings visits
             {| _seen_vote_ids := ∅; warnings := warnings self |}).
  - apply scrape_vote_history_keys.
Qed.

End VoteFieldFacts.

Lemma good_row_fields :
  result Sample.good_vote = "pass" ∧ chamber Sample.good_vote = "upper".
Proof. done. Qed.

Lemma yielded_vote_fields_witness :
  ∃ result_td link_text,
    Sample.good_row !! 10%nat = Some result_td
    ∧ (result Sample.good_vote = "pass" ↔ text result_td = Some "Passed")
    ∧ (chamber Sample.good_vote = "lower" ↔ occurs "[H]" link_text)
    ∧ link_text = "[S] 12".
Proof.
  destruct (yielded_vote_fields Sample.int Sample.strptime Sample.strftime
              Sample.pdf_text Sample.roads_bill Sample.vurl Sample.good_row
              Sample.self (seen_add Sample.self Sample.rollcall_1)
              Sample.good_vote good_row_yields)
    as (ts_td & mo & re & link & lt & ts & _ & _ & Hre & Hl & Hlt & _ & _ & _
        & _ & Hpass & _ & Hch & _).
  exists re, lt. split_and!; try done.
  vm_compute in Hl. injection Hl as <-. simpl in Hlt. by injection Hlt as <-.
Defined.

(** * More on the roll-call roster parser *)

Lemma rollcall_line_cases (raw : string) (st : roster) :
  (∃ f opt, rollcall_line raw st = (switch f opt, [])
     ∧ (opt = option_tag st ∨ opt = Some "excused" ∨ opt = Some "paired")
     ∧ is_header (line_of raw) = true)
  ∨ (rollcall_line raw st = (st, []) ∧ is_header (line_of raw) = false)
  ∨ (∃ f, current_vfunc st = Some f ∧ is_header (line_of raw) = false
       ∧ rollcall_line raw st
         = (st, map (tagged_call f (option_tag st)) (name_tokens (line_of raw)))).
Proof.
  unfold rollcall_line, is_header, headers. cbn [existsb].
  set (line := line_of raw).
  destruct (Py.startswith line "YEAS"); [left; eauto 10|].
  destruct (Py.startswith line "AYES"); [left; eauto 10|].
  destruct (Py.startswith line "NAYS"); [left; eauto 10|].
  destruct (Py.startswith line "EXCUSED"); [left; eauto 10|].
  destruct (Py.startswith line "NOT VOTING"); [left; eauto 10|].
  destruct (Py.startswith line "ABSTAIN"); [left; eauto 10|].
  destruct (Py.startswith line "PAIRED"); [left; eauto 10|].
  cbn [orb]. right.
  destruct (negb (Py.truthy (Some line)) || Py.startswith line "Page ");
    [by left|].
  destruct (current_vfunc st) as [f|] eqn:Ef; [|by left].
  right. exists f. by rewrite name_calls_tokens.
Qed.

Lemma rollcall_line_tag_ok (raw : string) (st : roster) :
  tag_ok st → tag_ok (fst (rollcall_line raw st)).
Proof.
  unfold tag_ok. intros H.
  destruct (rollcall_line_cases raw st)
    as [(f & opt & -> & Hopt & _) | [[-> _] | (f & _ & _ & ->)]]; simpl;
    [|done..].
  destruct Hopt as [-> | [-> | ->]]; [done | set_solver..].
Qed.

Lemma apply_call_tagged_inv (f : vfunc) (opt : option string) (name : string)
    (v v' : VoteEvent) :
  opt ∈ [None; Some "excused"; Some "paired"] →
  apply_call v (tagged_call f opt name) = Return v' →
  ∃ o, o ∈ roster_options ∧ v' = Vote.vote v o name.
Proof.
  unfold roster_options. intros Hopt.
  assert (opt = None ∨ opt = Some "excused" ∨ opt = Some "paired")
    as [-> | [-> | ->]] by set_solver.
  all: destruct f; simpl; try done; intros [= <-]; eexists;
    (split; [|reflexivity]); set_solver.
Qed.

Lemma apply_calls_tagged_inv (f : vfunc) (opt : option string)
    (names : list string) (v v' : VoteEvent) :
  opt ∈ [None; Some "excused"; Some "paired"] →
  apply_calls v (map (tagged_call f opt) names) = Return v' →
  ∃ new, votes v' = (votes v ++ new)%list
    ∧ Forall (fun ov => fst ov ∈ roster_options) new
    ∧ map snd new = names.
Proof.
  intros Hopt. revert v. induction names as [|name names IH]; intros v; simpl.
  - intros [= <-]. exists []. by rewrite app_nil_r.
  - destruct (apply_call v _) as [v1|] eqn:E; cbn [rbind]; [|done].
    apply apply_call_tagged_inv in E as (o & Ho & ->); [|done].
    intros (new & Hv & Hnew & Hn)%IH. exists ((o, name) :: new).
    rewrite Hv. simpl. rewrite <- app_assoc. split_and!; [done | | by rewrite Hn].
    by constructor.
Qed.

Lemma rollcall_loop_options (lines : list string) (st : roster) (v v' : VoteEvent) :
  tag_ok st → rollcall_loop lines st v = Return v' →
  ∃ new, votes v' = (votes v ++ new)%list
    ∧ Forall (fun ov => fst ov ∈ roster_options) new.
Proof.
  revert st v. induction lines as [|raw lines IH]; intros st v Hst; simpl.
  - intros [= <-]. exists []. by rewrite app_nil_r.
  - pose proof (rollcall_line_tag_ok raw st Hst) as Hst'.
    destruct (rollcall_line_cases raw st)
      as [(f & opt & E & _) | [[E _] | (f & _ & _ & E)]];
      rewrite E in *; simpl in *.
    + by apply IH.
    + by apply IH.
    + destruct (apply_calls v _) as [v1|] eqn:Ec; cbn [rbind]; [|done].
      apply apply_calls_tagged_inv in Ec as (new1 & Hv1 & Hn1 & _); [|done].
      intros (new2 & Hv2 & Hn2)%IH; [|done].
      exists (new1 ++ new2)%list. rewrite Hv2, Hv1, <- app_assoc.
      split; [done|]. by apply Forall_app.
Qed.

(** X11.  Reading a roll-call document only adds voters to the vote: those
    recorded before stay in front, in order, and every voter added is
    recorded as yes, no, excused or paired; nothing else of the vote
    changes. *)
Theorem parse_rollcall_adds_voters (v v' : VoteEvent) (pdflines : string) :
  parse_rollcall v pdflines = Return v' →
  (∃ new, votes v' = (votes v ++ new)%list
     ∧ Forall (fun ov => fst ov ∈ roster_options) new)
  ∧ same_but_votes v v'.
Proof.
  unfold parse_rollcall. intros H. split.
  - eapply rollcall_loop_options; [|done]. unfold tag_ok. simpl. set_solver.
  - by eapply rollcall_loop_frame.
Qed.

Lemma parse_rollcall_adds_voters_witness :
  ∃ v', parse_rollcall Sample.good_vote Sample.roster_text = Return v'
    ∧ votes v'
      = (votes Sample.good_vote
         ++ [("yes", "Smith"); ("yes", "Jones"); ("yes", "Lee"); ("no", "Doe")])%list
    ∧ counts v' = counts Sample.good_vote.
Proof.
  eexists. split; [reflexivity|].
  destruct (parse_rollcall_adds_voters Sample.good_vote _ Sample.roster_text
              eq_refl) as [_ (_ & _ & _ & _ & _ & _ & Hc & _)].
  split; [reflexivity | exact Hc].
Defined.

(** X12.  A header line records nobody, whatever follows the header on the
    line, and a line read before the first header records nobody either.
    Once a header was read a function stays active: no line sets it back
    to none. *)
Theorem rollcall_line_headers (raw : string) (st : roster) :
  (is_header (line_of raw) = true →
   snd (rollcall_line raw st) = []
   ∧ current_vfunc (fst (rollcall_line raw st)) ≠ None)
  ∧ (current_vfunc st = None → is_header (line_of raw) = false →
     rollcall_line raw st = (st, []))
  ∧ (current_vfunc st ≠ None →
     current_vfunc (fst (rollcall_line raw st)) ≠ None).
Proof.
  destruct (rollcall_line_cases raw st)
    as [(f & opt & -> & _ & Hh) | [[-> Hh] | (f & Hf & Hh & ->)]]; simpl;
    rewrite Hh; split_and!; try done; congruence.
Qed.

Lemma rollcall_line_headers_witness :
  rollcall_line "YEAS   Smith   Jones" roster_init = (switch vote_yes None, [])
  ∧ rollcall_line "Smith   Jones" roster_init = (roster_init, []).
Proof.
  destruct (rollcall_line_headers "YEAS   Smith   Jones" roster_init)
    as (Hhead & _).
  destruct (rollcall_line_headers "Smith   Jones" roster_init)
    as (_ & Hnone & _).
  split.
  - destruct Hhead as [Hcalls Hactive]; [reflexivity|]. reflexivity.
  - by apply Hnone.
Defined.

(** Every piece of a text that does not start in the class starts
    outside of it, or is empty. *)
Lemma re_split_runs3_starts (ws : ascii -> bool) (line : string) :
  starts_in ws line = false →
  Forall (fun t => starts_in ws t = false) (Py.re_split_runs3 ws "" "" line).
Proof.
  destruct line as [|c line]; simpl.
  - intros _. by repeat constructor.
  - intros Hc. rewrite Hc. simpl.
    assert (no_run3 ws (String c "") = true) as H1.
    { unfold no_run3. simpl. by rewrite Hc. }
    assert (trail ws 0 (String c "") = 0%nat) as H2.
    { simpl. by rewrite Hc. }
    destruct (SplitFacts.split_inv ws line (String c "") "" H1 H2 eq_refl)
      as (seps & _ & _ & _ & _ & _ & _ & H).
    by apply H.
Qed.

Lemma strip_nonempty (ws : ascii -> bool) (t : string) :
  starts_in ws t = false → t ≠ "" → Py.strip ws t ≠ "".
Proof.
  intros Hs Ht. unfold Py.strip. rewrite StripFacts.lstrip_id by done.
  destruct t as [|c t]; [done|]. simpl in *.
  destruct (Py.rstrip ws t); [by rewrite Hs | done].
Qed.

(** X13.  On a line that, trimmed of the whitespace of [bytes.strip()],
    does not start with another whitespace character, every name recorded
    is non-empty and has no whitespace around it.  A line made of a
    non-breaking space alone is recorded as a voter with the empty
    name. *)
Theorem rollcall_line_names_nonempty (raw : string) (st : roster) (c : vcall) :
  (starts_in Py.is_space (line_of raw) = false →
   c ∈ snd (rollcall_line raw st) →
   call_name c ≠ "" ∧ Py.strip Py.is_space (call_name c) = call_name c)
  ∧ rollcall_line (String "160" "") (switch vote_yes None)
    = (switch vote_yes None, [Call vote_yes ""]).
Proof.
  split; [|reflexivity]. intros Hs.
  destruct (rollcall_line_cases raw st)
    as [(f & opt & -> & _) | [[-> _] | (f & _ & _ & ->)]]; simpl;
    [by intros ?%elem_of_nil .. |].
  intros (name & <- & Hin)%list_elem_of_In%in_map_iff.
  unfold name_tokens in Hin.
  apply in_map_iff in Hin as (t & <- & Hin).
  apply list_elem_of_In, list_elem_of_filter in Hin as [Hne Hin].
  assert (starts_in Py.is_space t = false) as Ht.
  { pose proof (re_split_runs3_starts Py.is_space (line_of raw) Hs) as Hall.
    rewrite Forall_forall in Hall. by apply Hall. }
  assert (∀ f o n, call_name (tagged_call f o n) = n) as Hname.
  { intros f' [o|] n; simpl; [by destruct (String.eqb o "") | done]. }
  rewrite Hname. split; [by apply strip_nonempty | apply StripFacts.strip_idem].
Qed.

Lemma rollcall_line_names_nonempty_witness :
  call_name (Call vote_yes "Jones") ≠ "".
Proof.
  apply (rollcall_line_names_nonempty " Smith   Jones   Lee "
           (switch vote_yes None) (Call vote_yes "Jones")).
  - reflexivity.
  - vm_compute. right. left.
Defined.

(** * The subject index *)

Lemma digit_not_special (c : ascii) :
  Str.is_digit c = true →
  Ascii.eqb c " " = false ∧ Ascii.eqb c "*" = false.
Proof. by destruct c as [[] [] [] [] [] [] [] []]. Qed.

Lemma sub_space_zeros_digits (ds : string) :
  all_digits ds = true →
  sub_space_zeros false ds = ds
  ∧ sub_space_zeros true ds = Py.lstrip is_zero ds.
Proof.
  unfold all_digits. induction ds as [|c ds IH]; simpl; [done|].
  intros [Hc Hds]%andb_true_iff. destruct (IH Hds) as [IH1 IH2].
  destruct (digit_not_special c Hc) as [-> _]. rewrite IH1. split; [done|].
  unfold is_zero. by destruct (Ascii.eqb c "0").
Qed.

Lemma replace_star_digits (ds : string) :
  all_digits ds = true → Py.replace_char "*" " " ds = ds.
Proof.
  unfold all_digits. induction ds as [|c ds IH]; simpl; [done|].
  intros [Hc Hds]%andb_true_iff.
  destruct (digit_not_special c Hc) as [_ ->]. by rewrite IH.
Qed.

Lemma bill_match_some (text group : string) :
  bill_match text = Some group ↔
  ∃ l ds rest, text = String l (String " " (ds ++ rest))
    ∧ (l = "H"%char ∨ l = "S"%char)
    ∧ String.length ds = 4%nat ∧ all_digits ds = true
    ∧ group = String l (String " " ds).
Proof.
  split.
  - unfold bill_match.
    destruct text as [|l [|sp [|d1 [|d2 [|d3 [|d4 rest]]]]]]; try done.
    destruct (_ && _) eqn:E; [|done]. intros [= <-].
    repeat (apply andb_true_iff in E as [E ?]).
    apply Ascii.eqb_eq in H3 as ->.
    exists l, (String d1 (String d2 (String d3 (String d4 "")))), rest.
    split_and!; try done.
    + apply orb_true_iff in E as [E|E]; apply Ascii.eqb_eq in E; auto.
    + unfold all_digits. simpl. by rewrite H, H0, H1, H2.
  - intros (l & ds & rest & -> & Hl & Hlen & Hd & ->).
    destruct ds as [|d1 [|d2 [|d3 [|d4 [|? ?]]]]]; try done.
    unfold all_digits in Hd. simpl in Hd.
    repeat (apply andb_true_iff in Hd as [? Hd]).
    simpl. rewrite H, H0, H1, H2.
    by destruct Hl as [-> | ->].
Qed.

Lemma star_untouched (l : ascii) (ds : string) :
  (l = "H"%char ∨ l = "S"%char) → all_digits ds = true →
  Py.replace_char "*" " " (String l (String " " ds)) = String l (String " " ds).
Proof.
  intros Hl Hd. simpl. rewrite (replace_star_digits ds Hd).
  by destruct Hl as [-> | ->].
Qed.

Lemma subject_bill_id_some (text bill_id : string) :
  subject_bill_id text = Some bill_id ↔
  ∃ l ds rest, text = String l (String " " (ds ++ rest))
    ∧ (l = "H"%char ∨ l = "S"%char)
    ∧ String.length ds = 4%nat ∧ all_digits ds = true
    ∧ bill_id = String l (String " " (Py.lstrip is_zero ds)).
Proof.
  assert (∀ l ds, (l = "H"%char ∨ l = "S"%char) → all_digits ds = true →
            sub_space_zeros false (String l (String " " ds))
            = String l (String " " (Py.lstrip is_zero ds))) as Hsub.
  { intros l ds Hl Hd. simpl.
    rewrite (proj2 (sub_space_zeros_digits ds Hd)).
    by destruct Hl as [-> | ->]. }
  unfold subject_bill_id. split.
  - destruct (bill_match text) as [g|] eqn:E; [|done]. intros [= <-].
    apply bill_match_some in E as (l & ds & rest & -> & Hl & Hlen & Hd & ->).
    exists l, ds, rest. by rewrite star_untouched, Hsub.
  - intros (l & ds & rest & -> & Hl & Hlen & Hd & ->).
    assert (bill_match (String l (String " " (ds ++ rest)))
            = Some (String l (String " " ds))) as ->.
    { apply bill_match_some. by exists l, ds, rest. }
    by rewrite star_untouched, Hsub.
Qed.

(** X14.  A bold span names a bill exactly when its text starts with H or
    S, a space and four digits; whatever follows is ignored.  The id put
    in the index is the letter, the space and the digits without leading
    zeros, so four zeros leave no number at all.  The replacement of "*"
    changes nothing: the text matched has no "*" in it. *)
Theorem subject_bill_id_normal_form (text bill_id : string) :
  (subject_bill_id text = Some bill_id ↔
   ∃ l ds rest, text = String l (String " " (ds ++ rest))
     ∧ (l = "H"%char ∨ l = "S"%char)
     ∧ String.length ds = 4%nat ∧ all_digits ds = true
     ∧ bill_id = String l (String " " (Py.lstrip is_zero ds)))
  ∧ (∀ group, bill_match text = Some group →
       Py.replace_char "*" " " group = group)
  ∧ subject_bill_id "H 0000" = Some "H ".
Proof.
  split_and!; [apply subject_bill_id_some | | reflexivity].
  intros g (l & ds & rest & _ & Hl & _ & Hd & ->)%bill_match_some.
  by apply star_untouched.
Qed.

Lemma subject_bill_id_normal_form_witness :
  subject_bill_id "S 0012*: Roads" = Some "S 12".
Proof.
  apply (subject_bill_id_normal_form "S 0012*: Roads" "S 12").
  exists "S"%char, "0012", "*: Roads". by split_and!; [| right | | |].
Defined.

Section SubjectFacts.

Context (post_options : string -> exc + list (option string * option string))
  (urlopen_spans : string -> exc + list (option string)).

Local Abbreviation scrape_subjects' :=
  (scrape_subjects post_options urlopen_spans).
Local Abbreviation subject_options' := (subject_options urlopen_spans).

(** X15.  The subject index is built once: on an index that is not empty
    [scrape_subjects] returns at once, without a request, even for a
    session it has no code for.  On an empty index a session other than
    the four of the table raises [KeyError] and leaves the index empty.
    Looking up the subjects of a bill the index does not know puts the
    bill in the index, so that after one such lookup on an empty index
    [scrape_subjects] does nothing any more. *)
Theorem scrape_subjects_once (session : string) (subjects : subject_index)
    (bill_id : string) :
  (subjects ≠ ∅ → scrape_subjects' session subjects = (subjects, None))
  ∧ (session_code !! session = None →
     scrape_subjects' session ∅ = (∅, Some (KeyError session)))
  ∧ (session_code !! session = None ↔
     session ∉ ["2013-2014"; "2015-2016"; "2017-2018"; "2019-2020"])
  ∧ snd (lookup_subjects bill_id subjects) ≠ ∅
  ∧ fst (lookup_subjects bill_id ∅) = ∅
  ∧ scrape_subjects' session (snd (lookup_subjects bill_id ∅))
    = (snd (lookup_subjects bill_id ∅), None).
Proof.
  assert (∀ s, s ≠ ∅ → scrape_subjects' session s = (s, None)) as Hguard.
  { intros s Hs. unfold scrape_subjects. by destruct (decide (s = ∅)). }
  assert (∀ s, snd (lookup_subjects bill_id s) ≠ ∅) as Hlook.
  { intros s. unfold lookup_subjects.
    destruct (s !! bill_id) as [ss|] eqn:E; simpl.
    - intros ->. by rewrite lookup_empty in E.
    - apply insert_non_empty. }
  split_and!.
  - apply Hguard.
  - intros H. unfold scrape_subjects. by rewrite decide_True, H.
  - rewrite <- not_elem_of_dom. unfold session_code.
    rewrite dom_list_to_map_L. simpl. set_solver.
  - apply Hlook.
  - done.
  - apply Hguard, Hlook.
Qed.

Lemma add_subject_ok (allowed : list (option string)) (text bill_id : string)
    (subject : option string) (subjects : subject_index) :
  index_ok allowed subjects → subject ∈ allowed →
  subject_bill_id text = Some bill_id →
  index_ok allowed (add_subject bill_id subject subjects).
Proof.
  intros Hok Hs Hid id ss. unfold add_subject.
  destruct (decide (bill_id = id)) as [<-|Hne].
  - rewrite lookup_insert_eq. intros [= <-]. split_and!.
    + apply subject_bill_id_some in Hid
        as (l & ds & rest & _ & Hl & Hlen & Hd & ->).
      by exists l, ds.
    + set_solver.
    + intros s [->%elem_of_singleton | Hin]%elem_of_union; [done|].
      destruct (subjects !! bill_id) as [old|] eqn:E; simpl in Hin;
        [|set_solver].
      by apply (Hok bill_id old E).
  - rewrite lookup_insert_ne by done. apply Hok.
Qed.

Lemma add_bills_ok (allowed : list (option string)) (subject : option string)
    (spans : list (option string)) (subjects : subject_index) :
  index_ok allowed subjects → subject ∈ allowed →
  index_ok allowed (fst (add_bills subject spans subjects)).
Proof.
  intros Hok Hs. revert subjects Hok.
  induction spans as [|[text|] spans IH]; intros subjects Hok; simpl;
    [done | | done].
  destruct (subject_bill_id text) as [bill_id|] eqn:E; [|by apply IH].
  apply IH. by eapply add_subject_ok.
Qed.

Lemma subject_options_ok (allowed : list (option string)) (code : string)
    (options : list (option string * option string)) (subjects : subject_index) :
  index_ok allowed subjects → (∀ o, o ∈ options → fst o ∈ allowed) →
  index_ok allowed (fst (subject_options' code options subjects)).
Proof.
  revert subjects. induction options as [|[subject value] options IH];
    intros subjects Hok Hall; simpl; [done|].
  destruct (urlopen_spans _) as [e|spans]; [done|].
  pose proof (add_bills_ok allowed subject spans subjects Hok) as Hok'.
  destruct (add_bills subject spans subjects) as [subjects' [e|]]; simpl in *.
  - apply Hok'. apply (Hall (subject, value)). left.
  - apply IH.
    + apply Hok'. apply (Hall (subject, value)). left.
    + intros o Ho. apply Hall. by right.
Qed.

(** X16.  Whether it ends with an exception or not, a [scrape_subjects]
    on an empty index leaves an index whose keys are bill ids in their
    short form, each with one subject at least, and whose subjects are
    texts of options of the search form after the first two. *)
Theorem scrape_subjects_index (session code : string)
    (options : list (option string * option string)) :
  session_code !! session = Some code → post_options code = inr options →
  index_ok (map fst (drop 2 options)) (fst (scrape_subjects' session ∅)).
Proof.
  intros Hc Ho. unfold scrape_subjects. rewrite decide_True, Hc, Ho by done.
  apply subject_options_ok.
  - intros id ss H. by rewrite lookup_empty in H.
  - intros o Hin. apply list_elem_of_In, in_map. by apply list_elem_of_In.
Qed.

End SubjectFacts.

Lemma scrape_subjects_once_witness :
  scrape_subjects Sample2.post_options Sample2.urlopen_spans "2021-2022" ∅
  = (∅, Some (KeyError "2021-2022"))
  ∧ scrape_subjects Sample2.post_options Sample2.urlopen_spans "2021-2022"
      {[ "S 12" := {[ Some "Roads" ]} ]}
    = ({[ "S 12" := {[ Some "Roads" ]} ]}, None).
Proof.
  destruct (scrape_subjects_once Sample2.post_options Sample2.urlopen_spans
              "2021-2022" {[ "S 12" := {[ Some "Roads" ]} ]} "S 12")
    as (Hguard & Hkey & _).
  split.
  - apply Hkey. by vm_compute.
  - apply Hguard. apply insert_non_empty.
Defined.

Lemma scrape_subjects_index_witness :
  fst (scrape_subjects Sample2.post_options Sample2.urlopen_spans "2019-2020" ∅)
  = {[ "S 12" := {[ Some "Roads"; Some "Taxes" ]};
       "H 3001" := {[ Some "Roads" ]} ]}
  ∧ index_ok [Some "Roads"; Some "Taxes"]
      (fst (scrape_subjects Sample2.post_options Sample2.urlopen_spans
              "2019-2020" ∅)).
Proof.
  split; [by vm_compute|].
  apply (scrape_subjects_index Sample2.post_options Sample2.urlopen_spans
           "2019-2020" "123"
           [ (Some "Select a subject", Some "0"); (Some "All", Some "0");
             (Some "Roads", Some "17"); (Some "Taxes", Some "23") ]);
    by vm_compute.
Defined.

(** * The name matcher of the legacy scraper *)

Lemma elem_of_map {B C} (f : B → C) (l : list B) (y : C) :
  y ∈ map f l ↔ ∃ x, f x = y ∧ x ∈ l.
Proof.
  rewrite list_elem_of_In, in_map_iff.
  split; intros (x & ? & ?); exists x; by rewrite ?list_elem_of_In in *.
Qed.

Section MatcherFacts.

Context {A : Type}.
Implicit Types (names : gmap string (option A)) (obj : A).

Lemma add_form_lookup obj names (form k : string) :
  add_form obj names form !! k
  = if decide (normal_form form = k) then
      match names !! k with
      | Some _ => Some None
      | None => Some (Some obj)
      end
    else names !! k.
Proof.
  unfold add_form. case_decide as Hk.
  - subst k. destruct (names !! normal_form form); by rewrite lookup_insert_eq.
  - destruct (names !! normal_form form); by rewrite lookup_insert_ne.
Qed.

Lemma count_form_cons (k form : string) (forms : list string) :
  count_form k (form :: forms)
  = if decide (normal_form form = k) then S (count_form k forms)
    else count_form k forms.
Proof. unfold count_form. rewrite filter_cons. by case_decide. Qed.

(** A key after the loop: untouched when no form has it, an object when
    it is new and one form has it, [None] otherwise. *)
Lemma setitem_forms_lookup (forms : list string) obj names (k : string) :
  setitem_forms forms obj names !! k
  = match count_form k forms with
    | 0%nat => names !! k
    | 1%nat =>
        match names !! k with
        | Some _ => Some None
        | None => Some (Some obj)
        end
    | _ => Some None
    end.
Proof.
  unfold setitem_forms. revert names.
  induction forms as [|form forms IH]; intros names; simpl; [done|].
  rewrite IH, count_form_cons, add_form_lookup.
  case_decide; [|done].
  destruct (count_form k forms) as [|[|n]]; [done | | done].
  by destruct (names !! k).
Qed.

Lemma count_form_perm (k : string) (forms forms' : list string) :
  forms ≡ₚ forms' → count_form k forms = count_form k forms'.
Proof. unfold count_form. by intros ->. Qed.

(** X17.  The forms of a name are kept in a set and the loop over them
    takes them in no fixed order: the matcher it leaves is the same for
    every order of the forms. *)
Theorem setitem_forms_any_order (forms forms' : list string) obj names :
  forms ≡ₚ forms' →
  setitem_forms forms obj names = setitem_forms forms' obj names.
Proof.
  intros Hp. apply map_eq. intros k. rewrite !setitem_forms_lookup.
  by rewrite (count_form_perm k forms forms' Hp).
Qed.

Lemma count_form_zero (k : string) (forms : list string) :
  count_form k forms = 0%nat ↔ k ∉ map normal_form forms.
Proof.
  induction forms as [|form forms IH]; [by split; [intros _ ?%elem_of_nil|]|].
  rewrite count_form_cons. simpl. rewrite not_elem_of_cons.
  case_decide; split; try done; intuition congruence.
Qed.

Lemma count_form_two (k f g : string) (forms : list string) :
  f ∈ forms → g ∈ forms → f ≠ g → normal_form f = k → normal_form g = k →
  (2 <= count_form k forms)%nat.
Proof.
  intros Hf Hg Hne Hkf Hkg. unfold count_form.
  assert (f ∈ filter (fun form => normal_form form = k) forms) as Hf'
    by by apply list_elem_of_filter.
  assert (g ∈ filter (fun form => normal_form form = k) forms) as Hg'
    by by apply list_elem_of_filter.
  destruct (filter _ forms) as [|x [|y l]]; simpl; [| |lia].
  - by apply elem_of_nil in Hf'.
  - apply list_elem_of_singleton in Hf', Hg'. congruence.
Qed.

Lemma getitem_key (x : string) names :
  getitem x names
  = match names !! normal_form (Py2.strip x) with
    | Some v => v
    | None => None
    end.
Proof. reflexivity. Qed.

(** X18.  After [nm[name] = obj], a lookup whose key is no form of the
    name answers as before.  A key of the name that the matcher had
    already, for an object or as shared, is shared from then on and is
    answered [None]; so is a new key that two different forms of the name
    have.  A new key of exactly one form answers [obj].  No key is ever
    taken out, and a shared key stays shared. *)
Theorem setitem_lookup (name : person_name) obj names
    (names' : gmap string (option A)) (x : string) :
  setitem name obj names = Return names' →
  ∃ forms, name_forms name = Return forms
    ∧ (normal_form (Py2.strip x) ∉ map normal_form forms →
       getitem x names' = getitem x names)
    ∧ (normal_form (Py2.strip x) ∈ map normal_form forms →
       is_Some (names !! normal_form (Py2.strip x)) →
       getitem x names' = None)
    ∧ (names !! normal_form (Py2.strip x) = None →
       count_form (normal_form (Py2.strip x)) (remove_dups forms) = 1%nat →
       getitem x names' = Some obj)
    ∧ ((2 <= count_form (normal_form (Py2.strip x)) (remove_dups forms))%nat →
       getitem x names' = None)
    ∧ (∀ k, is_Some (names !! k) → is_Some (names' !! k))
    ∧ (∀ k, names !! k = Some None → names' !! k = Some None).
Proof.
  unfold setitem. destruct (name_forms name) as [forms|] eqn:E; cbn [rbind];
    [|done].
  intros [= <-]. exists forms. split; [done|].
  rewrite !getitem_key.
  assert (∀ k, k ∈ map normal_form forms ↔
               count_form k (remove_dups forms) ≠ 0%nat) as Hin.
  { intros k. rewrite count_form_zero.
    assert (k ∈ map normal_form (remove_dups forms) ↔ k ∈ map normal_form forms)
      as ->; [|by destruct (decide (k ∈ map normal_form forms)); intuition].
    rewrite !elem_of_map. by setoid_rewrite elem_of_remove_dups. }
  split_and!.
  - intros Hk. rewrite setitem_forms_lookup.
    destruct (count_form _ (remove_dups forms)) eqn:Ec; [done|].
    destruct Hk. apply Hin. lia.
  - intros Hk%Hin [v Hv]. rewrite setitem_forms_lookup, Hv.
    by destruct (count_form _ (remove_dups forms)) as [|[|n]].
  - intros Hnone Hc. by rewrite setitem_forms_lookup, Hc, Hnone.
  - intros Hc. rewrite setitem_forms_lookup.
    destruct (count_form _ (remove_dups forms)) as [|[|n]]; [lia | lia | done].
  - intros k [v Hv]. rewrite setitem_forms_lookup, Hv.
    destruct (count_form _ (remove_dups forms)) as [|[|n]]; eauto.
  - intros k Hv. rewrite setitem_forms_lookup, Hv.
    by destruct (count_form _ (remove_dups forms)) as [|[|n]].
Qed.

Lemma name_forms_middle (name : person_name) (forms : list string) :
  name_forms name = Return forms → middle_name name ≠ "" →
  full_name name ∈ forms
  ∧ first_name name ++ " " ++ middle_name name ++ " " ++ last_name name ∈ forms.
Proof.
  unfold name_forms.
  destruct (Py2.first_char (first_name name)) as [f0|]; cbn [rbind]; [|done].
  destruct (middle_name name) as [|c m] eqn:Em; [done|]. simpl.
  intros [= <-] _. split; [left|]. do 9 right. left.
Qed.

(** X19.  A full name that is not the first, middle and last name put
    together with spaces, but has the same key, for instance because of a
    period after the initial, is never matched: the two forms share the
    key, which is marked as shared at once. *)
Theorem setitem_shadows_full_name (name : person_name) obj names
    (names' : gmap string (option A)) :
  setitem name obj names = Return names' →
  middle_name name ≠ "" →
  full_name name
  ≠ first_name name ++ " " ++ middle_name name ++ " " ++ last_name name →
  normal_form (full_name name)
  = normal_form
      (first_name name ++ " " ++ middle_name name ++ " " ++ last_name name) →
  names' !! normal_form (full_name name) = Some None
  ∧ ∀ x, normal_form (Py2.strip x) = normal_form (full_name name) →
      getitem x names' = None.
Proof.
  unfold setitem. destruct (name_forms name) as [forms|] eqn:E; cbn [rbind];
    [|done].
  intros [= <-] Hm Hne Hk.
  destruct (name_forms_middle name forms E Hm) as [Hfull Hfml].
  assert (setitem_forms (remove_dups forms) obj names
            !! normal_form (full_name name) = Some None) as Hnone.
  { rewrite setitem_forms_lookup.
    pose proof (count_form_two (normal_form (full_name name)) _ _
                  (remove_dups forms)
                  (proj2 (elem_of_remove_dups _ _) Hfull)
                  (proj2 (elem_of_remove_dups _ _) Hfml) Hne eq_refl
                  (eq_sym Hk)) as Hc.
    destruct (count_form _ (remove_dups forms)) as [|[|n]]; [lia | lia | done]. }
  split; [done|]. intros x Hx. by rewrite getitem_key, Hx, Hnone.
Qed.

End MatcherFacts.

Lemma setitem_michael : setitem Sample3.michael 1%nat ∅ = Return Sample3.nm1.
Proof. reflexivity. Qed.

Lemma setitem_forms_any_order_witness :
  setitem_forms ["Stephens"; "M Stephens"; "M. Stephens"] 1%nat ∅
  = setitem_forms ["M. Stephens"; "Stephens"; "M Stephens"] 1%nat ∅.
Proof.
  apply setitem_forms_any_order. symmetry.
  apply (Permutation_cons_append ["Stephens"; "M Stephens"] "M. Stephens").
Defined.

Lemma setitem_lookup_witness :
  getitem " stephens, m. " Sample3.nm1 = Some 1%nat
  ∧ getitem "Smith" Sample3.nm1 = None.
Proof.
  destruct (setitem_lookup Sample3.michael 1%nat ∅ Sample3.nm1 " stephens, m. "
              setitem_michael) as (forms & Hf & _ & _ & Hone & _).
  destruct (setitem_lookup Sample3.michael 1%nat ∅ Sample3.nm1 "Smith"
              setitem_michael) as (forms' & Hf' & Hother & _).
  vm_compute in Hf, Hf'. injection Hf as <-. injection Hf' as <-.
  split.
  - apply Hone; by vm_compute.
  - rewrite Hother; [done|]. vm_compute.
    repeat (apply not_elem_of_cons; split; [discriminate|]).
    apply not_elem_of_nil.
Defined.

Lemma setitem_shadows_full_name_witness :
  getitem "Michael J. Stephens" Sample3.nm1 = None
  ∧ getitem "Stephens" Sample3.nm1 = Some 1%nat.
Proof.
  split; [|reflexivity].
  apply (setitem_shadows_full_name Sample3.michael 1%nat ∅ Sample3.nm1
           setitem_michael); done.
Defined.

(** * Files of the legacy scraper *)

Lemma str_length_app (s t : string) :
  String.length (s ++ t) = (String.length s + String.length t)%nat.
Proof. induction s as [|c s IH]; simpl; by rewrite ?IH. Qed.

Lemma str_app_inv_tail (s t u : string) : s ++ u = t ++ u → s = t.
Proof.
  revert t. induction s as [|c s IH]; intros [|d t] H; simpl in *; try done.
  - apply (f_equal String.length) in H. simpl in H.
    rewrite str_length_app in H. lia.
  - apply (f_equal String.length) in H. simpl in H.
    rewrite str_length_app in H. lia.
  - injection H as -> H. by rewrite (IH t H).
Qed.

Lemma colon_split (a a' b b' : string) :
  no_colon a = true → no_colon a' = true →
  a ++ ":" ++ b = a' ++ ":" ++ b' → a = a' ∧ b = b'.
Proof.
  unfold no_colon. revert a'.
  induction a as [|c a IH]; intros [|c' a']; simpl.
  - by intros _ _ [= ->].
  - intros _ [Hc _]%andb_true_iff [= <- _]. done.
  - intros [Hc _]%andb_true_iff _ [= -> _]. done.
  - intros [_ Ha]%andb_true_iff [_ Ha']%andb_true_iff [= -> H].
    by destruct (IH a' Ha Ha' H) as [-> ->].
Qed.

(** X20.  The file of a bill is named after its session, chamber and id,
    and that of a legislator after session, chamber and district.  When
    session and chamber have no colon in them, two records share a file
    only if the three parts are the same; with a colon in a session or a
    chamber they can collide. *)
Theorem record_filename_injective (a b c a' b' c' : string) :
  (no_colon a = true → no_colon b = true →
   no_colon a' = true → no_colon b' = true →
   record_filename a b c = record_filename a' b' c' →
   a = a' ∧ b = b' ∧ c = c')
  ∧ record_filename "2009" "upper:lower" "HB 1"
    = record_filename "2009:upper" "lower" "HB 1".
Proof.
  split; [|reflexivity]. unfold record_filename. intros Ha Hb Ha' Hb' H.
  apply colon_split in H as [-> H]; [|done..].
  apply colon_split in H as [-> H]; [|done..].
  by apply str_app_inv_tail in H as ->.
Qed.

Lemma record_filename_injective_witness :
  "2009" = "2009" ∧ "upper" = "upper" ∧ "HB 1" = "HB 1".
Proof.
  by apply (record_filename_injective "2009" "upper" "HB 1" "2009" "upper" "HB 1").
Defined.

(** X21.  A page that is in the cache is returned from it: the files stay
    as they are and the network is not asked, so the answer is the same
    whatever the network would say.  A page that is not there is fetched
    and written to the cache, after which every call returns that data,
    also when the network is down or has changed; a fetch that raises
    leaves the cache as it was. *)
Theorem urlopen_cached (md5_hex : string -> string) (fetch : string -> res string)
    (cache_dir state url : string) (files : gmap string string) :
  (∀ data, files !! url_cache md5_hex cache_dir state url = Some data →
     ∀ fetch', urlopen md5_hex fetch' cache_dir state url files
               = (Return data, files))
  ∧ (files !! url_cache md5_hex cache_dir state url = None →
     (∀ data, fetch url = Return data →
        ∃ files', urlopen md5_hex fetch cache_dir state url files
                  = (Return data, files')
          ∧ files' !! url_cache md5_hex cache_dir state url = Some data
          ∧ (∀ path, path ≠ url_cache md5_hex cache_dir state url →
               files' !! path = files !! path)
          ∧ ∀ fetch', urlopen md5_hex fetch' cache_dir state url files'
                      = (Return data, files'))
     ∧ (∀ e, fetch url = Raise e →
          urlopen md5_hex fetch cache_dir state url files = (Raise e, files))).
Proof.
  split.
  - intros data H fetch'. unfold urlopen. by rewrite H.
  - intros Hmiss. split.
    + intros data Hf. eexists. unfold urlopen at 1. rewrite Hmiss, Hf.
      split_and!; [done | by rewrite lookup_insert_eq | |].
      * intros path Hp. by rewrite lookup_insert_ne.
      * intros fetch'. unfold urlopen. by rewrite lookup_insert_eq.
    + intros e Hf. unfold urlopen. by rewrite Hmiss, Hf.
Qed.

Lemma urlopen_cached_witness :
  ∃ files,
    urlopen Sample3.md5_hex Sample3.fetch_ok "cache" "sc"
      "http://www.scstatehouse.gov/" ∅
    = (Return "<html>1</html>", files)
    ∧ files !! "cache/sc/0a1b.html" = Some "<html>1</html>"
    ∧ urlopen Sample3.md5_hex Sample3.fetch_down "cache" "sc"
        "http://www.scstatehouse.gov/" files
      = (Return "<html>1</html>", files)
    ∧ urlopen Sample3.md5_hex Sample3.fetch_down "cache" "sc"
        "http://www.scstatehouse.gov/" ∅
      = (Raise (TransportError "timed out"), ∅).
Proof.
  destruct (urlopen_cached Sample3.md5_hex Sample3.fetch_ok "cache" "sc"
              "http://www.scstatehouse.gov/" ∅) as [_ Hmiss].
  destruct Hmiss as [Hok _]; [done|].
  destruct (Hok "<html>1</html>" eq_refl) as (files & Hret & Hin & _ & Hagain).
  destruct (urlopen_cached Sample3.md5_hex Sample3.fetch_down "cache" "sc"
              "http://www.scstatehouse.gov/" ∅) as [_ Hmiss'].
  destruct Hmiss' as [_ Hdown]; [done|].
  exists files. split_and!; [done | done | apply Hagain | by apply Hdown].
Defined.
